(** * Dexter: agent loop, finance meta-router, retry helper and finance tools

  A shallow embedding of the TypeScript sources:
  - [model/llm.ts]            ([withRetry], [callLlm]),
  - [tools/finance/yahoo.ts], [tools/finance/alpha_vantage.ts],
  - [tools/finance/financial-search] ([createFinancialSearch]),
  - [agent/agent.ts], [agent/runner.ts] ([Agent.run], [runAgent]).

  Asynchronous code is embedded in direct style: an awaited call is a call
  to an oracle of the environment that either returns a value or throws,
  and a generator is the list of what it yields together with the way it
  completes. *)

From Stdlib Require Import ZArith Lia.
From stdpp Require Import base gmap strings list pretty.
From Equations Require Import Equations.

Local Open Scope Z_scope.

(* ===================================================================== *)
(** ** JavaScript values, exceptions and completions *)
(* ===================================================================== *)

Module Js.

(** JSON-like values; numbers are the integers among the JS numbers. *)
#[warnings="-register-all"]
Inductive JsVal :=
| VUndefined
| VNull
| VBool (b : bool)
| VNum (n : Z)
| VStr (s : string)
| VArr (items : list JsVal)
| VObj (fields : list (string * JsVal)).

(** What a [throw] carries: an [Error] object (with its [name] and
    [message]) or any other value, kept as the string [String(v)]. *)
Inductive Exn :=
| JsError (name message : string)
| JsThrown (repr : string).

(** Completion of a call: normal return or throw. *)
Inductive Result (A : Type) :=
| Returned (a : A)
| Threw (e : Exn).
Arguments Returned {A} a.
Arguments Threw {A} e.

Definition bind {A B} (r : Result A) (k : A -> Result B) : Result B :=
  match r with
  | Returned a => k a
  | Threw e => Threw e
  end.

(** [try { body } catch (error) { handler(error) }] *)
Definition try_catch {A} (body : Result A) (handler : Exn -> Result A) : Result A :=
  match body with
  | Returned a => Returned a
  | Threw e => handler e
  end.

Definition str_truthy (s : string) : bool :=
  if decide (s = "") then false else true.

(** ToBoolean *)
Definition truthy (v : JsVal) : bool :=
  match v with
  | VUndefined | VNull => false
  | VBool b => b
  | VNum n => negb (n =? 0)
  | VStr s => str_truthy s
  | VArr _ | VObj _ => true
  end.

Fixpoint assoc (k : string) (fields : list (string * JsVal)) : option JsVal :=
  match fields with
  | [] => None
  | (k', v) :: rest => if decide (k = k') then Some v else assoc k rest
  end.

(** Property read [v.k] / [v[k]]: a TypeError on [undefined] and [null],
    [undefined] for a missing property. *)
Definition get (v : JsVal) (k : string) : Result JsVal :=
  match v with
  | VUndefined =>
      Threw (JsError "TypeError"
               ("Cannot read properties of undefined (reading '" +:+ k +:+ "')"))
  | VNull =>
      Threw (JsError "TypeError"
               ("Cannot read properties of null (reading '" +:+ k +:+ "')"))
  | VObj fields => Returned (default VUndefined (assoc k fields))
  | _ => Returned VUndefined
  end.

Definition join_with (sep : string) (parts : list string) : string :=
  match parts with
  | [] => ""
  | p :: ps => foldl (fun acc q => acc +:+ sep +:+ q) p ps
  end.

(** ToString, as used by template literals. *)
Fixpoint to_string (v : JsVal) : string :=
  match v with
  | VUndefined => "undefined"
  | VNull => "null"
  | VBool true => "true"
  | VBool false => "false"
  | VNum n => pretty n
  | VStr s => s
  | VArr items =>
      join_with ","
        (map (fun x => match x with
                       | VUndefined | VNull => ""
                       | _ => to_string x
                       end) items)
  | VObj _ => "[object Object]"
  end.

(** [error instanceof Error ? error.message : String(error)] *)
Definition exn_message (e : Exn) : string :=
  match e with
  | JsError _ m => m
  | JsThrown s => s
  end.

(** [`${error}`]: Error.prototype.toString for an [Error]. *)
Definition exn_to_string (e : Exn) : string :=
  match e with
  | JsError n m =>
      if decide (m = "") then n
      else if decide (n = "") then m
      else n +:+ ": " +:+ m
  | JsThrown s => s
  end.

(** [new Error(message)] *)
Definition Error (message : string) : Exn := JsError "Error" message.

End Js.
Import Js.

(* ===================================================================== *)
(** ** Messages exchanged with the language model *)
(* ===================================================================== *)

Module Messages.

(** [message.content]: a string, or an array of content blocks. *)
Inductive Content :=
| CStr (s : string)
| CBlocks (blocks : list JsVal).

(** [if (content)]: an array is truthy even when empty. *)
Definition content_truthy (c : Content) : bool :=
  match c with
  | CStr s => str_truthy s
  | CBlocks _ => true
  end.

Record ToolCall := {
  tc_id : option string;
  tc_name : string;
  tc_args : gmap string JsVal;
}.

Record TokenUsage := {
  inputTokens : Z;
  outputTokens : Z;
  totalTokens : Z;
}.

Record AIMessage := {
  content : Content;
  tool_calls : option (list ToolCall);
  kw_tokenUsage : option TokenUsage;   (* additional_kwargs?.tokenUsage *)
}.

End Messages.
Import Messages.

(* ===================================================================== *)
(** ** model/llm.ts: retry with exponential backoff *)
(* ===================================================================== *)

Module Llm.

(** What a call of [withRetry] does to the outside, in order. *)
Inductive Effect :=
| Call (attempt : Z)            (* fn() is invoked *)
| LogError (line : string)      (* console.error *)
| Sleep (ms : Z).               (* setTimeout(r, ms) awaited *)

Definition retry_log_line (provider : string) (attempt maxAttempts : Z) (e : Exn) : string :=
  "[" +:+ provider +:+ " API] error (attempt " +:+ pretty (attempt + 1) +:+ "/"
      +:+ pretty maxAttempts +:+ "): " +:+ exn_message e.

Section WithRetry.
Context {T : Type}.
(** [fn] is called once per attempt; what it does at each attempt is given by
    the environment. *)
Variable fn : Z -> Result T.
Variable provider : string.
Variable maxAttempts : Z.

(** The [for] loop of [withRetry], entered with the loop variable at
    [attempt]. *)
Equations? retry_from (attempt : Z) : list Effect * Result T
  by wf (Z.to_nat (maxAttempts - attempt)) lt :=
  retry_from attempt with Z_lt_dec attempt maxAttempts => {
    | left _ with fn attempt => {
        | Returned v := ([Call attempt], Returned v)
        | Threw e with decide (attempt = maxAttempts - 1) => {
            | left _ :=
                ([Call attempt; LogError (retry_log_line provider attempt maxAttempts e)],
                 Threw e)
            | right _ :=
                let rest := retry_from (attempt + 1) in
                (Call attempt
                   :: LogError (retry_log_line provider attempt maxAttempts e)
                   :: Sleep (500 * 2 ^ attempt) :: rest.1,
                 rest.2) } }
    | right _ := ([], Threw (Error "Unreachable")) }.
Proof. lia. Qed.

End WithRetry.

(** [withRetry(fn, provider, maxAttempts = 3)] *)
Definition withRetry {T} (fn : Z -> Result T) (provider : string)
    (maxAttempts : option Z) : list Effect * Result T :=
  retry_from fn provider (default 3 maxAttempts) 0.

Definition sleeps (log : list Effect) : list Z :=
  omap (fun x => match x with Sleep ms => Some ms | _ => None end) log.

Definition calls (log : list Effect) : list Z :=
  omap (fun x => match x with Call k => Some k | _ => None end) log.

(** The collaborators of [callLlm] that live outside the file: the model
    factory (which throws when the provider's API key is missing), the
    provider table, the methods with which the chain is built before the
    first attempt ([llm.withStructuredOutput], [llm.bindTools] when the
    model has it, [ChatPromptTemplate.fromMessages] on the system prompt;
    each may throw), the default system prompt, and the remote model behind
    [chain.invoke], whose k-th invocation of this call returns a message or
    throws. *)
Record LlmEnv := {
  createLLM : string -> Result unit;
  resolveProvider_displayName : string -> string;
  withStructuredOutput : Result unit;
  bindTools : option (list string -> Result unit);
  DEFAULT_SYSTEM_PROMPT : string;
  fromMessages : string -> Result unit;
  chain_invoke : string -> Z -> Result AIMessage;
  extractUsage : AIMessage -> option TokenUsage;
}.

Record CallLlmOptions := {
  opt_model : option string;
  opt_systemPrompt : option string;
  opt_outputSchema : bool;
  opt_tools : option (list string);
}.

Definition DEFAULT_MODEL : string := "gpt-4o-mini".

(** [LlmResult.response]: the message's content when neither a schema nor
    tools were given, the whole message otherwise. *)
Inductive LlmResponse :=
| RespContent (c : Content)
| RespMessage (m : AIMessage).

Record LlmResult := {
  response : LlmResponse;
  usage : option TokenUsage;
}.

(** The tail of [callLlm]: what is made of the message the chain returned. *)
Definition to_result (env : LlmEnv) (options : CallLlmOptions) (result : AIMessage)
    : LlmResult :=
  let usage := extractUsage env result in
  if negb (opt_outputSchema options) && negb (bool_decide (is_Some (opt_tools options)))
  then {| response := RespContent (content result); usage := usage |}
  else {| response := RespMessage result; usage := usage |}.

(** What [callLlm] does before the first attempt: the model is created,
    the output schema, or else a non-empty list of tools, is bound to it,
    and the prompt template is made of the system prompt. *)
Definition build_chain (env : LlmEnv) (options : CallLlmOptions) : Result unit :=
  let model := default DEFAULT_MODEL (opt_model options) in
  let systemPrompt := default (DEFAULT_SYSTEM_PROMPT env) (opt_systemPrompt options) in
  bind (createLLM env model) (fun _ =>
  bind (if opt_outputSchema options then withStructuredOutput env
        else match opt_tools options, bindTools env with
             | Some (tool :: tools), Some bind_tools => bind_tools (tool :: tools)
             | _, _ => Returned ()
             end) (fun _ =>
  fromMessages env systemPrompt)).

(** [callLlm(prompt, options)]; [withRetry] is called without a third
    argument. *)
Definition callLlm (env : LlmEnv) (prompt : string) (options : CallLlmOptions)
    : list Effect * Result LlmResult :=
  let model := default DEFAULT_MODEL (opt_model options) in
  match build_chain env options with
  | Threw e => ([], Threw e)
  | Returned _ =>
      let provider := resolveProvider_displayName env model in
      let t := withRetry (chain_invoke env prompt) provider None in
      (t.1, bind t.2 (fun result => Returned (to_result env options result)))
  end.

(** The sleeps made while the attempts [a], ..., [a + n - 1] fail. *)
Fixpoint backoff (a : Z) (n : nat) : list Z :=
  match n with
  | O => []
  | S n' => 500 * 2 ^ a :: backoff (a + 1) n'
  end.

End Llm.

(* ===================================================================== *)
(** ** Tool results *)
(* ===================================================================== *)

Module ToolTypes.

(** The outcome of a tool, as the data model of the specification has it. *)
Inductive ToolOutcome (D : Type) :=
| Success (data : D) (sourceUrls : list string)
| Failure (message : string).
Arguments Success {D} data sourceUrls.
Arguments Failure {D} message.

(** Modelled from the spec: [formatToolResult] of [tools/types.ts], which is
    not among the sources. It wraps a payload and its provenance URLs into
    the result a tool returns: the Success outcome
    [{ data, sourceUrls }]. *)
Definition formatToolResult {D} (data : D) (sourceUrls : list string) : ToolOutcome D :=
  Success data sourceUrls.

End ToolTypes.
Import ToolTypes.

(* ===================================================================== *)
(** ** tools/finance/yahoo.ts and tools/finance/alpha_vantage.ts *)
(* ===================================================================== *)

Module Finance.

(** The outside of the finance tools: the Yahoo client, [fetch] followed by
    [response.json()], the process environment, the clock, and the number
    parsers of the language. *)
Record FinanceEnv := {
  yahooFinance_quote : string -> Result JsVal;
  yahooFinance_quoteSummary : string -> Result JsVal;
  yahooFinance_search : string -> Result JsVal;
  fetch_json : string -> Result JsVal;
  process_env : gmap string string;
  now_toISOString : string;
  parseFloat : JsVal -> JsVal;
  parseInt : JsVal -> JsVal;
}.

(** Reads the properties [props] of [v] one after the other and stores them
    under the given keys of an object literal. *)
Fixpoint pick (v : JsVal) (props : list (string * string))
    : Result (list (string * JsVal)) :=
  match props with
  | [] => Returned []
  | (key, prop) :: rest =>
      bind (get v prop) (fun x =>
      bind (pick v rest) (fun fields => Returned ((key, x) :: fields)))
  end.

(** [Object.keys(v).length === 0] *)
Definition no_keys (v : JsVal) : bool :=
  match v with
  | VObj fields => bool_decide (fields = [])
  | VArr items => bool_decide (items = [])
  | VStr s => bool_decide (s = "")
  | _ => true
  end.

Section Tools.
Variable env : FinanceEnv.

Definition failed_to_fetch (what ticker : string) (error : Exn) : Result (ToolOutcome JsVal) :=
  Returned (formatToolResult
    (VObj [("error", VStr ("Failed to fetch " +:+ what +:+ " for " +:+ ticker +:+ ": "
                            +:+ exn_to_string error))]) []).

(** [getYahooPriceSnapshot.func({ ticker })] *)
Definition getYahooPriceSnapshot (ticker : string) : Result (ToolOutcome JsVal) :=
  try_catch
    (bind (yahooFinance_quote env ticker) (fun quote =>
     bind (pick quote
             [("symbol", "symbol"); ("price", "regularMarketPrice");
              ("currency", "currency"); ("exchange", "exchange");
              ("open", "regularMarketOpen"); ("high", "regularMarketDayHigh");
              ("low", "regularMarketDayLow");
              ("previousClose", "regularMarketPreviousClose");
              ("volume", "regularMarketVolume"); ("marketCap", "marketCap")])
       (fun fields =>
     let data := VObj (fields ++ [("timestamp", VStr (now_toISOString env))]) in
     Returned (formatToolResult data ["https://finance.yahoo.com/quote/" +:+ ticker]))))
    (failed_to_fetch "price" ticker).

(** [getYahooFundamentals.func({ ticker })] *)
Definition getYahooFundamentals (ticker : string) : Result (ToolOutcome JsVal) :=
  try_catch
    (bind (yahooFinance_quoteSummary env ticker) (fun result =>
     bind (pick result
             [("valuation", "defaultKeyStatistics"); ("financials", "financialData");
              ("balanceSheet", "balanceSheetHistory");
              ("incomeStatement", "incomeStatementHistory");
              ("cashFlow", "cashflowStatementHistory")])
       (fun fields =>
     Returned (formatToolResult (VObj fields)
                 ["https://finance.yahoo.com/quote/" +:+ ticker +:+ "/financials"]))))
    (failed_to_fetch "fundamentals" ticker).

(** [news.news.map(item => ({ title, link, publisher, providerPublishTime, type }))] *)
Fixpoint news_items (items : list JsVal) : Result (list JsVal) :=
  match items with
  | [] => Returned []
  | item :: rest =>
      bind (pick item [("title", "title"); ("link", "link"); ("publisher", "publisher");
                       ("providerPublishTime", "providerPublishTime"); ("type", "type")])
        (fun fields =>
      bind (news_items rest) (fun out => Returned (VObj fields :: out)))
  end.

(** [newsItems.map(n => n.link).filter(l => l)], the links being strings. *)
Definition news_links (newsItems : list JsVal) : list string :=
  omap (fun n => match n with
                 | VObj fields =>
                     match assoc "link" fields with
                     | Some (VStr l) => if str_truthy l then Some l else None
                     | _ => None
                     end
                 | _ => None
                 end) newsItems.

(** [getYahooNews.func({ ticker })] *)
Definition getYahooNews (ticker : string) : Result (ToolOutcome JsVal) :=
  try_catch
    (bind (yahooFinance_search env ticker) (fun news =>
     bind (get news "news") (fun arr =>
     match arr with
     | VArr items =>
         bind (news_items items) (fun newsItems =>
         Returned (formatToolResult (VObj [("news", VArr newsItems)])
                     (news_links newsItems)))
     | _ =>
         bind (get arr "map") (fun _ =>
         Threw (JsError "TypeError" "news.news.map is not a function"))
     end)))
    (failed_to_fetch "news" ticker).

(** [getAlphaVantagePriceSnapshot.func({ ticker })] *)
Definition getAlphaVantagePriceSnapshot (ticker : string) : Result (ToolOutcome JsVal) :=
  try_catch
    (match process_env env !! "ALPHA_VANTAGE_API_KEY" with
     | None => Threw (Error "ALPHA_VANTAGE_API_KEY is not set in .env")
     | Some apiKey =>
         if negb (str_truthy apiKey)
         then Threw (Error "ALPHA_VANTAGE_API_KEY is not set in .env")
         else
           let url := "https://www.alphavantage.co/query?function=GLOBAL_QUOTE&symbol="
                        +:+ ticker +:+ "&apikey=" +:+ apiKey in
           bind (fetch_json env url) (fun rawData =>
           bind (get rawData "Error Message") (fun errorMessage =>
           if truthy errorMessage then Threw (Error (to_string errorMessage)) else
           bind (get rawData "Note") (fun note =>
           if truthy note
           then Threw (Error ("Alpha Vantage API Limit: " +:+ to_string note)) else
           bind (get rawData "Global Quote") (fun quote =>
           if negb (truthy quote) || no_keys quote
           then Returned (formatToolResult
                  (VObj [("error", VStr ("No data found for " +:+ ticker
                                         +:+ ". check validity."))]) [])
           else
             bind (pick quote
                     [("symbol", "01. symbol"); ("price", "05. price");
                      ("open", "02. open"); ("high", "03. high"); ("low", "04. low");
                      ("volume", "06. volume");
                      ("latestTradingDay", "07. latest trading day");
                      ("previousClose", "08. previous close");
                      ("change", "09. change");
                      ("changePercent", "10. change percent")])
               (fun raw =>
             let data :=
               VObj (map (fun kv =>
                       if bool_decide (kv.1 ∈ ["price"; "open"; "high"; "low";
                                               "previousClose"; "change"])
                       then (kv.1, parseFloat env kv.2)
                       else if bool_decide (kv.1 = "volume")
                       then (kv.1, parseInt env kv.2)
                       else kv) raw) in
             Returned (formatToolResult data ["https://www.alphavantage.co"]))))))
     end)
    (failed_to_fetch "price" ticker).

(** [getAlphaVantageOverview.func({ ticker })]: the key is read without a
    check, an absent one being spliced into the URL as [undefined]. *)
Definition getAlphaVantageOverview (ticker : string) : Result (ToolOutcome JsVal) :=
  try_catch
    (let apiKey := default "undefined" (process_env env !! "ALPHA_VANTAGE_API_KEY") in
     let url := "https://www.alphavantage.co/query?function=OVERVIEW&symbol="
                  +:+ ticker +:+ "&apikey=" +:+ apiKey in
     bind (fetch_json env url) (fun data =>
     bind (get data "Error Message") (fun errorMessage =>
     if truthy errorMessage then Threw (Error (to_string errorMessage)) else
     bind (get data "Note") (fun note =>
     if truthy note
     then Threw (Error ("Alpha Vantage API Limit: " +:+ to_string note)) else
     if no_keys data
     then Returned (formatToolResult
            (VObj [("error", VStr ("No overview data found for " +:+ ticker +:+ "."))]) [])
     else Returned (formatToolResult data ["https://www.alphavantage.co"])))))
    (failed_to_fetch "overview" ticker).

End Tools.

(** What is returned is a formatted tool result. *)
Definition formatted (r : Result (ToolOutcome JsVal)) : Prop :=
  exists data urls, r = Returned (formatToolResult data urls).

End Finance.

(* ===================================================================== *)
(** ** tools/finance/financial-search: the meta-router *)
(* ===================================================================== *)

Module FinancialSearch.

(** What [JSON.parse] yields for the text a sub-tool returned: the parsed
    value itself, its [data] property ([VUndefined] when there is none) and
    its [sourceUrls] property when present, an array of strings as
    [formatToolResult] writes it and as [allUrls: string[]] declares. *)
Record Parsed := {
  parsed_value : JsVal;
  parsed_data : JsVal;
  parsed_sourceUrls : option (list string);
}.

(** A sub-tool seen from the router: [tool.invoke(tc.args, config)], then
    the stringification and [JSON.parse] of what it returned. Any of the
    three may throw. The first argument is the position of the call in the
    batch. *)
Abbreviation SubTool := (nat -> gmap string JsVal -> Result Parsed).

(** An element of [results]. [error] is [null] or a message. *)
Record SubResult := {
  tool : string;
  args : gmap string JsVal;
  data : JsVal;
  sourceUrls : list string;
  error : option string;
}.

(** [if (result.error)] *)
Definition error_set (r : SubResult) : bool :=
  match error r with
  | Some m => str_truthy m
  | None => false
  end.

(** [Array.from(new Set(urls))]: every string once, in the order of its
    first occurrence. *)
Definition Set_from (urls : list string) : list string :=
  foldl (fun seen u => if decide (u ∈ seen) then seen else seen ++ [u]) [] urls.

Section Router.
Variable FINANCE_TOOL_MAP : gmap string SubTool.
Variable FINANCE_TOOLS : list string.
Variable llm : Llm.LlmEnv.
Variable routerPrompt : string.

(** The body of [toolCalls.map(async (tc) => { try ... catch ... })] for the
    call at position [i]. *)
Definition dispatch (i : nat) (tc : ToolCall) : SubResult :=
  let attempt :=
    match FINANCE_TOOL_MAP !! tc_name tc with
    | None => Threw (Error ("Tool '" +:+ tc_name tc +:+ "' not found"))
    | Some subtool =>
        bind (subtool i (tc_args tc)) (fun parsed =>
        Returned {| tool := tc_name tc;
                    args := tc_args tc;
                    data := if truthy (parsed_data parsed)
                            then parsed_data parsed else parsed_value parsed;
                    sourceUrls := default [] (parsed_sourceUrls parsed);
                    error := None |})
    end in
  match attempt with
  | Returned r => r
  | Threw e =>
      {| tool := tc_name tc;
         args := tc_args tc;
         data := VNull;
         sourceUrls := [];
         error := Some (exn_message e) |}
  end.

(** The key under which the merge loop stores a result. *)
Definition merge_key (result : SubResult) : string :=
  if error_set result then tool result +:+ "_error"
  else
    let ticker := default VUndefined (args result !! "ticker") in
    if truthy ticker then tool result +:+ "_" +:+ to_string ticker else tool result.

(** The value stored under that key. *)
Definition merge_value (result : SubResult) : JsVal :=
  if error_set result then VStr (default "" (error result)) else data result.

(** One pass of [for (const result of results)]. *)
Definition merge_step (acc : gmap string JsVal * list string) (result : SubResult)
    : gmap string JsVal * list string :=
  let '(combinedData, allUrls) := acc in
  if error_set result
  then (<[tool result +:+ "_error" := VStr (default "" (error result))]> combinedData,
        allUrls)
  else
    let ticker := default VUndefined (args result !! "ticker") in
    let key := if truthy ticker then tool result +:+ "_" +:+ to_string ticker
               else tool result in
    (<[key := data result]> combinedData, allUrls ++ sourceUrls result).

Definition merge (results : list SubResult) : gmap string JsVal * list string :=
  foldl merge_step (∅, []) results.

(** What [func] does once the router has answered. *)
Definition route (aiMessage : Llm.LlmResponse) : ToolOutcome (gmap string JsVal) :=
  let toolCalls :=
    match aiMessage with
    | Llm.RespMessage m => tool_calls m
    | Llm.RespContent _ => None
    end in
  match toolCalls with
  | None | Some [] =>
      formatToolResult
        {[ "error" := VStr "No tools selected for query";
           "message" := VStr (match aiMessage with
                              | Llm.RespMessage m =>
                                  match content m with
                                  | CStr s => s
                                  | CBlocks _ => "Router did not select tools"
                                  end
                              | Llm.RespContent _ => "Router did not select tools"
                              end) ]} []
  | Some toolCalls =>
      let results := imap dispatch toolCalls in
      let '(combinedData, allUrls) := merge results in
      formatToolResult combinedData (Set_from allUrls)
  end.

(** The options of the routing call: the model, the router prompt and the
    finance tools bound as callable tools. *)
Definition router_options (model : string) : Llm.CallLlmOptions :=
  {| Llm.opt_model := Some model;
     Llm.opt_systemPrompt := Some routerPrompt;
     Llm.opt_outputSchema := false;
     Llm.opt_tools := Some FINANCE_TOOLS |}.

(** [func(input)] of the [financial_search] tool made by
    [createFinancialSearch(model, apiKeys)]. *)
Definition financial_search (model : string) (query : string)
    : Result (ToolOutcome (gmap string JsVal)) :=
  bind (Llm.callLlm llm query (router_options model)).2
    (fun r => Returned (route (Llm.response r))).

End Router.

End FinancialSearch.

(* ===================================================================== *)
(** ** agent/agent.ts and agent/runner.ts: the agent loop *)
(* ===================================================================== *)

Module Agent.

Inductive BaseMessage :=
| SystemMessage (text : string)
| HumanMessage (text : string)
| AIMessageOf (text : string).

Inductive Role := user | assistant.

Record Turn := {
  role : Role;
  turn_content : string;
}.

(** [ToolCallRecord] of the data model. *)
Record ToolCallRecord := {
  request : ToolCall;
  outcome : ToolOutcome JsVal;
  startedAt : Z;
  finishedAt : Z;
}.

(** Modelled from the spec: the scratchpad of [agent/run-context.ts], which
    is not among the sources. It owns the ordered sequence of tool-call
    records and the ordered sequence of thinking fragments; [addThinking]
    appends a fragment, [getToolCallRecords] returns the records, nothing
    removes or reorders history. *)
Record Scratchpad := {
  records : list ToolCallRecord;
  thinking : list string;
}.

Definition addThinking (thought : string) (sp : Scratchpad) : Scratchpad :=
  {| records := records sp; thinking := thinking sp ++ [thought] |}.

Definition getToolCallRecords (sp : Scratchpad) : list ToolCallRecord := records sp.

Record RunContext := {
  query : string;
  iteration : Z;
  scratchpad : Scratchpad;
}.

(** Modelled from the spec: [createRunContext(query)], the iteration
    counter starting at 0 over an empty scratchpad. *)
Definition createRunContext (q : string) : RunContext :=
  {| query := q; iteration := 0; scratchpad := {| records := []; thinking := [] |} |}.

Inductive AgentEvent :=
| ev_thinking (message : string)
| ev_tool_start (tool : string) (args : gmap string JsVal)
| ev_tool_end (tool : string) (result : ToolOutcome JsVal)
| ev_done (answer : string) (toolCalls : list ToolCallRecord) (iterations : Z)
          (totalTime : Z) (tokenUsage : option TokenUsage)
| ev_error (error : string).

(** An [AbortSignal]: the value its [aborted] flag has when it is read at
    the top of a given iteration. *)
Record AbortSignal := {
  aborted : Z -> bool;
}.

Record AgentConfig := {
  model : option string;
  modelProvider : option string;
  maxIterations : option Z;
  signal : option AbortSignal;
}.

(** What the generator does, in order: it yields an event to its consumer,
    or it invokes the language model. *)
Inductive Action :=
| Yield (event : AgentEvent)
| Invoke (iteration : Z) (messages : list BaseMessage).

(** A run of a generator: its actions up to its completion, which is a
    normal return or an uncaught exception. *)
Definition Trace : Type := list Action * Result unit.

Definition events (acts : list Action) : list AgentEvent :=
  omap (fun a => match a with Yield e => Some e | Invoke _ _ => None end) acts.

Definition invocations (acts : list Action) : list Z :=
  omap (fun a => match a with Invoke k _ => Some k | Yield _ => None end) acts.

(** The collaborators of the loop: the chat model (its answer to the
    invocation of iteration [k]), the clock, the prompt builders, the two
    renderers of the scratchpad, [JSON.stringify] on content blocks, and
    the tool executor, which yields events and then hands back the
    scratchpad with the records of the batch appended, or throws. *)
Record AgentEnv := {
  llm_invoke : Z -> list BaseMessage -> Result AIMessage;
  startTime : Z;
  Date_now : Z -> Z;
  soulContent : string;
  buildSystemPrompt : string -> string -> string;
  buildIterationPrompt : string -> string -> string -> string;
  getToolResults : Scratchpad -> string;
  formatToolUsageForPrompt : Scratchpad -> string;
  JSON_stringify : list JsVal -> string;
  executeAll : AIMessage -> RunContext -> list AgentEvent * Result Scratchpad;
}.

Definition is_done (e : AgentEvent) : bool :=
  match e with ev_done _ _ _ _ _ => true | _ => false end.

(** The terminal events of the [AgentEvent] union. *)
Definition is_terminal_event (e : AgentEvent) : bool :=
  match e with ev_done _ _ _ _ _ | ev_error _ => true | _ => false end.

Definition is_tool_event (e : AgentEvent) : bool :=
  match e with ev_tool_start _ _ | ev_tool_end _ _ => true | _ => false end.

Definition budget_note : string :=
  "I've reached the maximum number of attempts and couldn't find a final answer. Here is the information I gathered so far: 

".

Section Run.
Variable config : AgentConfig.
Variable env : AgentEnv.
Variable history : option (list Turn).

(** [this.config.signal?.aborted] at the top of iteration [k] *)
Definition signal_aborted (k : Z) : bool :=
  match signal config with
  | Some s => aborted s k
  | None => false
  end.

(** [buildSystemPrompt(this.config.model || 'gpt-4o', soulContent)] *)
Definition systemPrompt : string :=
  buildSystemPrompt env
    (match model config with
     | Some name => if str_truthy name then name else "gpt-4o"
     | None => "gpt-4o"
     end)
    (soulContent env).

Definition history_messages : list BaseMessage :=
  match history with
  | Some turns =>
      map (fun turn => match role turn with
                       | user => HumanMessage (turn_content turn)
                       | assistant => AIMessageOf (turn_content turn)
                       end) turns
  | None => []
  end.

(** The messages of one iteration: system prompt, history, iteration prompt. *)
Definition build_messages (ctx : RunContext) : list BaseMessage :=
  SystemMessage systemPrompt
    :: history_messages
    ++ [HumanMessage (buildIterationPrompt env (query ctx)
                        (getToolResults env (scratchpad ctx))
                        (formatToolUsageForPrompt env (scratchpad ctx)))].

(** [typeof content === 'string' ? content : JSON.stringify(content)] *)
Definition content_text (c : Content) : string :=
  match c with
  | CStr s => s
  | CBlocks blocks => JSON_stringify env blocks
  end.

(** [if (response.content) ctx.scratchpad.addThinking(thought)] *)
Definition note_thinking (response : AIMessage) (sp : Scratchpad) : Scratchpad :=
  if content_truthy (content response)
  then addThinking (content_text (content response)) sp
  else sp.

(** [response.tool_calls && response.tool_calls.length > 0] *)
Definition has_tool_calls (response : AIMessage) : bool :=
  match tool_calls response with
  | Some (_ :: _) => true
  | _ => false
  end.

Definition thinking_event (k : Z) : AgentEvent :=
  ev_thinking (if decide (k = 1) then "Analyzing query..." else "Analyzing results...").

Definition final_answer (k : Z) (response : AIMessage) (sp : Scratchpad) : AgentEvent :=
  ev_done (content_text (content response)) (getToolCallRecords sp) k
          (Date_now env k - startTime env) (kw_tokenUsage response).

Definition budget_exhausted (ctx : RunContext) : AgentEvent :=
  ev_done (budget_note +:+ getToolResults env (scratchpad ctx))
          (getToolCallRecords (scratchpad ctx)) (iteration ctx)
          (Date_now env (iteration ctx) - startTime env) None.

Definition limit : Z := default 10 (maxIterations config).

(** [ctx.iteration++] *)
Definition advance (ctx : RunContext) : RunContext :=
  {| query := query ctx; iteration := iteration ctx + 1; scratchpad := scratchpad ctx |}.

(** The context once its scratchpad has been written to. *)
Definition with_scratchpad (ctx : RunContext) (sp : Scratchpad) : RunContext :=
  {| query := query ctx; iteration := iteration ctx; scratchpad := sp |}.

(** What an iteration does before it looks at the answer of the model: it
    yields a [thinking] event and invokes the model. *)
Definition ask (ctx : RunContext) : list Action :=
  [Yield (thinking_event (iteration ctx)); Invoke (iteration ctx) (build_messages ctx)].

(** The [while (ctx.iteration < maxIterations)] loop of [Agent.run] and the
    statement after it, entered with the run context [ctx]. *)
Equations? run_loop (ctx : RunContext) : Trace
  by wf (Z.to_nat (limit - iteration ctx)) lt :=
  run_loop ctx with Z_lt_dec (iteration ctx) limit => {
    | right _ := ([Yield (budget_exhausted ctx)], Returned tt)
    | left _ with signal_aborted (iteration (advance ctx)) => {
        | true := ([], Threw (Error "Agent execution cancelled"))
        | false with llm_invoke env (iteration (advance ctx))
                       (build_messages (advance ctx)) => {
            | Threw e := (ask (advance ctx), Threw e)
            | Returned response with has_tool_calls response => {
                | false :=
                    (ask (advance ctx)
                       ++ [Yield (final_answer (iteration (advance ctx)) response
                                    (note_thinking response (scratchpad ctx)))],
                     Returned tt)
                | true with executeAll env response
                              (with_scratchpad (advance ctx)
                                 (note_thinking response (scratchpad ctx))) => {
                    | (evs, Threw e) :=
                        (ask (advance ctx) ++ map Yield evs, Threw e)
                    | (evs, Returned sp) :=
                        let rest := run_loop (with_scratchpad (advance ctx) sp) in
                        (ask (advance ctx) ++ map Yield evs ++ rest.1, rest.2) } } } } }.
Proof. cbn. lia. Qed.

(** [Agent.run(query, history)] *)
Definition run (q : string) : Trace := run_loop (createRunContext q).

End Run.

(** A value held by a variable of [runAgent]: an [Agent], or the promise
    that an [async] function returns for one. *)
Inductive Ref :=
| RefAgent (config : AgentConfig) (env : AgentEnv)
| RefPromise (settles_to : Result (AgentConfig * AgentEnv)).

(** [Agent.create(config)]: an [async] static method, so that its caller
    receives a promise; the promise settles to the agent, or is rejected
    when the model or the tools cannot be set up. *)
Definition create (created : Result AgentEnv) (config : AgentConfig) : Ref :=
  RefPromise (bind created (fun env => Returned (config, env))).

(** [agent.run(query, history)] on such a value: only an [Agent] has the
    method. *)
Definition call_run (agent : Ref) (q : string) (history : option (list Turn)) : Trace :=
  match agent with
  | RefAgent config env => run config env history q
  | RefPromise _ => ([], Threw (JsError "TypeError" "agent.run is not a function"))
  end.

(** [for await (const event of stream) yield event]: what the stream
    yields is yielded again, and its exception propagates. *)
Definition forward (stream : Trace) : Trace := stream.

(** [runAgent(query, config, history)]: the result of [Agent.create] is
    used as it is returned, without [await]. *)
Definition runAgent (created : Result AgentEnv) (q : string) (config : AgentConfig)
    (history : option (list Turn)) : Trace :=
  let agent := create created config in
  let stream := call_run agent q history in
  forward stream.

(** The event sequence of a run has exactly one terminal signal, at its end:
    a run that returns ends with a terminal event and has no other, a run
    that fails has none (the failure is the signal). *)
Definition one_terminal_last (t : Trace) : bool :=
  match t.2 with
  | Returned _ =>
      match reverse (events t.1) with
      | last :: before => is_terminal_event last && forallb (fun e => negb (is_terminal_event e)) before
      | [] => false
      end
  | Threw _ => forallb (fun e => negb (is_terminal_event e)) (events t.1)
  end.

(** The executor yields progress events only: [tool_start] and [tool_end]
    (section 4.3 of the specification). *)
Definition tool_events_only (env : AgentEnv) : Prop :=
  forall response ctx, Forall (fun e => is_tool_event e = true) (executeAll env response ctx).1.

(** Modelled from the spec: [AgentToolExecutor.executeAll] of
    [agent/tool-executor.ts], which is not among the sources, over a
    registry in which none of the requested names is registered (section
    4.3, steps 1, 4 and 5): every request gets a [tool_start] and a
    [tool_end] event, in request order, and one record with the outcome
    Failure("tool not found"). *)
Definition executeAll_unregistered (response : AIMessage) (ctx : RunContext)
    : list AgentEvent * Result Scratchpad :=
  let calls := default [] (tool_calls response) in
  (flat_map (fun tc => [ev_tool_start (tc_name tc) (tc_args tc);
                        ev_tool_end (tc_name tc) (Failure "tool not found")]) calls,
   Returned {| records := records (scratchpad ctx)
                            ++ map (fun tc => {| request := tc;
                                                 outcome := Failure "tool not found";
                                                 startedAt := iteration ctx;
                                                 finishedAt := iteration ctx |}) calls;
               thinking := thinking (scratchpad ctx) |}).

End Agent.

(* ===================================================================== *)
(** ** Concrete environments, for examples *)
(* ===================================================================== *)

Module Demo.

Definition call (name : string) (arguments : gmap string JsVal) : ToolCall :=
  {| tc_id := None; tc_name := name; tc_args := arguments |}.

(** A response that thinks aloud and requests one tool. *)
Definition asks_for_price : AIMessage :=
  {| content := CStr "I need the latest quote.";
     tool_calls := Some [call "unknown_tool" {[ "ticker" := VStr "RELIANCE.BSE" ]}];
     kw_tokenUsage := None |}.

(** A response without tool calls: the final answer. *)
Definition answers : AIMessage :=
  {| content := CStr "RELIANCE.BSE trades at 2890.";
     tool_calls := None;
     kw_tokenUsage := None |}.

Definition agent_env (llm : Z -> list Agent.BaseMessage -> Result AIMessage)
    : Agent.AgentEnv :=
  {| Agent.llm_invoke := llm;
     Agent.startTime := 0;
     Agent.Date_now := fun k => 100 * k;
     Agent.soulContent := "";
     Agent.buildSystemPrompt := fun model soul => "You are Dexter, on " +:+ model;
     Agent.buildIterationPrompt := fun q results usage => q +:+ results +:+ usage;
     Agent.getToolResults :=
       fun sp => "records: " +:+ pretty (length (Agent.records sp));
     Agent.formatToolUsageForPrompt := fun _ => "";
     Agent.JSON_stringify := fun _ => "[]";
     Agent.executeAll := Agent.executeAll_unregistered |}.

(** The model requests a tool at every iteration. *)
Definition always_tools : Agent.AgentEnv := agent_env (fun _ _ => Returned asks_for_price).

(** The model requests a tool once and then answers. *)
Definition tools_then_answer : Agent.AgentEnv :=
  agent_env (fun k _ => if decide (k = 1) then Returned asks_for_price else Returned answers).

Definition config_with (M : Z) (signal : option Agent.AbortSignal) : Agent.AgentConfig :=
  {| Agent.model := None; Agent.modelProvider := None;
     Agent.maxIterations := Some M; Agent.signal := signal |}.

(** A token that is signaled from the start. *)
Definition signaled : Agent.AbortSignal := {| Agent.aborted := fun _ => true |}.

Definition fresh (q : string) : Agent.RunContext := Agent.createRunContext q.

(** The provider behind [callLlm]: the first attempt fails, the second
    returns [reply]. *)
Definition flaky_llm (reply : AIMessage) : Llm.LlmEnv :=
  {| Llm.createLLM := fun _ => Returned ();
     Llm.resolveProvider_displayName := fun _ => "OpenAI";
     Llm.withStructuredOutput := Returned ();
     Llm.bindTools := Some (fun _ => Returned ());
     Llm.DEFAULT_SYSTEM_PROMPT := "You are Dexter.";
     Llm.fromMessages := fun _ => Returned ();
     Llm.chain_invoke := fun _ k =>
       if decide (k = 0) then Threw (Error "rate limited") else Returned reply;
     Llm.extractUsage := fun _ => None |}.

Definition options : Llm.CallLlmOptions :=
  {| Llm.opt_model := None; Llm.opt_systemPrompt := None;
     Llm.opt_outputSchema := false; Llm.opt_tools := None |}.

(** Sub-tools: one returns a wrapped result with a repeated URL, one throws. *)
Definition price_tool : nat -> gmap string JsVal -> Result FinancialSearch.Parsed :=
  fun _ _ =>
    Returned {| FinancialSearch.parsed_value := VObj [("data", VObj [("price", VNum 2890)])];
                FinancialSearch.parsed_data := VObj [("price", VNum 2890)];
                FinancialSearch.parsed_sourceUrls :=
                  Some ["https://www.alphavantage.co"; "https://www.alphavantage.co"] |}.

Definition news_tool : nat -> gmap string JsVal -> Result FinancialSearch.Parsed :=
  fun _ _ => Threw (Error "API request failed").

Definition tool_map : gmap string (nat -> gmap string JsVal -> Result FinancialSearch.Parsed) :=
  {[ "get_stock_price" := price_tool; "get_company_news" := news_tool ]}.

Definition tool_names : list string := ["get_stock_price"; "get_company_news"].

Definition two_calls : list ToolCall :=
  [call "get_stock_price" {[ "ticker" := VStr "RELIANCE.BSE" ]};
   call "get_company_news" {[ "ticker" := VStr "RELIANCE.BSE" ]}].

Definition router_selects (calls : option (list ToolCall)) : AIMessage :=
  {| content := CStr "Nothing to look up."; tool_calls := calls; kw_tokenUsage := None |}.

Definition finance_env : Finance.FinanceEnv :=
  {| Finance.yahooFinance_quote := fun _ => Threw (Error "Quote not found");
     Finance.yahooFinance_quoteSummary := fun _ => Returned VNull;
     Finance.yahooFinance_search := fun _ => Returned (VObj []);
     Finance.fetch_json := fun _ => Threw (JsError "TypeError" "fetch failed");
     Finance.process_env := ∅;
     Finance.now_toISOString := "2026-01-01T00:00:00.000Z";
     Finance.parseFloat := fun v => v;
     Finance.parseInt := fun v => v |}.

(** Two successful results of the same sub-tool for the same ticker. *)
Definition same_key_results : list FinancialSearch.SubResult :=
  [ {| FinancialSearch.tool := "get_stock_price";
       FinancialSearch.args := {[ "ticker" := VStr "AAPL" ]};
       FinancialSearch.data := VNum 1;
       FinancialSearch.sourceUrls := [];
       FinancialSearch.error := None |};
    {| FinancialSearch.tool := "get_stock_price";
       FinancialSearch.args := {[ "ticker" := VStr "AAPL" ]};
       FinancialSearch.data := VNum 2;
       FinancialSearch.sourceUrls := [];
       FinancialSearch.error := None |} ].

End Demo.

(* ===================================================================== *)
(** ** Observations on runs of the agent loop *)
(* ===================================================================== *)

Module Observe.

(** The messages of the [thinking] events among [evs], in order. *)
Definition thinking_messages (evs : list Agent.AgentEvent) : list string :=
  omap (fun e => match e with Agent.ev_thinking m => Some m | _ => None end) evs.

(** The context with which the loop is entered after the iteration counter
    has reached [k] and the scratchpad has become [sp]. *)
Definition context_at (q : string) (k : Z) (sp : Agent.Scratchpad) : Agent.RunContext :=
  {| Agent.query := q; Agent.iteration := k; Agent.scratchpad := sp |}.

End Observe.

Module FinanceShape.

(** A tool result that reports a failure: an [error] message as payload
    and no source URL. *)
Definition is_error_result (r : Result (ToolOutcome JsVal)) : Prop :=
  exists message, r = Returned (formatToolResult (VObj [("error", VStr message)]) []).

(** A tool result that carries an object with the given keys, in this
    order, and the given source URLs. *)
Definition is_data_result (keys urls : list string) (r : Result (ToolOutcome JsVal)) : Prop :=
  exists fields, r = Returned (formatToolResult (VObj fields) urls) /\ fields.*1 = keys.

End FinanceShape.

Module Demo2.

(** The events of a batch that requests [Demo.asks_for_price]'s tool. *)
Definition batch : list Agent.AgentEvent :=
  [Agent.ev_tool_start "unknown_tool" {[ "ticker" := VStr "RELIANCE.BSE" ]};
   Agent.ev_tool_end "unknown_tool" (Failure "tool not found")].

(** The scratchpad of a run over [Demo.always_tools] after [k] iterations. *)
Definition pads (k : Z) : Agent.Scratchpad :=
  {| Agent.records :=
       map (fun j => {| Agent.request :=
                          Demo.call "unknown_tool" {[ "ticker" := VStr "RELIANCE.BSE" ]};
                        Agent.outcome := Failure "tool not found";
                        Agent.startedAt := j;
                        Agent.finishedAt := j |}) (seqZ 1 k);
     Agent.thinking := replicate (Z.to_nat k) "I need the latest quote." |}.

(** A sub-tool that throws an error without a message. *)
Definition silent_tool : nat -> gmap string JsVal -> Result FinancialSearch.Parsed :=
  fun _ _ => Threw (Error "").

Definition silent_map
    : gmap string (nat -> gmap string JsVal -> Result FinancialSearch.Parsed) :=
  {[ "get_stock_price" := Demo.price_tool; "get_company_news" := silent_tool ]}.

(** A price request with an empty ticker and a news request. *)
Definition silent_calls : list ToolCall :=
  [Demo.call "get_stock_price" {[ "ticker" := VStr "" ]};
   Demo.call "get_company_news" {[ "ticker" := VStr "RELIANCE.BSE" ]}].

(** The model requests a tool at iteration 1 and is unreachable afterwards. *)
Definition tools_then_down : Agent.AgentEnv :=
  Demo.agent_env (fun k _ =>
    if decide (k = 1) then Returned Demo.asks_for_price
    else Threw (Error "503 Service Unavailable")).

End Demo2.

(* ===================================================================== *)
(** ** String operations of the language *)
(* ===================================================================== *)

From Stdlib Require Import Ascii.

Module Str.

(** [s.startsWith(p)] *)
Definition startsWith (s p : string) : bool := String.prefix p s.

(** The last character of [s], if any. *)
Fixpoint last_char (s : string) : option Ascii.ascii :=
  match s with
  | EmptyString => None
  | String c EmptyString => Some c
  | String _ rest => last_char rest
  end.

(** [s.endsWith(c)] for a one-character string [c]. *)
Definition endsWith_char (s : string) (c : Ascii.ascii) : bool :=
  bool_decide (last_char s = Some c).

(** [s.slice(0, -1)] *)
Fixpoint drop_last (s : string) : string :=
  match s with
  | EmptyString => EmptyString
  | String _ EmptyString => EmptyString
  | String c rest => String c (drop_last rest)
  end.

(** [s] without its prefix [p], when it starts with [p]. *)
Fixpoint strip_prefix (p s : string) : option string :=
  match p, s with
  | EmptyString, _ => Some s
  | String a p', String b s' => if decide (a = b) then strip_prefix p' s' else None
  | String _ _, EmptyString => None
  end.

(** [s.replace(/^(p1|p2|...)/, '')]: the first alternative that is a prefix
    of [s] is removed. *)
Fixpoint remove_leading (alternatives : list string) (s : string) : string :=
  match alternatives with
  | [] => s
  | p :: rest =>
      match strip_prefix p s with
      | Some s' => s'
      | None => remove_leading rest s
      end
  end.

(** [s.includes(c)] for a one-character string [c]. *)
Fixpoint includes_char (s : string) (c : Ascii.ascii) : bool :=
  match s with
  | EmptyString => false
  | String a rest => if decide (a = c) then true else includes_char rest c
  end.

End Str.

(* ===================================================================== *)
(** ** providers.ts: the provider registry *)
(* ===================================================================== *)

Module Providers.

Record ProviderDef := {
  id : string;
  displayName : string;
  modelPrefix : string;
  apiKeyEnvVar : option string;
  fastModel : option string;
}.

Definition PROVIDERS : list ProviderDef :=
  [ {| id := "openai"; displayName := "OpenAI"; modelPrefix := "";
       apiKeyEnvVar := Some "OPENAI_API_KEY"; fastModel := Some "gpt-4o-mini" |};
    {| id := "anthropic"; displayName := "Anthropic"; modelPrefix := "claude-";
       apiKeyEnvVar := Some "ANTHROPIC_API_KEY";
       fastModel := Some "claude-3-5-haiku-latest" |};
    {| id := "google"; displayName := "Google"; modelPrefix := "gemini-";
       apiKeyEnvVar := Some "GOOGLE_API_KEY";
       fastModel := Some "gemini-1.5-flash-latest" |};
    {| id := "xai"; displayName := "xAI"; modelPrefix := "grok-";
       apiKeyEnvVar := Some "XAI_API_KEY"; fastModel := Some "grok-beta" |};
    {| id := "moonshot"; displayName := "Moonshot"; modelPrefix := "kimi-";
       apiKeyEnvVar := Some "MOONSHOT_API_KEY"; fastModel := Some "moonshot-v1-8k" |};
    {| id := "deepseek"; displayName := "DeepSeek"; modelPrefix := "deepseek-";
       apiKeyEnvVar := Some "DEEPSEEK_API_KEY"; fastModel := Some "deepseek-chat" |};
    {| id := "openrouter"; displayName := "OpenRouter"; modelPrefix := "openrouter:";
       apiKeyEnvVar := Some "OPENROUTER_API_KEY";
       fastModel := Some "openai/gpt-4o-mini" |};
    {| id := "ollama"; displayName := "Ollama"; modelPrefix := "ollama:";
       apiKeyEnvVar := None; fastModel := None |} ].

(** [PROVIDERS.find((p) => p.id === id)] *)
Definition getProviderById (provider : string) : option ProviderDef :=
  List.find (fun p => bool_decide (id p = provider)) PROVIDERS.

(** [PROVIDERS.find((p) => p.id === 'openai')!]; the registry has the entry. *)
Definition defaultProvider : ProviderDef :=
  match getProviderById "openai" with
  | Some p => p
  | None => {| id := ""; displayName := ""; modelPrefix := "";
               apiKeyEnvVar := None; fastModel := None |}
  end.

(** The callback of [find] in [resolveProvider]. *)
Definition matches (modelName : string) (p : ProviderDef) : bool :=
  if negb (str_truthy (modelPrefix p)) then false
  else
    let normalizedPrefix :=
      if Str.endsWith_char (modelPrefix p) ":"%char
      then Str.drop_last (modelPrefix p)
      else modelPrefix p in
    Str.startsWith modelName (normalizedPrefix +:+ ":")
    || Str.startsWith modelName (normalizedPrefix +:+ "/").

(** [resolveProvider(modelName)] *)
Definition resolveProvider (modelName : string) : ProviderDef :=
  match List.find (matches modelName) PROVIDERS with
  | Some p => p
  | None => defaultProvider
  end.

End Providers.

(* ===================================================================== *)
(** ** model/llm.ts: model factories and token usage *)
(* ===================================================================== *)

Module Factory.

Inductive ChatClass := ChatOpenAI | ChatAnthropic | ChatGoogleGenerativeAI | ChatOllama.

(** A chat model, given by the class and the options it is constructed
    with; the constructors of the client library are taken to return. *)
Record ChatModel := {
  class : ChatClass;
  model : string;
  streaming : bool;
  apiKeys : option (gmap string string);
  apiKey : option string;
  baseURL : option string;
  defaultHeaders : list (string * string);
}.

(** What [createLLM] hands back: a chat model, or, when the provider id
    names a property that the factory table inherits from
    [Object.prototype], whatever the call of that property returns. *)
Inductive Created :=
| ChatModelOf (m : ChatModel)
| NotAChatModel.

(** [a || b] on values that are strings or [undefined]. *)
Definition or_string (a b : option string) : option string :=
  match a with
  | Some s => if str_truthy s then Some s else b
  | None => b
  end.

(** The property names every object literal inherits. *)
Definition Object_prototype_keys : list string :=
  ["constructor"; "__defineGetter__"; "__defineSetter__"; "hasOwnProperty";
   "__lookupGetter__"; "__lookupSetter__"; "isPrototypeOf"; "propertyIsEnumerable";
   "toString"; "valueOf"; "__proto__"; "toLocaleString"].

Record CreateConfig := {
  cfg_model : option string;
  cfg_provider : option string;
  cfg_streaming : option bool;
  cfg_apiKeys : option (gmap string string);
}.

Section Factories.
Variable process_env : gmap string string.
(** What calling an inherited property as a factory does: it throws, or
    returns something that is no chat model. *)
Variable call_inherited : string -> string -> Result unit.

(** [getApiKey(envVar, overrides)] *)
Definition getApiKey (envVar : string) (overrides : option (gmap string string))
    : Result string :=
  let apiKey := or_string (overrides ≫= (fun o => o !! envVar)) (process_env !! envVar) in
  match apiKey with
  | Some key =>
      if str_truthy key then Returned key
      else Threw (Error ("[LLM] " +:+ envVar
                         +:+ " not found in environment variables or client overrides"))
  | None =>
      Threw (Error ("[LLM] " +:+ envVar
                    +:+ " not found in environment variables or client overrides"))
  end.

(** The entries of [MODEL_FACTORIES]. *)
Definition openai (name : string) (streams : bool) (keys : option (gmap string string))
    : Result Created :=
  bind (getApiKey "OPENAI_API_KEY" keys) (fun key =>
  Returned (ChatModelOf
    {| class := ChatOpenAI; model := name; streaming := streams; apiKeys := keys;
       apiKey := Some key; baseURL := None; defaultHeaders := [] |})).

Definition anthropic (name : string) (streams : bool) (keys : option (gmap string string))
    : Result Created :=
  bind (getApiKey "ANTHROPIC_API_KEY" keys) (fun key =>
  Returned (ChatModelOf
    {| class := ChatAnthropic; model := name; streaming := streams; apiKeys := keys;
       apiKey := Some key; baseURL := None; defaultHeaders := [] |})).

Definition google (name : string) (streams : bool) (keys : option (gmap string string))
    : Result Created :=
  bind (getApiKey "GOOGLE_API_KEY" keys) (fun key =>
  Returned (ChatModelOf
    {| class := ChatGoogleGenerativeAI; model := name; streaming := streams;
       apiKeys := keys; apiKey := Some key; baseURL := None; defaultHeaders := [] |})).

Definition openrouter (name : string) (streams : bool) (keys : option (gmap string string))
    : Result Created :=
  let modelId := Str.remove_leading ["openrouter:"; "openrouter/"] name in
  bind (getApiKey "OPENROUTER_API_KEY" keys) (fun key =>
  Returned (ChatModelOf
    {| class := ChatOpenAI; model := modelId; streaming := streams; apiKeys := keys;
       apiKey := Some key; baseURL := Some "https://openrouter.ai/api/v1";
       defaultHeaders := [("HTTP-Referer", "https://github.com/virattt/dexter");
                          ("X-Title", "Dexter")] |})).

Definition ollama (name : string) (streams : bool) (keys : option (gmap string string))
    : Result Created :=
  Returned (ChatModelOf
    {| class := ChatOllama; model := Str.remove_leading ["ollama:"] name;
       streaming := streams; apiKeys := keys; apiKey := None;
       baseURL := match process_env !! "OLLAMA_BASE_URL" with
                  | Some url => if str_truthy url then Some url else None
                  | None => None
                  end;
       defaultHeaders := [] |}).

(** [MODEL_FACTORIES[providerId] || MODEL_FACTORIES.openai], applied. *)
Definition factory_for (providerId : string)
    : string -> bool -> option (gmap string string) -> Result Created :=
  if decide (providerId = "openai") then openai
  else if decide (providerId = "anthropic") then anthropic
  else if decide (providerId = "google") then google
  else if decide (providerId = "openrouter") then openrouter
  else if decide (providerId = "ollama") then ollama
  else if bool_decide (providerId ∈ Object_prototype_keys)
  then fun name _ _ => bind (call_inherited providerId name) (fun _ => Returned NotAChatModel)
  else openai.

Definition DEFAULT_MODEL : string := "gpt-4o-mini".

(** [createLLM(config)] *)
Definition createLLM (config : CreateConfig) : Result Created :=
  let name := default DEFAULT_MODEL (or_string (cfg_model config) None) in
  let providerId :=
    match or_string (cfg_provider config) None with
    | Some p => p
    | None => Providers.id (Providers.resolveProvider name)
    end in
  factory_for providerId name (default false (cfg_streaming config)) (cfg_apiKeys config).

(** [getChatModel(modelName, streaming, apiKeys)] *)
Definition getChatModel (modelName : option string) (streams : option bool)
    (keys : option (gmap string string)) : Result Created :=
  createLLM {| cfg_model := modelName; cfg_provider := None;
               cfg_streaming := streams; cfg_apiKeys := keys |}.

(** [a || b || d], the last operand being a non-empty literal. *)
Definition or_default (a b : option string) (d : string) : string :=
  match or_string a b with
  | Some s => if str_truthy s then s else d
  | None => d
  end.

(** The call of [createLLM] in [Agent.create]: the model is
    [config.model || process.env.DEFAULT_MODEL || 'gpt-4o'] and the
    provider [config.modelProvider || process.env.DEFAULT_PROVIDER || 'openai']. *)
Definition Agent_create_llm (configured_model configured_provider : option string)
    (keys : option (gmap string string)) : Result Created :=
  createLLM
    {| cfg_model :=
         Some (or_default configured_model (process_env !! "DEFAULT_MODEL") "gpt-4o");
       cfg_provider :=
         Some (or_default configured_provider (process_env !! "DEFAULT_PROVIDER") "openai");
       cfg_streaming := None;
       cfg_apiKeys := keys |}.

(** The collaborators of [callLlm], with the model factory and the provider
    table of the sources in place: [createLLM({ model, apiKeys })] and
    [resolveProvider(model).displayName]. The methods of the client
    library, the remote model and the usage it reports stay with the
    environment [library]. *)
Definition llm_env (keys : option (gmap string string)) (library : Llm.LlmEnv)
    : Llm.LlmEnv :=
  {| Llm.createLLM := fun name =>
       bind (createLLM {| cfg_model := Some name; cfg_provider := None;
                          cfg_streaming := None; cfg_apiKeys := keys |})
            (fun _ => Returned ());
     Llm.resolveProvider_displayName := fun name =>
       Providers.displayName (Providers.resolveProvider name);
     Llm.withStructuredOutput := Llm.withStructuredOutput library;
     Llm.bindTools := Llm.bindTools library;
     Llm.DEFAULT_SYSTEM_PROMPT := Llm.DEFAULT_SYSTEM_PROMPT library;
     Llm.fromMessages := Llm.fromMessages library;
     Llm.chain_invoke := Llm.chain_invoke library;
     Llm.extractUsage := Llm.extractUsage library |}.

End Factories.

(** A number that may be missing: [None] stands for [undefined] and for
    [NaN], both falsy. *)
Definition add (a b : option Z) : option Z :=
  match a, b with
  | Some x, Some y => Some (x + y)
  | _, _ => None
  end.

(** [a || b] on such numbers. *)
Definition or_number (a b : option Z) : option Z :=
  match a with
  | Some x => if decide (x = 0) then b else Some x
  | None => b
  end.

(** [usage_metadata] of a message. *)
Record UsageMetadata := {
  input_tokens : option Z;
  output_tokens : option Z;
  total_tokens : option Z;
}.

(** [response_metadata.usage] of a message. *)
Record ResponseUsage := {
  prompt_tokens : option Z;
  completion_tokens : option Z;
  usage_total_tokens : option Z;
}.

(** The two places of a result where providers report token counts. *)
Record Reported := {
  usage_metadata : option UsageMetadata;
  response_metadata_usage : option ResponseUsage;
}.

(** [extractUsage(result)]; [result] is [None] when it is falsy or no
    object. *)
Definition extractUsage (result : option Reported) : option TokenUsage :=
  match result with
  | None => None
  | Some r =>
      match usage_metadata r with
      | Some m =>
          Some {| inputTokens := default 0 (or_number (input_tokens m) (Some 0));
                  outputTokens := default 0 (or_number (output_tokens m) (Some 0));
                  totalTokens :=
                    default 0
                      (or_number (total_tokens m)
                         (or_number (add (input_tokens m) (output_tokens m)) (Some 0))) |}
      | None =>
          match response_metadata_usage r with
          | Some u =>
              Some {| inputTokens := default 0 (or_number (prompt_tokens u) (Some 0));
                      outputTokens := default 0 (or_number (completion_tokens u) (Some 0));
                      totalTokens :=
                        default 0
                          (or_number (usage_total_tokens u)
                             (or_number (add (prompt_tokens u) (completion_tokens u))
                                (Some 0))) |}
          | None => None
          end
      end
  end.

End Factory.

(* ===================================================================== *)
(** ** The model module that routes by bare prefix (the second [llm.ts]) *)
(* ===================================================================== *)

Module PrefixRouting.

Definition DEFAULT_MODEL : string := "gpt-5.2".

Section Factories.
Variable process_env : gmap string string.

(** [getApiKey(envVar, providerName, overrides)] *)
Definition getApiKey (envVar providerName : string) (overrides : option (gmap string string))
    : Result string :=
  let apiKey :=
    Factory.or_string (overrides ≫= (fun o => o !! envVar)) (process_env !! envVar) in
  match apiKey with
  | Some key =>
      if str_truthy key then Returned key
      else Threw (Error (envVar
                         +:+ " not found in environment variables or client overrides"))
  | None =>
      Threw (Error (envVar +:+ " not found in environment variables or client overrides"))
  end.

(** The entries of [MODEL_PROVIDERS], in the order of their keys. *)
Definition MODEL_PROVIDERS
    : list (string * (string -> bool -> option (gmap string string)
                      -> Result Factory.ChatModel)) :=
  [ ("claude-", fun name streams keys =>
       bind (getApiKey "ANTHROPIC_API_KEY" "Anthropic" keys) (fun key =>
       Returned {| Factory.class := Factory.ChatAnthropic; Factory.model := name;
                   Factory.streaming := streams; Factory.apiKeys := keys;
                   Factory.apiKey := Some key; Factory.baseURL := None;
                   Factory.defaultHeaders := [] |}));
    ("gemini-", fun name streams keys =>
       bind (getApiKey "GOOGLE_API_KEY" "Google" keys) (fun key =>
       Returned {| Factory.class := Factory.ChatGoogleGenerativeAI; Factory.model := name;
                   Factory.streaming := streams; Factory.apiKeys := keys;
                   Factory.apiKey := Some key; Factory.baseURL := None;
                   Factory.defaultHeaders := [] |}));
    ("grok-", fun name streams keys =>
       bind (getApiKey "XAI_API_KEY" "xAI" keys) (fun key =>
       Returned {| Factory.class := Factory.ChatOpenAI; Factory.model := name;
                   Factory.streaming := streams; Factory.apiKeys := keys;
                   Factory.apiKey := Some key;
                   Factory.baseURL := Some "https://api.x.ai/v1";
                   Factory.defaultHeaders := [] |}));
    ("openrouter/", fun name streams keys =>
       bind (getApiKey "OPENROUTER_API_KEY" "OpenRouter" keys) (fun key =>
       Returned {| Factory.class := Factory.ChatOpenAI;
                   Factory.model := Str.remove_leading ["openrouter/"] name;
                   Factory.streaming := streams; Factory.apiKeys := keys;
                   Factory.apiKey := Some key;
                   Factory.baseURL := Some "https://openrouter.ai/api/v1";
                   Factory.defaultHeaders :=
                     [("HTTP-Referer", "https://github.com/virattt/dexter");
                      ("X-Title", "Dexter")] |}));
    ("ollama:", fun name streams keys =>
       Returned {| Factory.class := Factory.ChatOllama;
                   Factory.model := Str.remove_leading ["ollama:"] name;
                   Factory.streaming := streams; Factory.apiKeys := keys;
                   Factory.apiKey := None;
                   Factory.baseURL :=
                     match process_env !! "OLLAMA_BASE_URL" with
                     | Some url => if str_truthy url then Some url else None
                     | None => None
                     end;
                   Factory.defaultHeaders := [] |}) ].

(** [DEFAULT_MODEL_FACTORY]: the key is read without a check. *)
Definition DEFAULT_MODEL_FACTORY (name : string) (streams : bool)
    (keys : option (gmap string string)) : Result Factory.ChatModel :=
  Returned {| Factory.class := Factory.ChatOpenAI; Factory.model := name;
              Factory.streaming := streams; Factory.apiKeys := keys;
              Factory.apiKey :=
                Factory.or_string (keys ≫= (fun o => o !! "OPENAI_API_KEY"))
                                  (process_env !! "OPENAI_API_KEY");
              Factory.baseURL := None; Factory.defaultHeaders := [] |}.

(** [getChatModel(modelName = DEFAULT_MODEL, streaming = false, apiKeys)] *)
Definition getChatModel (modelName : option string) (streams : option bool)
    (keys : option (gmap string string)) : Result Factory.ChatModel :=
  let name := default DEFAULT_MODEL modelName in
  let factory :=
    match List.find (fun entry => Str.startsWith name entry.1) MODEL_PROVIDERS with
    | Some entry => entry.2
    | None => DEFAULT_MODEL_FACTORY
    end in
  factory name (default false streams) keys.

End Factories.

End PrefixRouting.

(* ===================================================================== *)
(** ** utils/model.ts: the model tables *)
(* ===================================================================== *)

Module ModelTable.

Record Model := {
  model_id : string;
  model_displayName : string;
}.

Record Provider := {
  displayName : string;
  providerId : string;
  models : list Model;
}.

(** [PROVIDER_MODELS[id] ?? []], read at the ids of the registry only. *)
Definition PROVIDER_MODELS (id : string) : list Model :=
  if decide (id = "openai") then
    [ {| model_id := "gpt-4o"; model_displayName := "GPT-4o" |};
      {| model_id := "gpt-4o-mini"; model_displayName := "GPT-4o Mini" |};
      {| model_id := "o1-preview"; model_displayName := "O1 Preview" |};
      {| model_id := "o1-mini"; model_displayName := "O1 Mini" |} ]
  else if decide (id = "anthropic") then
    [ {| model_id := "claude-3-5-sonnet-latest"; model_displayName := "Claude 3.5 Sonnet" |};
      {| model_id := "claude-3-5-haiku-latest"; model_displayName := "Claude 3.5 Haiku" |};
      {| model_id := "claude-3-opus-latest"; model_displayName := "Claude 3 Opus" |} ]
  else if decide (id = "google") then
    [ {| model_id := "gemini-1.5-pro-latest"; model_displayName := "Gemini 1.5 Pro" |};
      {| model_id := "gemini-1.5-flash-latest"; model_displayName := "Gemini 1.5 Flash" |};
      {| model_id := "gemini-2.0-flash-exp";
         model_displayName := "Gemini 2.0 Flash (Exp)" |} ]
  else if decide (id = "xai") then
    [ {| model_id := "grok-beta"; model_displayName := "Grok Beta" |};
      {| model_id := "grok-vision-beta"; model_displayName := "Grok Vision Beta" |} ]
  else if decide (id = "moonshot") then
    [ {| model_id := "moonshot-v1-8k"; model_displayName := "Moonshot V1 8K" |} ]
  else if decide (id = "deepseek") then
    [ {| model_id := "deepseek-chat"; model_displayName := "DeepSeek V3" |};
      {| model_id := "deepseek-reasoner"; model_displayName := "DeepSeek R1" |} ]
  else [].

Definition PROVIDERS : list Provider :=
  map (fun provider =>
         {| displayName := Providers.displayName provider;
            providerId := Providers.id provider;
            models := PROVIDER_MODELS (Providers.id provider) |})
      Providers.PROVIDERS.

(** [getModelsForProvider(providerId)] *)
Definition getModelsForProvider (provider : string) : list Model :=
  match List.find (fun entry => bool_decide (providerId entry = provider)) PROVIDERS with
  | Some entry => models entry
  | None => []
  end.

(** [getModelIdsForProvider(providerId)] *)
Definition getModelIdsForProvider (provider : string) : list string :=
  map model_id (getModelsForProvider provider).

(** [getDefaultModelForProvider(providerId)] *)
Definition getDefaultModelForProvider (provider : string) : option string :=
  model_id <$> head (getModelsForProvider provider).

(** The [for] loop of [getModelDisplayName] over the providers left. *)
Fixpoint first_display_name (normalizedId modelId : string) (providers : list Provider)
    : option string :=
  match providers with
  | [] => None
  | provider :: rest =>
      match List.find (fun entry => bool_decide (model_id entry = normalizedId)
                                    || bool_decide (model_id entry = modelId))
                      (models provider) with
      | Some entry => Some (model_displayName entry)
      | None => first_display_name normalizedId modelId rest
      end
  end.

(** [getModelDisplayName(modelId)] *)
Definition getModelDisplayName (modelId : string) : string :=
  let normalizedId := Str.remove_leading ["ollama:"; "openrouter:"] modelId in
  default normalizedId (first_display_name normalizedId modelId PROVIDERS).

End ModelTable.

(* ===================================================================== *)
(** ** The server: the handler of POST /api/chat *)
(* ===================================================================== *)

Module Server.

(** A chunk of the event stream: [data: ${JSON.stringify(event)}] for an
    event of the run, or for the [{ type: 'error', error }] object that the
    handler makes of an exception. *)
Inductive Sse :=
| SseEvent (event : Agent.AgentEvent)
| SseError (error : JsVal).

(** What the handler answers: [c.json(body, status)], or a response
    around a stream, given by the chunks enqueued until it is closed. *)
Inductive Response :=
| Json (body : list (string * JsVal)) (status : Z)
| EventStream (chunks : list Sse).

(** [error.message]; a thrown value that is no [Error] is taken to have
    none. *)
Definition message_of (e : Exn) : JsVal :=
  match e with
  | JsError _ m => VStr m
  | JsThrown _ => VUndefined
  end.

(** [a || 'literal'] *)
Definition or_literal (a : JsVal) (literal : string) : JsVal :=
  if truthy a then a else VStr literal.

(** [const { query, model, provider, apiKeys } = body] *)
Definition destructure (body : JsVal) : Result (JsVal * JsVal * JsVal * JsVal) :=
  match body with
  | VUndefined =>
      Threw (JsError "TypeError"
               "Cannot destructure property 'query' of 'body' as it is undefined.")
  | VNull =>
      Threw (JsError "TypeError"
               "Cannot destructure property 'query' of 'body' as it is null.")
  | VObj fields =>
      Returned (default VUndefined (assoc "query" fields),
                default VUndefined (assoc "model" fields),
                default VUndefined (assoc "provider" fields),
                default VUndefined (assoc "apiKeys" fields))
  | _ => Returned (VUndefined, VUndefined, VUndefined, VUndefined)
  end.

(** [start(controller)]: every event of the generator is enqueued; an
    exception of the generator is enqueued as an error chunk; the stream
    is closed in both cases. The consumer is taken to read to the end. *)
Definition stream (generator : Agent.Trace) : list Sse :=
  map SseEvent (Agent.events generator.1)
  ++ match generator.2 with
     | Returned _ => []
     | Threw error => [SseError (message_of error)]
     end.

Section Chat.
(** [await c.req.json()] *)
Variable req_json : Result JsVal.
(** [runAgent(query, { model, modelProvider, apiKeys }, history)] over a
    fresh history, as the handler calls it. *)
Variable runAgent : JsVal -> JsVal -> JsVal -> JsVal -> Agent.Trace.

(** The handler of [app.post('/api/chat', ...)]. *)
Definition chat : Response :=
  let attempt :=
    bind req_json (fun body =>
    bind (destructure body) (fun '(query, model, provider, apiKeys) =>
    if negb (truthy query)
    then Returned (Json [("error", VStr "Query is required")] 400)
    else Returned (EventStream
           (stream (runAgent query (or_literal model "gpt-5.2")
                      (or_literal provider "openai") apiKeys))))) in
  match attempt with
  | Returned response => response
  | Threw err => Json [("error", message_of err)] 500
  end.

End Chat.

(** The chunks that end a stream for its reader: a [done] or [error]
    event of the run, and the handler's error chunk. *)
Definition is_terminal_chunk (c : Sse) : bool :=
  match c with
  | SseEvent e => Agent.is_terminal_event e
  | SseError _ => true
  end.

(** The events of the run among the chunks. *)
Definition forwarded (chunks : list Sse) : list Agent.AgentEvent :=
  omap (fun c => match c with SseEvent e => Some e | SseError _ => None end) chunks.

(** Exactly one terminal chunk, the last one. *)
Definition one_terminal_chunk_last (chunks : list Sse) : bool :=
  match reverse chunks with
  | last :: before =>
      is_terminal_chunk last && forallb (fun c => negb (is_terminal_chunk c)) before
  | [] => false
  end.

End Server.

Module Demo3.

(** A process environment with an Anthropic key only. *)
Definition anthropic_only : gmap string string :=
  {[ "ANTHROPIC_API_KEY" := "sk-ant-1" ]}.

(** A process environment with an xAI key only. *)
Definition xai_only : gmap string string :=
  {[ "XAI_API_KEY" := "xai-1" ]}.

(** Options that ask for a model of Anthropic by its name. *)
Definition claude_options : Llm.CallLlmOptions :=
  {| Llm.opt_model := Some "claude-3-5-sonnet-latest"; Llm.opt_systemPrompt := None;
     Llm.opt_outputSchema := false; Llm.opt_tools := None |}.

(** A provider that fails at every attempt. *)
Definition down_llm : Llm.LlmEnv :=
  {| Llm.createLLM := fun _ => Returned ();
     Llm.resolveProvider_displayName := fun _ => "OpenAI";
     Llm.withStructuredOutput := Returned ();
     Llm.bindTools := Some (fun _ => Returned ());
     Llm.DEFAULT_SYSTEM_PROMPT := "You are Dexter.";
     Llm.fromMessages := fun _ => Returned ();
     Llm.chain_invoke := fun _ _ => Threw (Error "503 Service Unavailable");
     Llm.extractUsage := fun _ => None |}.

(** Alpha Vantage answers every request with an overview; the process
    environment has no key. *)
Definition keyless_env : Finance.FinanceEnv :=
  {| Finance.yahooFinance_quote := fun _ => Returned (VObj [("symbol", VStr "IBM")]);
     Finance.yahooFinance_quoteSummary := fun _ => Returned VNull;
     Finance.yahooFinance_search := fun _ => Returned (VObj []);
     Finance.fetch_json := fun _ => Returned (VObj [("Symbol", VStr "IBM")]);
     Finance.process_env := ∅;
     Finance.now_toISOString := "2026-01-01T00:00:00.000Z";
     Finance.parseFloat := fun v => v;
     Finance.parseInt := fun v => v |}.

(** A request body with a query only. *)
Definition chat_body : JsVal := VObj [("query", VStr "price of RELIANCE.BSE")].

(** [runAgent] as the handler reaches it, the agent being set up with the
    model that asks for a tool and then answers. *)
Definition served_agent : JsVal -> JsVal -> JsVal -> JsVal -> Agent.Trace :=
  fun query model provider _ =>
    Agent.runAgent (Returned Demo.tools_then_answer) (to_string query)
      {| Agent.model := Some (to_string model);
         Agent.modelProvider := Some (to_string provider);
         Agent.maxIterations := None; Agent.signal := None |} None.

(** The loop itself behind the handler, without [runAgent] in between. *)
Definition served_loop : JsVal -> JsVal -> JsVal -> JsVal -> Agent.Trace :=
  fun query model provider _ =>
    Agent.run {| Agent.model := Some (to_string model);
                 Agent.modelProvider := Some (to_string provider);
                 Agent.maxIterations := None; Agent.signal := None |}
      Demo.tools_then_answer None (to_string query).

(** Calling an inherited property as a factory: taken to throw. *)
Definition inherited_throws : string -> string -> Result unit :=
  fun property _ => Threw (JsError "TypeError" (property +:+ " is not a factory")).

End Demo3.

Set Warnings "-clear-no-such-hyp".

(* ===================================================================== *)
(** ** Facts about the retry helper *)
(* ===================================================================== *)

Section RetryFacts.
Import Llm.
Context {T : Type}.
Variable fn : Z -> Result T.
Variable provider : string.
Variable maxAttempts : Z.

(** One turn of the loop, as a plain case distinction. *)
Lemma retry_from_step (attempt : Z) :
  retry_from fn provider maxAttempts attempt =
  if decide (attempt < maxAttempts) then
    match fn attempt with
    | Returned v => ([Call attempt], Returned v)
    | Threw e =>
        if decide (attempt = maxAttempts - 1)
        then ([Call attempt; LogError (retry_log_line provider attempt maxAttempts e)],
              Threw e)
        else (Call attempt
                :: LogError (retry_log_line provider attempt maxAttempts e)
                :: Sleep (500 * 2 ^ attempt)
                :: (retry_from fn provider maxAttempts (attempt + 1)).1,
              (retry_from fn provider maxAttempts (attempt + 1)).2)
    end
  else ([], Threw (Error "Unreachable")).
Proof.
  rewrite retry_from_equation_1.
  destruct (Z_lt_dec attempt maxAttempts) as [Hlt|Hge]; simp retry_from.
  - rewrite decide_True by done.
    destruct (fn attempt) as [v|e]; simp retry_from; [done|].
    destruct (decide (attempt = maxAttempts - 1)); simp retry_from; done.
  - rewrite decide_False by done. done.
Qed.

(** Success after [n] failed attempts, counted from attempt [a]: the value
    of that attempt is returned at once, after [n] sleeps that double. *)
Lemma retry_from_succeeds (n : nat) : forall (a : Z) (v : T),
  a + Z.of_nat n < maxAttempts ->
  (forall j, a <= j < a + Z.of_nat n -> exists e, fn j = Threw e) ->
  fn (a + Z.of_nat n) = Returned v ->
  (retry_from fn provider maxAttempts a).2 = Returned v /\
  sleeps (retry_from fn provider maxAttempts a).1 = backoff a n /\
  calls (retry_from fn provider maxAttempts a).1 = seqZ a (Z.of_nat n + 1).
Proof.
  induction n as [|n IH]; intros a v Hlt Hfail Hok; rewrite retry_from_step.
  - replace (a + Z.of_nat 0) with a in * by lia.
    rewrite decide_True by lia. rewrite Hok. done.
  - rewrite decide_True by lia.
    destruct (Hfail a) as [e He]; [lia|]. rewrite He.
    rewrite decide_False by lia.
    destruct (IH (a + 1) v) as (Hr & Hs & Hc).
    + lia.
    + intros j Hj. apply Hfail. lia.
    + rewrite <- Hok. f_equal. lia.
    + split; [done|]. split.
      * cbn. f_equal. exact Hs.
      * unfold calls in *. cbn. rewrite Hc.
        rewrite (seqZ_cons a) by lia. f_equal. f_equal; lia.
Qed.

(** Failure of every attempt from [a] on: the error of the last attempt is
    rethrown, and no sleep follows it. *)
Lemma retry_from_exhausted (n : nat) : forall (a : Z) (e : Exn),
  a + Z.of_nat n = maxAttempts - 1 ->
  (forall j, a <= j < maxAttempts - 1 -> exists e', fn j = Threw e') ->
  fn (maxAttempts - 1) = Threw e ->
  (retry_from fn provider maxAttempts a).2 = Threw e /\
  sleeps (retry_from fn provider maxAttempts a).1 = backoff a n /\
  calls (retry_from fn provider maxAttempts a).1 = seqZ a (Z.of_nat n + 1).
Proof.
  induction n as [|n IH]; intros a e Hlast Hfail Herr; rewrite retry_from_step.
  - assert (maxAttempts - 1 = a) as Heq by lia.
    rewrite Heq in Herr.
    rewrite decide_True by lia. rewrite Herr.
    rewrite decide_True by lia. done.
  - rewrite decide_True by lia.
    destruct (Hfail a) as [e' He']; [lia|]. rewrite He'.
    rewrite decide_False by lia.
    destruct (IH (a + 1) e) as (Hr & Hs & Hc); [lia| |done|].
    + intros j Hj. apply Hfail. lia.
    + split; [done|]. split.
      * cbn. f_equal. exact Hs.
      * unfold calls in *. cbn. rewrite Hc.
        rewrite (seqZ_cons a) by lia. f_equal. f_equal; lia.
Qed.

End RetryFacts.

(** The lines that the three attempts of [callLlm] log. *)
Lemma retry_log_lines (provider : string) (e : Exn) :
  Llm.retry_log_line provider 0 3 e
  = "[" +:+ provider +:+ " API] error (attempt 1/3): " +:+ exn_message e /\
  Llm.retry_log_line provider 1 3 e
  = "[" +:+ provider +:+ " API] error (attempt 2/3): " +:+ exn_message e /\
  Llm.retry_log_line provider 2 3 e
  = "[" +:+ provider +:+ " API] error (attempt 3/3): " +:+ exn_message e.
Proof.
  unfold Llm.retry_log_line. repeat split; do 2 f_equal; reflexivity.
Qed.

Section CallLlmClaim.
Variable env : Llm.LlmEnv.
Variable prompt : string.
Variable options : Llm.CallLlmOptions.

(** The provider name under which failures are logged. *)
Local Abbreviation provider :=
  (Llm.resolveProvider_displayName env
     (default Llm.DEFAULT_MODEL (Llm.opt_model options))).

(** What [callLlm] returns for the message [m] of an attempt: its content
    when neither a schema nor tools were given, the message otherwise, with
    the usage extracted from it. *)
Local Abbreviation result_of m :=
  {| Llm.response :=
       if negb (Llm.opt_outputSchema options)
          && negb (bool_decide (is_Some (Llm.opt_tools options)))
       then Llm.RespContent (content m) else Llm.RespMessage m;
     Llm.usage := Llm.extractUsage env m |}.

(** C8. Once its chain is built (the model is created, the schema or the
    tools are bound, the prompt template is made), [callLlm] invokes the
    model through the retry helper with three attempts: a successful
    attempt ends the call at once with the result of that very attempt;
    a failed attempt k (counted from 0) that is not the last is logged and
    followed by a sleep of 500 * 2^k milliseconds and the next attempt; the
    error is rethrown only when the third attempt has failed, with no sleep
    after it. The whole log of the call is given in each case. *)
Theorem callLlm_retries_with_backoff :
  Llm.createLLM env (default Llm.DEFAULT_MODEL (Llm.opt_model options)) = Returned () ->
  (Llm.opt_outputSchema options = true -> Llm.withStructuredOutput env = Returned ()) ->
  (Llm.opt_outputSchema options = false ->
   forall tools bind_tools,
     Llm.opt_tools options = Some tools -> tools <> [] ->
     Llm.bindTools env = Some bind_tools -> bind_tools tools = Returned ()) ->
  Llm.fromMessages env
    (default (Llm.DEFAULT_SYSTEM_PROMPT env) (Llm.opt_systemPrompt options))
  = Returned () ->
  match Llm.chain_invoke env prompt 0 with
  | Returned m =>
      Llm.callLlm env prompt options = ([Llm.Call 0], Returned (result_of m))
  | Threw e0 =>
      match Llm.chain_invoke env prompt 1 with
      | Returned m =>
          Llm.callLlm env prompt options
          = ([Llm.Call 0;
              Llm.LogError ("[" +:+ provider +:+ " API] error (attempt 1/3): "
                            +:+ exn_message e0);
              Llm.Sleep 500;
              Llm.Call 1],
             Returned (result_of m))
      | Threw e1 =>
          match Llm.chain_invoke env prompt 2 with
          | Returned m =>
              Llm.callLlm env prompt options
              = ([Llm.Call 0;
                  Llm.LogError ("[" +:+ provider +:+ " API] error (attempt 1/3): "
                                +:+ exn_message e0);
                  Llm.Sleep 500;
                  Llm.Call 1;
                  Llm.LogError ("[" +:+ provider +:+ " API] error (attempt 2/3): "
                                +:+ exn_message e1);
                  Llm.Sleep 1000;
                  Llm.Call 2],
                 Returned (result_of m))
          | Threw e2 =>
              Llm.callLlm env prompt options
              = ([Llm.Call 0;
                  Llm.LogError ("[" +:+ provider +:+ " API] error (attempt 1/3): "
                                +:+ exn_message e0);
                  Llm.Sleep 500;
                  Llm.Call 1;
                  Llm.LogError ("[" +:+ provider +:+ " API] error (attempt 2/3): "
                                +:+ exn_message e1);
                  Llm.Sleep 1000;
                  Llm.Call 2;
                  Llm.LogError ("[" +:+ provider +:+ " API] error (attempt 3/3): "
                                +:+ exn_message e2)],
                 Threw e2)
          end
      end
  end.
Proof.
  intros Hllm Hschema Htools Hprompt.
  assert (Hbuild : Llm.build_chain env options = Returned ()).
  { unfold Llm.build_chain. cbv zeta. rewrite Hllm. cbn [bind].
    destruct (Llm.opt_outputSchema options) eqn:Hs.
    - rewrite Hschema by done. exact Hprompt.
    - destruct (Llm.opt_tools options) as [[|tool tools]|] eqn:Ht; [exact Hprompt| |exact Hprompt].
      destruct (Llm.bindTools env) as [bind_tools|] eqn:Hb; [|exact Hprompt].
      rewrite (Htools eq_refl (tool :: tools) bind_tools eq_refl) by done. exact Hprompt. }
  assert (Hres : forall m, Llm.to_result env options m = result_of m).
  { intros m. unfold Llm.to_result. cbv zeta.
    by destruct (negb (Llm.opt_outputSchema options) && _). }
  unfold Llm.callLlm. rewrite Hbuild. cbv zeta.
  unfold Llm.withRetry. cbn [default from_option Datatypes.id].
  rewrite retry_from_step. rewrite decide_True by lia.
  destruct (Llm.chain_invoke env prompt 0) as [m0|e0];
    [cbn [fst snd bind]; by rewrite Hres|].
  rewrite decide_False by lia. cbn [fst snd].
  rewrite retry_from_step. rewrite decide_True by lia.
  replace (0 + 1) with 1 by lia.
  destruct (retry_log_lines provider e0) as (-> & _ & _).
  destruct (Llm.chain_invoke env prompt 1) as [m1|e1];
    [cbn [fst snd bind]; by rewrite Hres|].
  rewrite decide_False by lia. cbn [fst snd].
  rewrite retry_from_step. rewrite decide_True by lia.
  replace (1 + 1) with 2 by lia.
  destruct (retry_log_lines provider e1) as (_ & -> & _).
  destruct (Llm.chain_invoke env prompt 2) as [m2|e2];
    [cbn [fst snd bind]; by rewrite Hres|].
  rewrite decide_True by lia.
  destruct (retry_log_lines provider e2) as (_ & _ & ->). done.
Qed.

End CallLlmClaim.

(* ===================================================================== *)
(** ** Facts about the finance tools *)
(* ===================================================================== *)

Section FinanceFacts.
Import Finance.
Variable env : FinanceEnv.

Lemma bind_formatted {A} (x : Result A) (k : A -> Result (ToolOutcome JsVal))
    (handler : Exn -> Result (ToolOutcome JsVal)) :
  (forall a, formatted (try_catch (k a) handler)) ->
  (forall e, formatted (handler e)) ->
  formatted (try_catch (bind x k) handler).
Proof.
  intros Hk Hh. destruct x as [a|e]; cbn; [apply Hk | apply Hh].
Qed.

Lemma failed_formatted (what ticker : string) (e : Exn) :
  formatted (failed_to_fetch what ticker e).
Proof. unfold formatted, failed_to_fetch. eauto. Qed.

Lemma returned_formatted (d : JsVal) (u : list string)
    (handler : Exn -> Result (ToolOutcome JsVal)) :
  formatted (try_catch (Returned (formatToolResult d u)) handler).
Proof. unfold formatted. cbn. eauto. Qed.

Lemma threw_formatted (what ticker : string) (e : Exn) :
  formatted (try_catch (Threw e) (failed_to_fetch what ticker)).
Proof. cbn. apply failed_formatted. Qed.

(** Reading properties of a value that is neither [undefined] nor [null]
    does not throw. *)
Lemma pick_total (v : JsVal) (props : list (string * string)) :
  v <> VUndefined -> v <> VNull ->
  exists fields, pick v props = Returned fields /\ fields.*1 = props.*1.
Proof.
  intros Hu Hn. induction props as [|[key prop] props (fields & IH & Hkeys)]; cbn [pick].
  - by exists [].
  - assert (exists x, get v prop = Returned x) as [x ->]
      by (destruct v; try done; eauto).
    rewrite IH. cbn [bind]. eexists. split; [reflexivity|]. cbn. by rewrite Hkeys.
Qed.

(** Mapping over the news items: every item that is neither [undefined]
    nor [null] gives an item of the result; the first one that is makes the
    callback throw. *)
Lemma news_items_total (items : list JsVal) :
  Forall (fun item => item <> VUndefined /\ item <> VNull) items ->
  exists newsItems, news_items items = Returned newsItems /\
                    length newsItems = length items.
Proof.
  induction 1 as [|item items [Hu Hn] _ (out & IH & Hlen)]; cbn [news_items].
  - by exists [].
  - destruct (pick_total item
                [("title", "title"); ("link", "link"); ("publisher", "publisher");
                 ("providerPublishTime", "providerPublishTime"); ("type", "type")]
                Hu Hn) as (fields & -> & _).
    rewrite IH. cbn [bind]. eexists. split; [reflexivity|]. cbn. by rewrite Hlen.
Qed.

Lemma news_items_fails (before after : list JsVal) (item : JsVal) (e : Exn) :
  Forall (fun item => item <> VUndefined /\ item <> VNull) before ->
  get item "title" = Threw e ->
  news_items (before ++ item :: after) = Threw e.
Proof.
  intros Hbefore Hitem.
  induction Hbefore as [|x before [Hu Hn] _ IH]; cbn [app news_items pick].
  - by rewrite Hitem.
  - destruct (pick_total x
                [("title", "title"); ("link", "link"); ("publisher", "publisher");
                 ("providerPublishTime", "providerPublishTime"); ("type", "type")]
                Hu Hn) as (fields & Hpick & _).
    cbn [pick] in Hpick. rewrite Hpick. cbn [bind]. by rewrite IH.
Qed.

End FinanceFacts.

Ltac formatted_step :=
  first
    [ apply returned_formatted
    | apply threw_formatted
    | apply failed_formatted
    | apply bind_formatted; [intros ? | intros ?; apply failed_formatted]
    | match goal with
      | |- Finance.formatted (try_catch (if ?b then _ else _) _) => destruct b
      | |- Finance.formatted (try_catch (match ?x with _ => _ end) _) => destruct x
      end ].

Section FinanceClaim.
Variable env : Finance.FinanceEnv.
Variable ticker : string.

(** The result that reports a failure with the text [detail]. *)
Local Abbreviation failure detail :=
  (Returned (formatToolResult (VObj [("error", VStr detail)]) [])).

(** C9. For every ticker (a string, as the input schema requires) and
    whatever the remote services and the process environment do, each of
    the five Yahoo and Alpha Vantage tools returns a formatted tool result
    and throws nothing. Every error that can be thrown inside a tool is
    listed with the result it becomes, a payload [{ error }] that names the
    tool's subject, the ticker and the error, with no source URL: the
    failure of the remote call, a property read on an answer that is
    [undefined] or [null], an answer whose [news] is no array or holds such
    an item, the missing or empty ALPHA_VANTAGE_API_KEY, and the API's own
    "Error Message" and "Note". In every other case the tool returns its
    data, or the payload that says that no data was found. *)
Theorem finance_tools_do_not_throw :
  (Finance.formatted (Finance.getYahooPriceSnapshot env ticker) /\
   Finance.formatted (Finance.getYahooFundamentals env ticker) /\
   Finance.formatted (Finance.getYahooNews env ticker) /\
   Finance.formatted (Finance.getAlphaVantagePriceSnapshot env ticker) /\
   Finance.formatted (Finance.getAlphaVantageOverview env ticker)) /\
  match Finance.yahooFinance_quote env ticker with
  | Threw e =>
      Finance.getYahooPriceSnapshot env ticker
      = failure ("Failed to fetch price for " +:+ ticker +:+ ": " +:+ exn_to_string e)
  | Returned VUndefined =>
      Finance.getYahooPriceSnapshot env ticker
      = failure ("Failed to fetch price for " +:+ ticker
                 +:+ ": TypeError: Cannot read properties of undefined (reading 'symbol')")
  | Returned VNull =>
      Finance.getYahooPriceSnapshot env ticker
      = failure ("Failed to fetch price for " +:+ ticker
                 +:+ ": TypeError: Cannot read properties of null (reading 'symbol')")
  | Returned _ =>
      exists fields,
        Finance.getYahooPriceSnapshot env ticker
        = Returned (formatToolResult (VObj fields)
                      ["https://finance.yahoo.com/quote/" +:+ ticker]) /\
        fields.*1 = ["symbol"; "price"; "currency"; "exchange"; "open"; "high"; "low";
                     "previousClose"; "volume"; "marketCap"; "timestamp"]
  end /\
  match Finance.yahooFinance_quoteSummary env ticker with
  | Threw e =>
      Finance.getYahooFundamentals env ticker
      = failure ("Failed to fetch fundamentals for " +:+ ticker +:+ ": "
                 +:+ exn_to_string e)
  | Returned VUndefined =>
      Finance.getYahooFundamentals env ticker
      = failure ("Failed to fetch fundamentals for " +:+ ticker
                 +:+ ": TypeError: Cannot read properties of undefined (reading 'defaultKeyStatistics')")
  | Returned VNull =>
      Finance.getYahooFundamentals env ticker
      = failure ("Failed to fetch fundamentals for " +:+ ticker
                 +:+ ": TypeError: Cannot read properties of null (reading 'defaultKeyStatistics')")
  | Returned _ =>
      exists fields,
        Finance.getYahooFundamentals env ticker
        = Returned (formatToolResult (VObj fields)
                      ["https://finance.yahoo.com/quote/" +:+ ticker +:+ "/financials"]) /\
        fields.*1 = ["valuation"; "financials"; "balanceSheet"; "incomeStatement";
                     "cashFlow"]
  end /\
  match Finance.yahooFinance_search env ticker with
  | Threw e =>
      Finance.getYahooNews env ticker
      = failure ("Failed to fetch news for " +:+ ticker +:+ ": " +:+ exn_to_string e)
  | Returned VUndefined =>
      Finance.getYahooNews env ticker
      = failure ("Failed to fetch news for " +:+ ticker
                 +:+ ": TypeError: Cannot read properties of undefined (reading 'news')")
  | Returned VNull =>
      Finance.getYahooNews env ticker
      = failure ("Failed to fetch news for " +:+ ticker
                 +:+ ": TypeError: Cannot read properties of null (reading 'news')")
  | Returned news =>
      forall arr, get news "news" = Returned arr ->
      match arr with
      | VUndefined =>
          Finance.getYahooNews env ticker
          = failure ("Failed to fetch news for " +:+ ticker
                     +:+ ": TypeError: Cannot read properties of undefined (reading 'map')")
      | VNull =>
          Finance.getYahooNews env ticker
          = failure ("Failed to fetch news for " +:+ ticker
                     +:+ ": TypeError: Cannot read properties of null (reading 'map')")
      | VArr items =>
          (Forall (fun item => item <> VUndefined /\ item <> VNull) items ->
           exists newsItems,
             length newsItems = length items /\
             Finance.getYahooNews env ticker
             = Returned (formatToolResult (VObj [("news", VArr newsItems)])
                           (Finance.news_links newsItems))) /\
          (forall before item after,
             items = before ++ item :: after ->
             Forall (fun item => item <> VUndefined /\ item <> VNull) before ->
             (item = VUndefined ->
              Finance.getYahooNews env ticker
              = failure ("Failed to fetch news for " +:+ ticker
                         +:+ ": TypeError: Cannot read properties of undefined (reading 'title')")) /\
             (item = VNull ->
              Finance.getYahooNews env ticker
              = failure ("Failed to fetch news for " +:+ ticker
                         +:+ ": TypeError: Cannot read properties of null (reading 'title')")))
      | _ =>
          Finance.getYahooNews env ticker
          = failure ("Failed to fetch news for " +:+ ticker
                     +:+ ": TypeError: news.news.map is not a function")
      end
  end /\
  match Finance.process_env env !! "ALPHA_VANTAGE_API_KEY" with
  | None =>
      Finance.getAlphaVantagePriceSnapshot env ticker
      = failure ("Failed to fetch price for " +:+ ticker
                 +:+ ": Error: ALPHA_VANTAGE_API_KEY is not set in .env")
  | Some apiKey =>
      if decide (apiKey = "") then
        Finance.getAlphaVantagePriceSnapshot env ticker
        = failure ("Failed to fetch price for " +:+ ticker
                   +:+ ": Error: ALPHA_VANTAGE_API_KEY is not set in .env")
      else
        match Finance.fetch_json env
                ("https://www.alphavantage.co/query?function=GLOBAL_QUOTE&symbol="
                   +:+ ticker +:+ "&apikey=" +:+ apiKey) with
        | Threw e =>
            Finance.getAlphaVantagePriceSnapshot env ticker
            = failure ("Failed to fetch price for " +:+ ticker +:+ ": "
                       +:+ exn_to_string e)
        | Returned VUndefined =>
            Finance.getAlphaVantagePriceSnapshot env ticker
            = failure ("Failed to fetch price for " +:+ ticker
                       +:+ ": TypeError: Cannot read properties of undefined (reading 'Error Message')")
        | Returned VNull =>
            Finance.getAlphaVantagePriceSnapshot env ticker
            = failure ("Failed to fetch price for " +:+ ticker
                       +:+ ": TypeError: Cannot read properties of null (reading 'Error Message')")
        | Returned rawData =>
            forall errorMessage note quote,
              get rawData "Error Message" = Returned errorMessage ->
              get rawData "Note" = Returned note ->
              get rawData "Global Quote" = Returned quote ->
              if truthy errorMessage then
                Finance.getAlphaVantagePriceSnapshot env ticker
                = failure ("Failed to fetch price for " +:+ ticker +:+ ": "
                           +:+ exn_to_string (Error (to_string errorMessage)))
              else if truthy note then
                Finance.getAlphaVantagePriceSnapshot env ticker
                = failure ("Failed to fetch price for " +:+ ticker +:+ ": "
                           +:+ exn_to_string
                                 (Error ("Alpha Vantage API Limit: " +:+ to_string note)))
              else if negb (truthy quote) || Finance.no_keys quote then
                Finance.getAlphaVantagePriceSnapshot env ticker
                = failure ("No data found for " +:+ ticker +:+ ". check validity.")
              else
                exists fields,
                  Finance.getAlphaVantagePriceSnapshot env ticker
                  = Returned (formatToolResult (VObj fields)
                                ["https://www.alphavantage.co"]) /\
                  fields.*1 = ["symbol"; "price"; "open"; "high"; "low"; "volume";
                               "latestTradingDay"; "previousClose"; "change";
                               "changePercent"]
        end
  end /\
  match Finance.fetch_json env
          ("https://www.alphavantage.co/query?function=OVERVIEW&symbol=" +:+ ticker
             +:+ "&apikey="
             +:+ default "undefined" (Finance.process_env env !! "ALPHA_VANTAGE_API_KEY"))
  with
  | Threw e =>
      Finance.getAlphaVantageOverview env ticker
      = failure ("Failed to fetch overview for " +:+ ticker +:+ ": " +:+ exn_to_string e)
  | Returned VUndefined =>
      Finance.getAlphaVantageOverview env ticker
      = failure ("Failed to fetch overview for " +:+ ticker
                 +:+ ": TypeError: Cannot read properties of undefined (reading 'Error Message')")
  | Returned VNull =>
      Finance.getAlphaVantageOverview env ticker
      = failure ("Failed to fetch overview for " +:+ ticker
                 +:+ ": TypeError: Cannot read properties of null (reading 'Error Message')")
  | Returned data =>
      forall errorMessage note,
        get data "Error Message" = Returned errorMessage ->
        get data "Note" = Returned note ->
        if truthy errorMessage then
          Finance.getAlphaVantageOverview env ticker
          = failure ("Failed to fetch overview for " +:+ ticker +:+ ": "
                     +:+ exn_to_string (Error (to_string errorMessage)))
        else if truthy note then
          Finance.getAlphaVantageOverview env ticker
          = failure ("Failed to fetch overview for " +:+ ticker +:+ ": "
                     +:+ exn_to_string
                           (Error ("Alpha Vantage API Limit: " +:+ to_string note)))
        else if Finance.no_keys data then
          Finance.getAlphaVantageOverview env ticker
          = failure ("No overview data found for " +:+ ticker +:+ ".")
        else
          Finance.getAlphaVantageOverview env ticker
          = Returned (formatToolResult data ["https://www.alphavantage.co"])
  end.
Proof.
  split; [|split; [|split; [|split; [|split]]]].
  - repeat split.
    + unfold Finance.getYahooPriceSnapshot. repeat formatted_step.
    + unfold Finance.getYahooFundamentals. repeat formatted_step.
    + unfold Finance.getYahooNews. repeat formatted_step.
    + unfold Finance.getAlphaVantagePriceSnapshot. repeat formatted_step.
    + unfold Finance.getAlphaVantageOverview. cbv zeta. repeat formatted_step.
  - unfold Finance.getYahooPriceSnapshot.
    destruct (Finance.yahooFinance_quote env ticker) as [quote|e]; [|done].
    destruct quote; cbn [bind]; try done;
      match goal with
      | |- context [Finance.pick ?v ?props] =>
          destruct (pick_total v props) as (picked & -> & Hkeys); [done|done|]
      end;
      (eexists; split; [reflexivity|]; by rewrite fmap_app, Hkeys).
  - unfold Finance.getYahooFundamentals.
    destruct (Finance.yahooFinance_quoteSummary env ticker) as [result|e]; [|done].
    destruct result; cbn [bind]; try done;
      match goal with
      | |- context [Finance.pick ?v ?props] =>
          destruct (pick_total v props) as (picked & -> & Hkeys); [done|done|]
      end;
      (eexists; split; [reflexivity|]; by rewrite Hkeys).
  - unfold Finance.getYahooNews.
    destruct (Finance.yahooFinance_search env ticker) as [news|e]; [|done].
    destruct news; try done; intros arr Harr; cbn [bind]; rewrite Harr; cbn [bind];
      (destruct arr as [| | | | |entries|];
       first
         [ reflexivity
         | split;
           [ intros Hall;
             destruct (news_items_total entries Hall) as (newsItems & -> & Hlen);
             by exists newsItems
           | intros before item after -> Hbefore; split; intros ->;
             [ by rewrite (news_items_fails before after VUndefined _ Hbefore eq_refl)
             | by rewrite (news_items_fails before after VNull _ Hbefore eq_refl) ] ] ]).
  - unfold Finance.getAlphaVantagePriceSnapshot.
    destruct (Finance.process_env env !! "ALPHA_VANTAGE_API_KEY") as [apiKey|]; [|done].
    unfold str_truthy. destruct (decide (apiKey = "")) as [->|Hkey]; [done|].
    cbn [negb].
    destruct (Finance.fetch_json env _) as [rawData|e]; [|done].
    destruct rawData; try done; intros errorMessage note quote Hem Hnote Hquote;
      cbn [bind]; rewrite Hem; cbn [bind];
      (destruct (truthy errorMessage); [done|]);
      rewrite Hnote; cbn [bind]; (destruct (truthy note); [done|]);
      rewrite Hquote; cbn [bind];
      (destruct (negb (truthy quote) || Finance.no_keys quote) eqn:Hq; [done|]);
      (assert (quote <> VUndefined /\ quote <> VNull) as [Hu Hn]
         by (split; intros ->; discriminate Hq));
      match goal with
      | |- context [Finance.pick ?v ?props] =>
          destruct (pick_total v props Hu Hn) as (picked & -> & Hkeys)
      end;
      (eexists; split; [reflexivity|]);
      (rewrite <- list_fmap_compose; etrans; [|exact Hkeys]);
      (apply list_fmap_ext; intros i [k v] _; cbn; by repeat case_bool_decide).
  - unfold Finance.getAlphaVantageOverview. cbv zeta.
    destruct (Finance.fetch_json env _) as [data|e]; [|done].
    destruct data; try done; intros errorMessage note Hem Hnote;
      cbn [bind]; rewrite Hem; cbn [bind];
      (destruct (truthy errorMessage); [done|]);
      rewrite Hnote; cbn [bind]; (destruct (truthy note); [done|]);
      by destruct (Finance.no_keys _).
Qed.

End FinanceClaim.

(* ===================================================================== *)
(** ** Facts about the meta-router *)
(* ===================================================================== *)

Section SetFrom.
Import FinancialSearch.

Lemma Set_from_acc (urls : list string) : forall seen : list string,
  NoDup seen ->
  let out := foldl (fun seen u => if decide (u ∈ seen) then seen else seen ++ [u])
                   seen urls in
  NoDup out /\ forall u, u ∈ out <-> u ∈ seen \/ u ∈ urls.
Proof.
  induction urls as [|x urls IH]; intros seen Hnd; cbn.
  - split; [done|]. intros u. rewrite elem_of_nil. tauto.
  - destruct (decide (x ∈ seen)) as [Hin|Hnin].
    + destruct (IH seen Hnd) as [H1 H2]. split; [done|].
      intros u. rewrite H2, elem_of_cons. split; [tauto|].
      intros [?|[->|?]]; tauto.
    + destruct (IH (seen ++ [x])) as [H1 H2].
      { apply NoDup_app. split; [done|]. split; [|apply NoDup_singleton].
        intros y Hy Hy'. apply list_elem_of_singleton in Hy'. by subst. }
      split; [done|].
      intros u. rewrite H2, elem_of_app, list_elem_of_singleton, elem_of_cons. tauto.
Qed.

(** The combined list has every URL once. *)
Lemma Set_from_NoDup (urls : list string) : NoDup (Set_from urls).
Proof. apply (Set_from_acc urls []). apply NoDup_nil_2. Qed.

Lemma elem_of_Set_from (urls : list string) (u : string) :
  u ∈ Set_from urls <-> u ∈ urls.
Proof.
  destruct (Set_from_acc urls [] (NoDup_nil_2)) as [_ H].
  unfold Set_from. rewrite H, elem_of_nil. tauto.
Qed.

End SetFrom.

Section MergeFacts.
Import FinancialSearch.

Lemma merge_step_insert (m : gmap string JsVal) (u : list string) (r : SubResult) :
  merge_step (m, u) r =
  (<[merge_key r := merge_value r]> m,
   if error_set r then u else u ++ sourceUrls r).
Proof.
  unfold merge_step, merge_key, merge_value.
  destruct (error_set r); [done|].
  destruct (truthy _); done.
Qed.

(** The keys of the merged object are the keys written by the loop. *)
Lemma merge_dom_acc (rs : list SubResult) : forall (m : gmap string JsVal) (u : list string),
  dom (foldl merge_step (m, u) rs).1 = dom m ∪ list_to_set (merge_key <$> rs).
Proof.
  induction rs as [|r rs IH]; intros m u; cbn [foldl].
  - cbn. set_solver.
  - rewrite merge_step_insert, IH, dom_insert_L. cbn. set_solver.
Qed.

Lemma merge_dom (rs : list SubResult) :
  dom (merge rs).1 = list_to_set (merge_key <$> rs).
Proof. unfold merge. rewrite merge_dom_acc. set_solver. Qed.

(** A key keeps the value of its last writer. *)
Lemma merge_lookup_acc (rs : list SubResult) :
  forall (m : gmap string JsVal) (u : list string) (k : string),
  (forall r, r ∈ rs -> merge_key r <> k) ->
  (foldl merge_step (m, u) rs).1 !! k = m !! k.
Proof.
  induction rs as [|r rs IH]; intros m u k Hne; cbn [foldl]; [done|].
  rewrite merge_step_insert, IH.
  - apply lookup_insert_ne. apply Hne. left.
  - intros r' Hr'. apply Hne. by right.
Qed.

Lemma merge_lookup_last (pre post : list SubResult) (r : SubResult) :
  (forall r', r' ∈ post -> merge_key r' <> merge_key r) ->
  (merge (pre ++ r :: post)).1 !! merge_key r = Some (merge_value r).
Proof.
  intros Hpost. unfold merge. rewrite foldl_app. cbn [foldl].
  destruct (foldl merge_step (∅, []) pre) as [m u].
  rewrite merge_step_insert, merge_lookup_acc by done.
  apply lookup_insert_eq.
Qed.

Lemma merge_urls_acc (rs : list SubResult) : forall (m : gmap string JsVal) (u : list string),
  (foldl merge_step (m, u) rs).2 =
  u ++ mjoin ((fun r => if error_set r then [] else sourceUrls r) <$> rs).
Proof.
  induction rs as [|r rs IH]; intros m u; cbn [foldl].
  - cbn. by rewrite app_nil_r.
  - rewrite merge_step_insert, IH. cbn.
    destruct (error_set r); [done|]. by rewrite <- app_assoc.
Qed.

Lemma size_list_to_set_le (l : list string) :
  (size (list_to_set l : gset string) <= length l)%nat.
Proof.
  induction l as [|x l IH]; cbn.
  - by rewrite size_empty.
  - rewrite size_union_alt, size_singleton.
    assert (size (list_to_set l ∖ {[x]} : gset string) <= size (list_to_set l : gset string))%nat.
    { apply subseteq_size. set_solver. }
    lia.
Qed.

End MergeFacts.

Section RouterFacts.
Import FinancialSearch.
Variable FINANCE_TOOL_MAP : gmap string SubTool.
Variable FINANCE_TOOLS : list string.
Variable llm : Llm.LlmEnv.
Variable routerPrompt : string.

Lemma dispatch_tool_args (i : nat) (tc : ToolCall) :
  tool (dispatch FINANCE_TOOL_MAP i tc) = tc_name tc /\
  args (dispatch FINANCE_TOOL_MAP i tc) = tc_args tc.
Proof.
  unfold dispatch. destruct (FINANCE_TOOL_MAP !! tc_name tc) as [subtool|]; [|done].
  destruct (subtool i (tc_args tc)); done.
Qed.



(** With at least one selected call, the router merges the results of all
    of them. *)
Lemma route_selected (m : AIMessage) (tcs : list ToolCall) :
  tool_calls m = Some tcs -> tcs <> [] ->
  route FINANCE_TOOL_MAP (Llm.RespMessage m) =
  Success (merge (imap (dispatch FINANCE_TOOL_MAP) tcs)).1
          (Set_from (merge (imap (dispatch FINANCE_TOOL_MAP) tcs)).2).
Proof.
  intros Htc Hne. unfold route. rewrite Htc.
  destruct tcs as [|tc tcs]; [done|].
  destruct (merge _) as [cd urls]. done.
Qed.

(** Once the routing call has returned, [func] returns what [route] makes
    of the answer. *)
Lemma financial_search_returns (model query : string) (r : Llm.LlmResult) :
  (Llm.callLlm llm query (router_options FINANCE_TOOLS routerPrompt model)).2 = Returned r ->
  financial_search FINANCE_TOOL_MAP FINANCE_TOOLS llm routerPrompt model query =
  Returned (route FINANCE_TOOL_MAP (Llm.response r)).
Proof. intros H. unfold financial_search. rewrite H. done. Qed.

Lemma results_lookup (tcs : list ToolCall) (i : nat) (tc : ToolCall) :
  tcs !! i = Some tc ->
  imap (dispatch FINANCE_TOOL_MAP) tcs !! i = Some (dispatch FINANCE_TOOL_MAP i tc).
Proof. intros H. rewrite list_lookup_imap, H. done. Qed.


(** Every call of the batch has its key in the merged object. *)
Lemma merged_has_key (tcs : list ToolCall) (i : nat) (tc : ToolCall) :
  tcs !! i = Some tc ->
  is_Some ((merge (imap (dispatch FINANCE_TOOL_MAP) tcs)).1
             !! merge_key (dispatch FINANCE_TOOL_MAP i tc)).
Proof.
  intros H. apply elem_of_dom. rewrite merge_dom.
  apply elem_of_list_to_set, list_elem_of_fmap.
  exists (dispatch FINANCE_TOOL_MAP i tc). split; [done|].
  apply list_elem_of_lookup. exists i. by apply results_lookup.
Qed.


End RouterFacts.

Section RouterClaims.
Import FinancialSearch.
Variable FINANCE_TOOL_MAP : gmap string SubTool.
Variable FINANCE_TOOLS : list string.
Variable llm : Llm.LlmEnv.
Variable routerPrompt : string.

(** C7. When the routing call returns a message that selects no sub-tool
    (no tool calls, or an empty list of them), [financial_search] returns:
    its result is a Success outcome, with no source URL, whose payload says
    that no tool was selected and carries the router's text (the message's
    content when that is a string). *)
Theorem financial_search_no_tool_selected (model query : string)
    (r : Llm.LlmResult) (m : AIMessage) :
  (Llm.callLlm llm query (router_options FINANCE_TOOLS routerPrompt model)).2 = Returned r ->
  Llm.response r = Llm.RespMessage m ->
  tool_calls m = None \/ tool_calls m = Some [] ->
  financial_search FINANCE_TOOL_MAP FINANCE_TOOLS llm routerPrompt model query =
  Returned (Success
    {[ "error" := VStr "No tools selected for query";
       "message" := VStr (match content m with
                          | CStr text => text
                          | CBlocks _ => "Router did not select tools"
                          end) ]} []).
Proof.
  intros Hcall Hresp Hnone.
  rewrite (financial_search_returns _ _ _ _ _ _ _ Hcall), Hresp.
  unfold route, formatToolResult. destruct Hnone as [-> | ->]; done.
Qed.

(** C5. In the result of a batch, a successful call is stored under
    [{tool}_{ticker}] when its arguments carry a non-empty ticker and
    under [{tool}] when they carry no ticker or an empty one, a call that
    failed with a non-empty error message is stored under [{tool}_error],
    and the combined list of source URLs has no duplicate and holds
    exactly the URLs of the calls that the merge loop takes for
    successful. The loop tells a failed call by the truthiness of its
    message: nothing is said here of a call that failed with an empty
    message. *)
Theorem merged_keys_and_source_urls (model query : string)
    (r : Llm.LlmResult) (m : AIMessage) (toolCalls : list ToolCall) :
  (Llm.callLlm llm query (router_options FINANCE_TOOLS routerPrompt model)).2 = Returned r ->
  Llm.response r = Llm.RespMessage m ->
  tool_calls m = Some toolCalls ->
  toolCalls <> [] ->
  exists combinedData urls,
    financial_search FINANCE_TOOL_MAP FINANCE_TOOLS llm routerPrompt model query
      = Returned (Success combinedData urls) /\
    NoDup urls /\
    (forall u, u ∈ urls <->
       exists i tc, toolCalls !! i = Some tc /\
                    error_set (dispatch FINANCE_TOOL_MAP i tc) = false /\
                    u ∈ sourceUrls (dispatch FINANCE_TOOL_MAP i tc)) /\
    (forall i tc, toolCalls !! i = Some tc ->
       (forall msg, error (dispatch FINANCE_TOOL_MAP i tc) = Some msg -> msg <> "" ->
          is_Some (combinedData !! (tc_name tc +:+ "_error"))) /\
       (forall t, error (dispatch FINANCE_TOOL_MAP i tc) = None ->
          tc_args tc !! "ticker" = Some (VStr t) -> t <> "" ->
          is_Some (combinedData !! (tc_name tc +:+ "_" +:+ t))) /\
       (error (dispatch FINANCE_TOOL_MAP i tc) = None ->
          tc_args tc !! "ticker" = None \/ tc_args tc !! "ticker" = Some (VStr "") ->
          is_Some (combinedData !! tc_name tc))).
Proof.
  intros Hcall Hresp Htc Hne.
  rewrite (financial_search_returns _ _ _ _ _ _ _ Hcall), Hresp.
  rewrite (route_selected _ _ _ Htc Hne).
  eexists _, _. split; [reflexivity|].
  split; [apply Set_from_NoDup|]. split.
  - intros u. rewrite elem_of_Set_from. unfold merge.
    rewrite merge_urls_acc. cbn [app]. rewrite list_elem_of_join. split.
    + intros (l & Hu & Hl). apply list_elem_of_fmap in Hl as (res & -> & Hres).
      apply list_elem_of_lookup in Hres as [i Hi].
      rewrite list_lookup_imap in Hi.
      destruct (toolCalls !! i) as [tc|] eqn:Hi'; [|done].
      cbn in Hi. injection Hi as <-.
      exists i, tc. split; [done|].
      destruct (error_set _); [by apply elem_of_nil in Hu | done].
    + intros (i & tc & Hi & Herr & Hu).
      exists (sourceUrls (dispatch FINANCE_TOOL_MAP i tc)). split; [done|].
      apply list_elem_of_fmap. exists (dispatch FINANCE_TOOL_MAP i tc).
      rewrite Herr. split; [done|].
      apply list_elem_of_lookup. exists i. by apply results_lookup.
  - intros i tc Hi.
    pose proof (merged_has_key FINANCE_TOOL_MAP toolCalls i tc Hi) as Hkey.
    destruct (dispatch_tool_args FINANCE_TOOL_MAP i tc) as [Htool Hargs].
    unfold merge_key, error_set, str_truthy in Hkey.
    rewrite Htool, Hargs in Hkey.
    split; [|split].
    + intros msg Hmsg Hnz. rewrite Hmsg in Hkey.
      by rewrite decide_False in Hkey.
    + intros t Herr Ht Hnz. rewrite Herr, Ht in Hkey. cbn in Hkey.
      unfold str_truthy in Hkey. by rewrite decide_False in Hkey.
    + intros Herr [Ht|Ht]; by rewrite Herr, Ht in Hkey.
Qed.


End RouterClaims.

Section CollisionFacts.
Import FinancialSearch.

Lemma size_list_to_set_dup (l : list string) (i j : nat) (k : string) :
  (i < j)%nat -> l !! i = Some k -> l !! j = Some k ->
  (size (list_to_set l : gset string) < length l)%nat.
Proof.
  intros Hij Hi Hj.
  rewrite <- (take_drop_middle l j k Hj).
  assert (Hin : k ∈ take j l).
  { apply list_elem_of_lookup. exists i. rewrite lookup_take_lt; done. }
  rewrite list_to_set_app_L, list_to_set_cons.
  replace (list_to_set (take j l) ∪ ({[k]} ∪ list_to_set (drop (S j) l)) : gset string)
    with (list_to_set (take j l ++ drop (S j) l) : gset string).
  - pose proof (size_list_to_set_le (take j l ++ drop (S j) l)) as Hle.
    rewrite !length_app in *. cbn [length]. lia.
  - rewrite list_to_set_app_L.
    apply (elem_of_list_to_set (C := gset string)) in Hin. set_solver.
Qed.

(** C10. Keys of the merged object are not unique per call: two results of
    the same sub-tool that both failed, or that both succeeded with the
    same ticker argument (or both without one), get the same key; the
    merged object then has fewer entries than there were calls, and the
    key holds the value of the later call (when no still later call writes
    it). *)
Theorem merge_same_key_overwrites (results : list SubResult) (i j : nat)
    (r1 r2 : SubResult) :
  (i < j)%nat ->
  results !! i = Some r1 ->
  results !! j = Some r2 ->
  tool r1 = tool r2 ->
  (error_set r1 = true /\ error_set r2 = true) \/
  (error_set r1 = false /\ error_set r2 = false /\
   args r1 !! "ticker" = args r2 !! "ticker") ->
  merge_key r1 = merge_key r2 /\
  (size (merge results).1 < length results)%nat /\
  ((forall k r, (j < k)%nat -> results !! k = Some r -> merge_key r <> merge_key r2) ->
   (merge results).1 !! merge_key r1 = Some (merge_value r2)).
Proof.
  intros Hij Hi Hj Htool Hsame.
  assert (Hkey : merge_key r1 = merge_key r2).
  { unfold merge_key.
    destruct Hsame as [[-> ->] | (-> & -> & ->)]; by rewrite Htool. }
  split; [done|]. split.
  - rewrite <- size_dom, merge_dom.
    rewrite <- (length_fmap merge_key results).
    apply (size_list_to_set_dup _ i j (merge_key r2)); [done| |].
    + by rewrite list_lookup_fmap, Hi, <- Hkey.
    + by rewrite list_lookup_fmap, Hj.
  - intros Hlater. rewrite Hkey, <- (take_drop_middle results j r2 Hj).
    apply merge_lookup_last. intros r' Hr'.
    apply list_elem_of_lookup in Hr' as [k Hk]. rewrite lookup_drop in Hk.
    apply (Hlater (S j + k)%nat r'); [lia|done].
Qed.

End CollisionFacts.

(* ===================================================================== *)
(** ** Facts about the agent loop *)
(* ===================================================================== *)

Section LoopFacts.
Import Agent.
Variable config : AgentConfig.
Variable env : AgentEnv.
Variable history : option (list Turn).

(** One pass of the loop, as a plain case distinction. *)
Lemma run_loop_step (ctx : RunContext) :
  run_loop config env history ctx =
  if decide (iteration ctx < limit config) then
    if signal_aborted config (iteration ctx + 1)
    then ([], Threw (Error "Agent execution cancelled"))
    else
      match llm_invoke env (iteration ctx + 1)
              (build_messages config env history (advance ctx)) with
      | Threw e => (ask config env history (advance ctx), Threw e)
      | Returned response =>
          if has_tool_calls response then
            match executeAll env response
                    (with_scratchpad (advance ctx)
                       (note_thinking env response (scratchpad ctx))) with
            | (evs, Threw e) =>
                (ask config env history (advance ctx) ++ map Yield evs, Threw e)
            | (evs, Returned sp) =>
                (ask config env history (advance ctx) ++ map Yield evs
                   ++ (run_loop config env history (with_scratchpad (advance ctx) sp)).1,
                 (run_loop config env history (with_scratchpad (advance ctx) sp)).2)
            end
          else
            (ask config env history (advance ctx)
               ++ [Yield (final_answer env (iteration ctx + 1) response
                            (note_thinking env response (scratchpad ctx)))],
             Returned ())
      end
  else ([Yield (budget_exhausted env ctx)], Returned ()).
Proof.
  rewrite run_loop_equation_1.
  destruct (Z_lt_dec (iteration ctx) (limit config)) as [Hlt|Hge]; simp run_loop.
  - rewrite decide_True by done. cbn [advance iteration].
    destruct (signal_aborted config (iteration ctx + 1)); simp run_loop; [done|].
    cbn [advance iteration].
    destruct (llm_invoke env (iteration ctx + 1) _) as [response|e];
      simp run_loop; [|done].
    destruct (has_tool_calls response); simp run_loop; [|done].
    destruct (executeAll env response _) as [evs [sp|e]]; simp run_loop; done.
  - by rewrite decide_False.
Qed.

Lemma events_app (a b : list Action) : events (a ++ b) = events a ++ events b.
Proof. unfold events. apply omap_app. Qed.

Lemma events_map_Yield (evs : list AgentEvent) : events (map Yield evs) = evs.
Proof. induction evs as [|e evs IH]; cbn; [done|]. unfold events in IH. by rewrite IH. Qed.

Lemma invocations_app (a b : list Action) :
  invocations (a ++ b) = invocations a ++ invocations b.
Proof. unfold invocations. apply omap_app. Qed.

Lemma invocations_map_Yield (evs : list AgentEvent) : invocations (map Yield evs) = [].
Proof. induction evs as [|e evs IH]; cbn; [done|]. exact IH. Qed.

Lemma tool_event_not_terminal (e : AgentEvent) :
  is_tool_event e = true -> is_terminal_event e = false.
Proof. by destruct e. Qed.

Lemma forallb_not_terminal (evs : list AgentEvent) :
  Forall (fun e => is_terminal_event e = false) evs ->
  forallb (fun e => negb (is_terminal_event e)) evs = true.
Proof.
  induction 1 as [|e evs He _ IH]; cbn; [done|]. by rewrite He, IH.
Qed.

Lemma forallb_reverse (f : AgentEvent -> bool) (evs : list AgentEvent) :
  forallb f evs = true -> forallb f (reverse evs) = true.
Proof.
  rewrite !forallb_forall. intros H x Hx. apply H.
  apply list_elem_of_In. apply list_elem_of_In in Hx.
  rewrite elem_of_reverse in Hx. exact Hx.
Qed.

(** Actions without a terminal event may precede a well-ended run. *)
Lemma one_terminal_last_prepend (acts : list Action) (t : Trace) :
  Forall (fun e => is_terminal_event e = false) (events acts) ->
  one_terminal_last t = true ->
  one_terminal_last (acts ++ t.1, t.2) = true.
Proof.
  intros Hacts. unfold one_terminal_last. cbn [fst snd].
  rewrite events_app. apply forallb_not_terminal in Hacts.
  destruct t.2 as [[]|e].
  - rewrite reverse_app.
    destruct (reverse (events t.1)) as [|last before]; [done|].
    cbn [app]. rewrite forallb_app.
    intros [-> ->]%andb_true_iff.
    by rewrite (forallb_reverse _ _ Hacts).
  - rewrite forallb_app. intros ->. by rewrite Hacts.
Qed.

Lemma ask_events (ctx : RunContext) :
  events (ask config env history ctx) = [thinking_event (iteration ctx)].
Proof. done. Qed.

Hypothesis executor_events : tool_events_only env.

Lemma batch_not_terminal (response : AIMessage) (ctx ctx' : RunContext) :
  Forall (fun e => is_terminal_event e = false)
    (events (ask config env history ctx
               ++ map Yield (executeAll env response ctx').1)).
Proof.
  rewrite events_app, events_map_Yield, ask_events.
  apply Forall_cons. split; [done|].
  eapply Forall_impl; [apply executor_events|].
  intros e. apply tool_event_not_terminal.
Qed.

(** Whatever the context the loop is entered with, the run has exactly one
    terminal signal, and it comes last. *)
Lemma run_loop_one_terminal_last (n : nat) : forall ctx : RunContext,
  Z.to_nat (limit config - iteration ctx) = n ->
  one_terminal_last (run_loop config env history ctx) = true.
Proof.
  induction n as [n IH] using lt_wf_ind. intros ctx Hn.
  rewrite run_loop_step.
  destruct (decide (iteration ctx < limit config)) as [Hlt|Hge]; [|done].
  destruct (signal_aborted config (iteration ctx + 1)); [done|].
  destruct (llm_invoke env (iteration ctx + 1) _) as [response|e]; [|done].
  destruct (has_tool_calls response); [|done].
  pose proof (batch_not_terminal response (advance ctx)
                (with_scratchpad (advance ctx)
                   (note_thinking env response (scratchpad ctx)))) as Hbatch.
  destruct (executeAll env response _) as [evs [sp|e]]; cbn [fst] in Hbatch.
  - rewrite app_assoc.
    apply (one_terminal_last_prepend _ (run_loop config env history _)); [exact Hbatch|].
    apply (IH (Z.to_nat (limit config - (iteration ctx + 1)))); [lia|done].
  - unfold one_terminal_last. cbn [fst snd].
    by apply forallb_not_terminal.
Qed.

End LoopFacts.

Section BudgetFacts.
Import Agent.
Variable config : AgentConfig.
Variable env : AgentEnv.
Variable history : option (list Turn).
Variable q : string.
Variable M : Z.
Variable responses : Z -> AIMessage.
Variable batches : Z -> list AgentEvent.
Variable pads : Z -> Scratchpad.
Hypothesis limit_M : limit config = M.
Hypothesis not_cancelled : forall k, 1 <= k <= M -> signal_aborted config k = false.
Hypothesis rounds : forall k, 1 <= k <= M ->
  llm_invoke env k
    (build_messages config env history
       {| query := q; iteration := k; scratchpad := pads (k - 1) |})
  = Returned (responses k) /\
  has_tool_calls (responses k) = true /\
  executeAll env (responses k)
    {| query := q; iteration := k;
       scratchpad := note_thinking env (responses k) (pads (k - 1)) |}
  = (batches k, Returned (pads k)).

(** Entered [n] iterations before the limit with the scratchpad of the
    iterations made so far, the loop makes exactly these [n] iterations,
    each one a [thinking] event, an invocation and the events of its
    batch, and ends on the budget-exhausted [done] event. *)
Lemma run_loop_exhausts_budget (n : nat) : forall i : Z,
  0 <= i ->
  i + Z.of_nat n = M ->
  run_loop config env history {| query := q; iteration := i; scratchpad := pads i |} =
    (mjoin (map (fun k =>
                   [Yield (ev_thinking (if decide (k = 1) then "Analyzing query..."
                                        else "Analyzing results..."));
                    Invoke k (build_messages config env history
                                {| query := q; iteration := k;
                                   scratchpad := pads (k - 1) |})]
                   ++ map Yield (batches k))
                (seqZ (i + 1) (Z.of_nat n)))
       ++ [Yield (budget_exhausted env
                    {| query := q; iteration := M; scratchpad := pads M |})],
     Returned ()).
Proof.
  induction n as [|n IH]; intros i H0 Hn; rewrite run_loop_step, limit_M;
    cbn [iteration scratchpad query advance].
  - rewrite decide_False by lia. replace M with i by lia. done.
  - rewrite decide_True by lia.
    rewrite not_cancelled by lia.
    destruct (rounds (i + 1)) as (Hllm & Htools & Hexec); [lia|].
    replace (i + 1 - 1) with i in * by lia.
    unfold advance. cbn [iteration scratchpad query].
    rewrite Hllm, Htools. unfold with_scratchpad. cbn [iteration scratchpad query].
    rewrite Hexec. rewrite (IH (i + 1)) by lia. cbn [fst snd].
    f_equal. rewrite (seqZ_cons (i + 1)) by lia. cbn [map mjoin list_join].
    replace (Z.pred (Z.of_nat (S n))) with (Z.of_nat n) by lia.
    replace (Z.succ (i + 1)) with (i + 1 + 1) by lia.
    replace (i + 1 - 1) with i by lia.
    unfold ask, thinking_event. cbn [iteration]. by rewrite <- !app_assoc.
Qed.

End BudgetFacts.

(** C1. A run has exactly one terminal signal, a [done] event or an
    uncaught failure, and nothing comes after it. This holds of [runAgent]
    as it is written (it calls [run] on the promise returned by
    [Agent.create], so that the run fails at once), and of the stream of
    [Agent.run] that [runAgent] forwards when it is given the agent itself,
    the tool executor yielding only [tool_start] and [tool_end] events. *)
Theorem run_has_one_terminal_signal_last (created : Result Agent.AgentEnv)
    (config : Agent.AgentConfig) (env : Agent.AgentEnv)
    (history : option (list Agent.Turn)) (query : string) :
  Agent.tool_events_only env ->
  Agent.one_terminal_last (Agent.runAgent created query config history) = true /\
  Agent.one_terminal_last
    (Agent.forward (Agent.call_run (Agent.RefAgent config env) query history)) = true.
Proof.
  intros Hexec. split; [done|].
  unfold Agent.forward, Agent.call_run, Agent.run.
  by eapply run_loop_one_terminal_last.
Qed.

(** C2. With [maxIterations = M >= 1], in a run that is not cancelled and
    in which the model's response at each of the iterations 1, ..., M
    requests at least one tool call, the executor handing back the
    scratchpad [pads k] after the batch of iteration k, [Agent.run] makes
    exactly these M iterations and no other: at iteration k it yields the
    [thinking] event, invokes the model on the messages built from the
    scratchpad [pads (k - 1)], and yields the events of the batch. It then
    yields a [done] event and returns normally; the answer of that event is
    the budget-exhausted note followed by the tool results rendered from
    the last scratchpad [pads M], and the event carries the records of
    that scratchpad and [iterations = M]. *)
Theorem budget_exhausted_after_max_iterations (config : Agent.AgentConfig)
    (env : Agent.AgentEnv) (history : option (list Agent.Turn)) (query : string)
    (M : Z) (responses : Z -> AIMessage) (batches : Z -> list Agent.AgentEvent)
    (pads : Z -> Agent.Scratchpad) :
  Agent.maxIterations config = Some M ->
  1 <= M ->
  (forall k, 1 <= k <= M -> Agent.signal_aborted config k = false) ->
  pads 0 = {| Agent.records := []; Agent.thinking := [] |} ->
  (forall k, 1 <= k <= M ->
     Agent.llm_invoke env k
       (Agent.build_messages config env history
          {| Agent.query := query; Agent.iteration := k;
             Agent.scratchpad := pads (k - 1) |})
     = Returned (responses k) /\
     Agent.has_tool_calls (responses k) = true /\
     Agent.executeAll env (responses k)
       {| Agent.query := query; Agent.iteration := k;
          Agent.scratchpad := Agent.note_thinking env (responses k) (pads (k - 1)) |}
     = (batches k, Returned (pads k))) ->
  Agent.run config env history query =
    (mjoin (map (fun k =>
                   [Agent.Yield
                      (Agent.ev_thinking (if decide (k = 1) then "Analyzing query..."
                                          else "Analyzing results..."));
                    Agent.Invoke k
                      (Agent.build_messages config env history
                         {| Agent.query := query; Agent.iteration := k;
                            Agent.scratchpad := pads (k - 1) |})]
                   ++ map Agent.Yield (batches k))
                (seqZ 1 M))
       ++ [Agent.Yield
             (Agent.ev_done
                ("I've reached the maximum number of attempts and couldn't find a final answer. Here is the information I gathered so far: 

" +:+ Agent.getToolResults env (pads M))
                (Agent.records (pads M)) M
                (Agent.Date_now env M - Agent.startTime env) None)],
     Returned ()) /\
  Agent.invocations (Agent.run config env history query).1 = seqZ 1 M.
Proof.
  intros HM H1 Hsig Hpad Hrounds.
  assert (Hlimit : Agent.limit config = M) by (unfold Agent.limit; by rewrite HM).
  pose proof (run_loop_exhausts_budget config env history query M responses batches pads
                Hlimit Hsig Hrounds (Z.to_nat M) 0) as Hrun.
  rewrite Hpad in Hrun.
  replace (Z.of_nat (Z.to_nat M)) with M in Hrun by lia.
  assert (Hrun' := Hrun ltac:(lia) ltac:(lia)). clear Hrun.
  unfold Agent.run, Agent.createRunContext. rewrite Hrun'. cbn [fst snd].
  split; [reflexivity|].
  rewrite invocations_app. cbn [Agent.invocations omap]. rewrite app_nil_r.
  clear Hrun'.
  assert (Hgen : forall (n : nat) (a : Z),
            Agent.invocations
              (mjoin (map (fun k =>
                 [Agent.Yield
                    (Agent.ev_thinking (if decide (k = 1) then "Analyzing query..."
                                        else "Analyzing results..."));
                  Agent.Invoke k
                    (Agent.build_messages config env history
                       {| Agent.query := query; Agent.iteration := k;
                          Agent.scratchpad := pads (k - 1) |})]
                 ++ map Agent.Yield (batches k)) (seqZ a (Z.of_nat n))))
            = seqZ a (Z.of_nat n)).
  { induction n as [|n IH]; intros a'; [done|].
    rewrite (seqZ_cons a') by lia. cbn [map mjoin list_join].
    rewrite !invocations_app, invocations_map_Yield.
    replace (Z.pred (Z.of_nat (S n))) with (Z.of_nat n) by lia.
    rewrite IH. done. }
  replace M with (Z.of_nat (Z.to_nat M)) by lia. apply Hgen.
Qed.


(** C4. When the loop reaches an iteration boundary with the cancellation
    token already signaled, the run ends there with the cancellation
    error: the model is not invoked for that iteration, and no event, in
    particular no [done] event, is yielded any more. *)
Theorem cancelled_at_iteration_boundary (config : Agent.AgentConfig)
    (env : Agent.AgentEnv) (history : option (list Agent.Turn))
    (ctx : Agent.RunContext) :
  Agent.iteration ctx < Agent.limit config ->
  Agent.signal_aborted config (Agent.iteration ctx + 1) = true ->
  Agent.run_loop config env history ctx =
    ([], Threw (Error "Agent execution cancelled")).
Proof.
  intros Hlt Hsig. rewrite run_loop_step, decide_True by done. by rewrite Hsig.
Qed.

(* ===================================================================== *)
(** ** The claims at concrete inputs *)
(* ===================================================================== *)

Lemma executeAll_unregistered_tool_events (llm : Z -> list Agent.BaseMessage -> Result AIMessage) :
  Agent.tool_events_only (Demo.agent_env llm).
Proof.
  intros response ctx. cbn. generalize (default [] (tool_calls response)).
  intros calls. induction calls as [|tc calls IH]; cbn; [done|].
  apply Forall_cons. split; [done|]. apply Forall_cons. split; [done|]. exact IH.
Qed.

Lemma run_has_one_terminal_signal_last_witness :
  Agent.tool_events_only Demo.tools_then_answer /\
  Agent.one_terminal_last
    (Agent.runAgent (Returned Demo.tools_then_answer) "price of RELIANCE.BSE"
       (Demo.config_with 3 None) None) = true /\
  Agent.one_terminal_last
    (Agent.forward
       (Agent.call_run (Agent.RefAgent (Demo.config_with 3 None) Demo.tools_then_answer)
          "price of RELIANCE.BSE" None)) = true.
Proof.
  split; [apply executeAll_unregistered_tool_events|].
  apply (run_has_one_terminal_signal_last (Returned Demo.tools_then_answer)
           (Demo.config_with 3 None) Demo.tools_then_answer None "price of RELIANCE.BSE").
  apply executeAll_unregistered_tool_events.
Defined.

Lemma budget_exhausted_after_max_iterations_witness :
  Agent.run (Demo.config_with 2 None) Demo.always_tools None "price of RELIANCE.BSE" =
    (mjoin (map (fun k =>
                   [Agent.Yield
                      (Agent.ev_thinking (if decide (k = 1) then "Analyzing query..."
                                          else "Analyzing results..."));
                    Agent.Invoke k
                      (Agent.build_messages (Demo.config_with 2 None) Demo.always_tools
                         None
                         {| Agent.query := "price of RELIANCE.BSE"; Agent.iteration := k;
                            Agent.scratchpad := Demo2.pads (k - 1) |})]
                   ++ map Agent.Yield Demo2.batch)
                (seqZ 1 2))
       ++ [Agent.Yield
             (Agent.ev_done
                ("I've reached the maximum number of attempts and couldn't find a final answer. Here is the information I gathered so far: 

" +:+ Agent.getToolResults Demo.always_tools (Demo2.pads 2))
                (Agent.records (Demo2.pads 2)) 2
                (Agent.Date_now Demo.always_tools 2 - Agent.startTime Demo.always_tools)
                None)],
     Returned ()) /\
  Agent.invocations
    (Agent.run (Demo.config_with 2 None) Demo.always_tools None
       "price of RELIANCE.BSE").1 = seqZ 1 2.
Proof.
  apply (budget_exhausted_after_max_iterations (Demo.config_with 2 None)
           Demo.always_tools None "price of RELIANCE.BSE" 2
           (fun _ => Demo.asks_for_price) (fun _ => Demo2.batch) Demo2.pads).
  - reflexivity.
  - lia.
  - intros k _. reflexivity.
  - reflexivity.
  - intros k Hk. assert (k = 1 \/ k = 2) as [-> | ->] by lia;
      (split; [reflexivity|]); (split; reflexivity).
Defined.


Lemma cancelled_at_iteration_boundary_witness :
  Agent.signal_aborted (Demo.config_with 3 (Some Demo.signaled)) 1 = true /\
  Agent.run (Demo.config_with 3 (Some Demo.signaled)) Demo.tools_then_answer None "q"
  = ([], Threw (Error "Agent execution cancelled")).
Proof.
  split; [reflexivity|].
  apply (cancelled_at_iteration_boundary (Demo.config_with 3 (Some Demo.signaled))
           Demo.tools_then_answer None (Demo.fresh "q")).
  - cbn. lia.
  - reflexivity.
Defined.

Lemma merged_keys_and_source_urls_witness :
  exists combinedData urls,
    FinancialSearch.financial_search Demo.tool_map Demo.tool_names
      (Demo.flaky_llm (Demo.router_selects (Some Demo.two_calls)))
      "route" "gpt-4o" "price and news of Reliance"
    = Returned (Success combinedData urls) /\
    NoDup urls /\
    is_Some (combinedData !! "get_stock_price_RELIANCE.BSE") /\
    is_Some (combinedData !! "get_company_news_error").
Proof.
  destruct (merged_keys_and_source_urls Demo.tool_map Demo.tool_names
              (Demo.flaky_llm (Demo.router_selects (Some Demo.two_calls)))
              "route" "gpt-4o" "price and news of Reliance"
              {| Llm.response := Llm.RespMessage (Demo.router_selects (Some Demo.two_calls));
                 Llm.usage := None |}
              (Demo.router_selects (Some Demo.two_calls)) Demo.two_calls)
    as (combinedData & urls & Hret & Hnodup & _ & Hkeys).
  - reflexivity.
  - reflexivity.
  - reflexivity.
  - discriminate.
  - exists combinedData, urls. split; [exact Hret|]. split; [exact Hnodup|]. split.
    + destruct (Hkeys 0%nat (Demo.call "get_stock_price" {[ "ticker" := VStr "RELIANCE.BSE" ]}))
        as (_ & Hticker & _); [reflexivity|].
      apply (Hticker "RELIANCE.BSE"); [reflexivity | reflexivity | discriminate].
    + destruct (Hkeys 1%nat (Demo.call "get_company_news" {[ "ticker" := VStr "RELIANCE.BSE" ]}))
        as (Herror & _); [reflexivity|].
      apply (Herror "API request failed"); [reflexivity | discriminate].
Defined.

(** A batch in which the news tool throws an error with an empty message
    and the price tool is called with an empty ticker: the failed call
    leaves no [_error] key and is stored, like a success, under its tool
    and ticker with [null] for data; the call with the empty ticker is
    stored under the bare tool name. *)
Lemma failed_call_without_error_key :
  exists combinedData urls,
    FinancialSearch.financial_search Demo2.silent_map Demo.tool_names
      (Demo.flaky_llm (Demo.router_selects (Some Demo2.silent_calls)))
      "route" "gpt-4o" "price and news of Reliance"
    = Returned (Success combinedData urls) /\
    FinancialSearch.error
      (FinancialSearch.dispatch Demo2.silent_map 1
         (Demo.call "get_company_news" {[ "ticker" := VStr "RELIANCE.BSE" ]}))
    = Some "" /\
    combinedData !! "get_company_news_error" = None /\
    combinedData !! "get_company_news_RELIANCE.BSE" = Some VNull /\
    combinedData !! "get_stock_price_" = None /\
    combinedData !! "get_stock_price" = Some (VObj [("price", VNum 2890)]).
Proof.
  eexists _, _. split; [reflexivity|]. repeat split; vm_compute; reflexivity.
Qed.


Lemma financial_search_no_tool_selected_witness :
  FinancialSearch.financial_search Demo.tool_map Demo.tool_names
    (Demo.flaky_llm (Demo.router_selects None)) "route" "gpt-4o" "hello"
  = Returned (Success
      {[ "error" := VStr "No tools selected for query";
         "message" := VStr "Nothing to look up." ]} []).
Proof.
  apply (financial_search_no_tool_selected Demo.tool_map Demo.tool_names
           (Demo.flaky_llm (Demo.router_selects None)) "route" "gpt-4o" "hello"
           {| Llm.response := Llm.RespMessage (Demo.router_selects None);
              Llm.usage := None |}
           (Demo.router_selects None)).
  - reflexivity.
  - reflexivity.
  - left. reflexivity.
Defined.

Lemma callLlm_retries_with_backoff_witness :
  Llm.callLlm (Demo.flaky_llm Demo.answers) "q" Demo.options
  = ([Llm.Call 0;
      Llm.LogError "[OpenAI API] error (attempt 1/3): rate limited";
      Llm.Sleep 500;
      Llm.Call 1],
     Returned {| Llm.response := Llm.RespContent (CStr "RELIANCE.BSE trades at 2890.");
                 Llm.usage := None |}).
Proof.
  apply (callLlm_retries_with_backoff (Demo.flaky_llm Demo.answers) "q" Demo.options).
  - reflexivity.
  - intros _. reflexivity.
  - intros _ tools bind_tools Htools. discriminate Htools.
  - reflexivity.
Defined.

Lemma finance_tools_do_not_throw_witness :
  Finance.getYahooPriceSnapshot Demo.finance_env "IBM"
  = Returned (formatToolResult
      (VObj [("error", VStr "Failed to fetch price for IBM: Error: Quote not found")]) []) /\
  Finance.getYahooFundamentals Demo.finance_env "IBM"
  = Returned (formatToolResult
      (VObj [("error",
              VStr "Failed to fetch fundamentals for IBM: TypeError: Cannot read properties of null (reading 'defaultKeyStatistics')")])
      []) /\
  Finance.getAlphaVantagePriceSnapshot Demo.finance_env "IBM"
  = Returned (formatToolResult
      (VObj [("error",
              VStr "Failed to fetch price for IBM: Error: ALPHA_VANTAGE_API_KEY is not set in .env")])
      []) /\
  Finance.getAlphaVantageOverview Demo.finance_env "IBM"
  = Returned (formatToolResult
      (VObj [("error", VStr "Failed to fetch overview for IBM: TypeError: fetch failed")])
      []).
Proof.
  destruct (finance_tools_do_not_throw Demo.finance_env "IBM")
    as (_ & Hprice & Hfund & _ & Hav & Hoverview).
  split; [exact Hprice|]. split; [exact Hfund|]. split; [exact Hav|exact Hoverview].
Defined.

Lemma merge_same_key_overwrites_witness :
  (size (FinancialSearch.merge Demo.same_key_results).1
     < length Demo.same_key_results)%nat /\
  (FinancialSearch.merge Demo.same_key_results).1 !! "get_stock_price_AAPL" = Some (VNum 2).
Proof.
  destruct (merge_same_key_overwrites Demo.same_key_results 0 1
              {| FinancialSearch.tool := "get_stock_price";
                 FinancialSearch.args := {[ "ticker" := VStr "AAPL" ]};
                 FinancialSearch.data := VNum 1;
                 FinancialSearch.sourceUrls := [];
                 FinancialSearch.error := None |}
              {| FinancialSearch.tool := "get_stock_price";
                 FinancialSearch.args := {[ "ticker" := VStr "AAPL" ]};
                 FinancialSearch.data := VNum 2;
                 FinancialSearch.sourceUrls := [];
                 FinancialSearch.error := None |})
    as (_ & Hsize & Hlast).
  - lia.
  - reflexivity.
  - reflexivity.
  - reflexivity.
  - right. split; [reflexivity|]. split; reflexivity.
  - split; [exact Hsize|]. apply Hlast.
    intros k r Hk Hr. destruct k as [|[|k]]; [lia | lia | discriminate].
Defined.

(* ===================================================================== *)
(** ** The model on small inputs *)
(* ===================================================================== *)

(** Scenario A: one tool call, then the answer at iteration 2. *)
Example scenario_tool_then_answer :
  last (Agent.events
          (Agent.run (Demo.config_with 10 None) Demo.tools_then_answer None
             "price of RELIANCE.BSE").1)
  = Some (Agent.ev_done "RELIANCE.BSE trades at 2890."
            [{| Agent.request :=
                  Demo.call "unknown_tool" {[ "ticker" := VStr "RELIANCE.BSE" ]};
                Agent.outcome := Failure "tool not found";
                Agent.startedAt := 1; Agent.finishedAt := 1 |}]
            2 200 None).
Proof. vm_compute. reflexivity. Qed.

(** Scenario D: a budget of one iteration and a model that always asks for
    a tool. *)
Example scenario_budget_of_one :
  Agent.invocations
    (Agent.run (Demo.config_with 1 None) Demo.always_tools None "q").1 = [1] /\
  (Agent.run (Demo.config_with 1 None) Demo.always_tools None "q").2 = Returned () /\
  map Agent.is_done
    (Agent.events (Agent.run (Demo.config_with 1 None) Demo.always_tools None "q").1)
  = [false; false; false; true].
Proof. vm_compute. done. Qed.

(** A budget of zero: the loop is not entered. *)
Example scenario_budget_of_zero :
  Agent.run (Demo.config_with 0 (Some Demo.signaled)) Demo.always_tools None "q"
  = ([Agent.Yield
        (Agent.ev_done (Agent.budget_note +:+ "records: 0") [] 0 0 None)],
     Returned ()).
Proof. vm_compute. reflexivity. Qed.

(** The third failure is rethrown after two sleeps. *)
Example retry_gives_up :
  Llm.withRetry (fun k => Threw (Error ("down " +:+ pretty k)) : Result unit) "OpenAI" None
  = ([Llm.Call 0; Llm.LogError "[OpenAI API] error (attempt 1/3): down 0"; Llm.Sleep 500;
      Llm.Call 1; Llm.LogError "[OpenAI API] error (attempt 2/3): down 1"; Llm.Sleep 1000;
      Llm.Call 2; Llm.LogError "[OpenAI API] error (attempt 3/3): down 2"],
     Threw (Error "down 2")).
Proof. vm_compute. reflexivity. Qed.

(** Truthiness in the merge loop: an empty ticker is no ticker. *)
Example empty_ticker_key :
  FinancialSearch.merge_key
    {| FinancialSearch.tool := "get_stock_price";
       FinancialSearch.args := {[ "ticker" := VStr "" ]};
       FinancialSearch.data := VNum 1;
       FinancialSearch.sourceUrls := [];
       FinancialSearch.error := None |}
  = "get_stock_price".
Proof. reflexivity. Qed.

(** [Array.from(new Set(...))] keeps first occurrences. *)
Example Set_from_keeps_first :
  FinancialSearch.Set_from ["b"; "a"; "b"; "c"; "a"] = ["b"; "a"; "c"].
Proof. reflexivity. Qed.

(* ===================================================================== *)
(** ** More on the agent loop *)
(* ===================================================================== *)

Section LoopBounds.
Import Agent.
Variable config : AgentConfig.
Variable env : AgentEnv.
Variable history : option (list Turn).

(** Entered at iteration counter [i], the loop invokes the model at
    consecutive iterations [i + 1], [i + 2], ... and no more often than
    the budget allows. *)
Lemma run_loop_invocations (n : nat) : forall ctx : RunContext,
  Z.to_nat (limit config - iteration ctx) = n ->
  exists m, 0 <= m <= Z.of_nat n /\
    invocations (run_loop config env history ctx).1 = seqZ (iteration ctx + 1) m.
Proof.
  induction n as [n IH] using lt_wf_ind. intros ctx Hn.
  rewrite run_loop_step.
  destruct (decide (iteration ctx < limit config)) as [Hlt|Hge].
  2: { exists 0. split; [lia|done]. }
  destruct (signal_aborted config (iteration ctx + 1)).
  { exists 0. split; [lia|done]. }
  destruct (llm_invoke env (iteration ctx + 1) _) as [response|e].
  2: { exists 1. split; [lia|done]. }
  destruct (has_tool_calls response).
  2: { exists 1. split; [lia|done]. }
  destruct (executeAll env response _) as [evs [sp|e]]; cbn [fst snd].
  - destruct (IH (Z.to_nat (limit config - (iteration ctx + 1))))
      with (ctx := with_scratchpad (advance ctx) sp) as (m & Hm & Hinv); [lia|done|].
    exists (Z.succ m). split; [lia|].
    rewrite !invocations_app, invocations_map_Yield, Hinv. cbn.
    rewrite (seqZ_cons (iteration ctx + 1)) by lia. f_equal. f_equal; lia.
  - exists 1. split; [lia|].
    rewrite invocations_app, invocations_map_Yield. done.
Qed.

End LoopBounds.

(** X1. Whatever the model, the tools and the token do, [Agent.run] invokes
    the model at iterations 1, 2, ..., n in this order, for some n that is
    at most [maxIterations] (10 when the configuration gives none) and 0
    when that bound is not positive. *)
Theorem run_invokes_model_within_budget (config : Agent.AgentConfig)
    (env : Agent.AgentEnv) (history : option (list Agent.Turn)) (query : string) :
  exists n, 0 <= n <= Z.max 0 (default 10 (Agent.maxIterations config)) /\
    Agent.invocations (Agent.run config env history query).1 = seqZ 1 n.
Proof.
  destruct (run_loop_invocations config env history _ (Agent.createRunContext query) eq_refl)
    as (m & Hm & Hinv).
  exists m. split; [|exact Hinv].
  unfold Agent.limit in Hm. cbn in Hm. lia.
Qed.

Section LoopThinking.
Import Agent.
Variable config : AgentConfig.
Variable env : AgentEnv.
Variable history : option (list Turn).
Hypothesis executor_events : tool_events_only env.

Lemma thinking_messages_app (a b : list AgentEvent) :
  Observe.thinking_messages (a ++ b)
  = Observe.thinking_messages a ++ Observe.thinking_messages b.
Proof. unfold Observe.thinking_messages. apply omap_app. Qed.

Lemma thinking_messages_tool_events (evs : list AgentEvent) :
  Forall (fun e => is_tool_event e = true) evs ->
  Observe.thinking_messages evs = [].
Proof.
  induction 1 as [|e evs He _ IH]; [done|].
  destruct e; try discriminate He; exact IH.
Qed.

Lemma thinking_messages_done (e : AgentEvent) :
  is_done e = true -> Observe.thinking_messages [e] = [].
Proof. by destruct e. Qed.

(** The loop yields one [thinking] event for each invocation of the model,
    worded after the iteration. *)
Lemma run_loop_thinking (n : nat) : forall ctx : RunContext,
  Z.to_nat (limit config - iteration ctx) = n ->
  Observe.thinking_messages (events (run_loop config env history ctx).1)
  = map (fun k => if decide (k = 1) then "Analyzing query..." else "Analyzing results...")
        (invocations (run_loop config env history ctx).1).
Proof.
  induction n as [n IH] using lt_wf_ind. intros ctx Hn.
  rewrite run_loop_step.
  destruct (decide (iteration ctx < limit config)) as [Hlt|Hge]; [|done].
  destruct (signal_aborted config (iteration ctx + 1)); [done|].
  destruct (llm_invoke env (iteration ctx + 1) _) as [response|e]; [|done].
  destruct (has_tool_calls response); [|done].
  pose proof (executor_events response
                (with_scratchpad (advance ctx)
                   (note_thinking env response (scratchpad ctx)))) as Hevs.
  destruct (executeAll env response _) as [evs [sp|e]]; cbn [fst snd] in *.
  - rewrite !events_app, !invocations_app, !thinking_messages_app.
    rewrite events_map_Yield, invocations_map_Yield.
    rewrite (thinking_messages_tool_events evs Hevs).
    rewrite (IH (Z.to_nat (limit config - (iteration ctx + 1))))
      with (ctx := with_scratchpad (advance ctx) sp); [done|lia|done].
  - rewrite !events_app, !invocations_app, !thinking_messages_app.
    rewrite events_map_Yield, invocations_map_Yield.
    by rewrite (thinking_messages_tool_events evs Hevs).
Qed.

End LoopThinking.

(** X2. [Agent.run] yields exactly one [thinking] event for each model
    invocation it makes (hence at most [maxIterations] of them): "Analyzing
    query..." for the first iteration and "Analyzing results..." for every
    later one, the tool executor yielding only [tool_start] and [tool_end]
    events. *)
Theorem run_thinking_events (config : Agent.AgentConfig) (env : Agent.AgentEnv)
    (history : option (list Agent.Turn)) (query : string) :
  Agent.tool_events_only env ->
  Observe.thinking_messages (Agent.events (Agent.run config env history query).1)
  = map (fun k => if decide (k = 1) then "Analyzing query..." else "Analyzing results...")
        (Agent.invocations (Agent.run config env history query).1).
Proof.
  intros Hexec. by eapply run_loop_thinking.
Qed.

Lemma run_thinking_events_witness :
  Observe.thinking_messages
    (Agent.events
       (Agent.run (Demo.config_with 10 None) Demo.tools_then_answer None "q").1)
  = ["Analyzing query..."; "Analyzing results..."].
Proof.
  exact (run_thinking_events (Demo.config_with 10 None) Demo.tools_then_answer None "q"
           (executeAll_unregistered_tool_events _)).
Defined.

Section LoopPrefix.
Import Agent.
Variable config : AgentConfig.
Variable env : AgentEnv.
Variable history : option (list Turn).
Hypothesis batches_complete : forall response ctx,
  exists sp, (executeAll env response ctx).2 = Returned sp.
Hypothesis executor_events : tool_events_only env.

(** While the token is not signaled and the model keeps requesting tools,
    the loop goes round: after [n] such iterations it is entered again with
    the counter advanced by [n]. *)
Lemma run_loop_rounds (n : nat) : forall ctx : RunContext,
  iteration ctx + Z.of_nat n <= limit config ->
  (forall j, iteration ctx < j <= iteration ctx + Z.of_nat n ->
     signal_aborted config j = false) ->
  (forall j msgs, iteration ctx < j <= iteration ctx + Z.of_nat n ->
     exists response, llm_invoke env j msgs = Returned response /\
                      has_tool_calls response = true) ->
  exists acts sp,
    run_loop config env history ctx =
      (acts ++ (run_loop config env history
                  (Observe.context_at (query ctx) (iteration ctx + Z.of_nat n) sp)).1,
       (run_loop config env history
          (Observe.context_at (query ctx) (iteration ctx + Z.of_nat n) sp)).2) /\
    invocations acts = seqZ (iteration ctx + 1) (Z.of_nat n) /\
    Forall (fun e => is_terminal_event e = false) (events acts).
Proof.
  induction n as [|n IH]; intros ctx Hle Hsig Hllm.
  - exists [], (scratchpad ctx). split; [|done].
    replace (iteration ctx + Z.of_nat 0) with (iteration ctx) by lia.
    destruct ctx as [q i sp]. unfold Observe.context_at. cbn.
    by destruct (run_loop config env history _).
  - rewrite run_loop_step, decide_True by lia.
    rewrite Hsig by lia.
    destruct (Hllm (iteration ctx + 1)
                (build_messages config env history (advance ctx)))
      as (response & -> & ->); [lia|].
    pose proof (batch_not_terminal config env history executor_events response
                  (advance ctx)
                  (with_scratchpad (advance ctx)
                     (note_thinking env response (scratchpad ctx)))) as Hbatch.
    destruct (batches_complete response
                (with_scratchpad (advance ctx)
                   (note_thinking env response (scratchpad ctx)))) as [sp Hsp].
    destruct (executeAll env response _) as [evs res]. cbn [fst snd] in *. subst res.
    destruct (IH (with_scratchpad (advance ctx) sp)) as (acts & sp' & Hrun & Hinv & Hev).
    { cbn. lia. }
    { intros j Hj. apply Hsig. cbn in Hj. lia. }
    { intros j msgs Hj. apply Hllm. cbn in Hj. lia. }
    cbn [with_scratchpad advance query iteration] in *.
    replace (iteration ctx + 1 + Z.of_nat n) with (iteration ctx + Z.of_nat (S n))
      in Hrun by lia.
    rewrite Hrun. cbn [fst snd].
    exists (ask config env history (advance ctx) ++ map Yield evs ++ acts), sp'.
    split; [by rewrite <- !app_assoc|]. split.
    + rewrite !invocations_app, invocations_map_Yield, Hinv. cbn.
      rewrite (seqZ_cons (iteration ctx + 1)) by lia. f_equal. f_equal; lia.
    + rewrite app_assoc, events_app. apply Forall_app. done.
Qed.

End LoopPrefix.

(** X3. The first response without tool calls ends the run: when the token
    is not signaled, the model requests tools at iterations 1, ..., k - 1
    (each batch completing) and answers without a tool call at iteration
    k <= maxIterations, [Agent.run] invokes the model exactly k times and
    returns after its only terminal event, a [done] event that carries the
    text of that response, the records of the scratchpad, [iterations = k],
    the elapsed time and the token usage the response reported. *)
Theorem run_ends_on_first_answer (config : Agent.AgentConfig) (env : Agent.AgentEnv)
    (history : option (list Agent.Turn)) (query : string) (k : Z)
    (final : AIMessage) :
  1 <= k <= default 10 (Agent.maxIterations config) ->
  (forall j, 1 <= j <= k -> Agent.signal_aborted config j = false) ->
  (forall j msgs, 1 <= j < k ->
     exists response, Agent.llm_invoke env j msgs = Returned response /\
                      Agent.has_tool_calls response = true) ->
  (forall msgs, Agent.llm_invoke env k msgs = Returned final) ->
  Agent.has_tool_calls final = false ->
  (forall response ctx, exists sp, (Agent.executeAll env response ctx).2 = Returned sp) ->
  Agent.tool_events_only env ->
  exists acts sp,
    Agent.run config env history query =
      (acts ++ [Agent.Yield
                  (Agent.ev_done (Agent.content_text env (content final))
                     (Agent.getToolCallRecords sp) k
                     (Agent.Date_now env k - Agent.startTime env)
                     (kw_tokenUsage final))],
       Returned ()) /\
    Agent.invocations acts = seqZ 1 k /\
    Forall (fun e => Agent.is_terminal_event e = false) (Agent.events acts).
Proof.
  intros Hk Hsig Hllm Hfinal Hnone Hexec Hev.
  destruct (run_loop_rounds config env history Hexec Hev (Z.to_nat (k - 1))
              (Agent.createRunContext query))
    as (acts & sp & Hrun & Hinv & Hnt).
  { cbn. unfold Agent.limit. lia. }
  { intros j Hj. apply Hsig. cbn in Hj. lia. }
  { intros j msgs Hj. apply Hllm. cbn in Hj. lia. }
  cbn [Agent.createRunContext Agent.query Agent.iteration] in *.
  unfold Agent.run. rewrite Hrun.
  replace (0 + Z.of_nat (Z.to_nat (k - 1))) with (k - 1) by lia.
  rewrite run_loop_step.
  cbn [Observe.context_at Agent.iteration Agent.scratchpad Agent.advance].
  rewrite decide_True by (unfold Agent.limit; lia).
  replace (k - 1 + 1) with k by lia.
  rewrite Hsig by lia. rewrite Hfinal, Hnone. cbn [fst snd].
  exists (acts ++ Agent.ask config env history
                    (Agent.advance (Observe.context_at query (k - 1) sp))),
         (Agent.note_thinking env final sp).
  split; [|split].
  - rewrite <- app_assoc. unfold Agent.final_answer. do 4 f_equal.
  - rewrite invocations_app, Hinv. cbn.
    replace (k - 1 + 1) with k by lia.
    replace (Z.of_nat (Z.to_nat (k - 1))) with (k - 1) by lia.
    replace (0 + 1) with 1 by lia.
    assert (Hseq : seqZ 1 k = seqZ 1 (k - 1) ++ seqZ (1 + (k - 1)) 1).
    { rewrite <- seqZ_app by lia. f_equal. lia. }
    rewrite Hseq. replace (1 + (k - 1)) with k by lia. done.
  - rewrite events_app. apply Forall_app. split; [done|]. cbn. by apply Forall_cons.
Qed.

Lemma run_ends_on_first_answer_witness :
  exists acts sp,
    Agent.run (Demo.config_with 10 None) Demo.tools_then_answer None
      "price of RELIANCE.BSE" =
      (acts ++ [Agent.Yield
                  (Agent.ev_done "RELIANCE.BSE trades at 2890."
                     (Agent.getToolCallRecords sp) 2 200 None)],
       Returned ()) /\
    Agent.invocations acts = seqZ 1 2 /\
    Forall (fun e => Agent.is_terminal_event e = false) (Agent.events acts).
Proof.
  apply (run_ends_on_first_answer (Demo.config_with 10 None) Demo.tools_then_answer None
           "price of RELIANCE.BSE" 2 Demo.answers).
  - cbn. lia.
  - intros j _. reflexivity.
  - intros j msgs Hj. exists Demo.asks_for_price.
    assert (j = 1) as -> by lia. split; reflexivity.
  - intros msgs. reflexivity.
  - reflexivity.
  - intros response ctx. eexists. reflexivity.
  - apply executeAll_unregistered_tool_events.
Defined.

(** X4. The loop does not retry the model: when the token is not signaled,
    the model requests tools at iterations 1, ..., k - 1 (each batch
    completing) and its invocation at iteration k <= maxIterations throws,
    [Agent.run] ends with that very exception after exactly k invocations,
    having yielded no [done] or [error] event. *)
Theorem run_fails_with_model_error (config : Agent.AgentConfig) (env : Agent.AgentEnv)
    (history : option (list Agent.Turn)) (query : string) (k : Z) (e : Exn) :
  1 <= k <= default 10 (Agent.maxIterations config) ->
  (forall j, 1 <= j <= k -> Agent.signal_aborted config j = false) ->
  (forall j msgs, 1 <= j < k ->
     exists response, Agent.llm_invoke env j msgs = Returned response /\
                      Agent.has_tool_calls response = true) ->
  (forall msgs, Agent.llm_invoke env k msgs = Threw e) ->
  (forall response ctx, exists sp, (Agent.executeAll env response ctx).2 = Returned sp) ->
  Agent.tool_events_only env ->
  (Agent.run config env history query).2 = Threw e /\
  Agent.invocations (Agent.run config env history query).1 = seqZ 1 k /\
  Forall (fun ev => Agent.is_terminal_event ev = false)
    (Agent.events (Agent.run config env history query).1).
Proof.
  intros Hk Hsig Hllm Hfail Hexec Hev.
  destruct (run_loop_rounds config env history Hexec Hev (Z.to_nat (k - 1))
              (Agent.createRunContext query))
    as (acts & sp & Hrun & Hinv & Hnt).
  { cbn. unfold Agent.limit. lia. }
  { intros j Hj. apply Hsig. cbn in Hj. lia. }
  { intros j msgs Hj. apply Hllm. cbn in Hj. lia. }
  cbn [Agent.createRunContext Agent.query Agent.iteration] in *.
  unfold Agent.run. rewrite Hrun.
  replace (0 + Z.of_nat (Z.to_nat (k - 1))) with (k - 1) by lia.
  rewrite run_loop_step.
  cbn [Observe.context_at Agent.iteration Agent.scratchpad Agent.advance].
  rewrite decide_True by (unfold Agent.limit; lia).
  replace (k - 1 + 1) with k by lia.
  rewrite Hsig by lia. rewrite Hfail. cbn [fst snd].
  split; [done|]. split.
  - rewrite invocations_app, Hinv. cbn.
    replace (k - 1 + 1) with k by lia.
    replace (Z.of_nat (Z.to_nat (k - 1))) with (k - 1) by lia.
    replace (0 + 1) with 1 by lia.
    assert (Hseq : seqZ 1 k = seqZ 1 (k - 1) ++ seqZ (1 + (k - 1)) 1).
    { rewrite <- seqZ_app by lia. f_equal. lia. }
    rewrite Hseq. replace (1 + (k - 1)) with k by lia. done.
  - rewrite events_app. apply Forall_app. split; [done|]. cbn. by apply Forall_cons.
Qed.

Lemma run_fails_with_model_error_witness :
  (Agent.run (Demo.config_with 10 None) Demo2.tools_then_down None "q").2
    = Threw (Error "503 Service Unavailable") /\
  Agent.invocations (Agent.run (Demo.config_with 10 None) Demo2.tools_then_down None "q").1
    = seqZ 1 2 /\
  Forall (fun ev => Agent.is_terminal_event ev = false)
    (Agent.events (Agent.run (Demo.config_with 10 None) Demo2.tools_then_down None "q").1).
Proof.
  apply (run_fails_with_model_error (Demo.config_with 10 None) Demo2.tools_then_down None
           "q" 2 (Error "503 Service Unavailable")).
  - cbn. lia.
  - intros j _. reflexivity.
  - intros j msgs Hj. exists Demo.asks_for_price.
    assert (j = 1) as -> by lia. split; reflexivity.
  - intros msgs. reflexivity.
  - intros response ctx. eexists. reflexivity.
  - apply executeAll_unregistered_tool_events.
Defined.

(* ===================================================================== *)
(** ** Facts about the provider registry and the model factories *)
(* ===================================================================== *)

Section StringFacts.

Lemma prefix_includes_char (p s : string) (c : ascii) :
  String.prefix p s = true -> Str.includes_char p c = true -> Str.includes_char s c = true.
Proof.
  revert s. induction p as [|a p IH]; intros s Hp Hc; [discriminate|].
  destruct s as [|b s]; [discriminate|]. cbn in Hp.
  destruct (ascii_dec a b) as [->|Hne]; [|discriminate].
  cbn [Str.includes_char] in *. destruct (decide (b = c)); [done|]. by apply IH.
Qed.

Lemma includes_char_app_r (p : string) (c : ascii) :
  Str.includes_char (p +:+ String c EmptyString) c = true.
Proof.
  induction p as [|a p IH]; simpl.
  - destruct (decide (c = c)); [done|congruence].
  - destruct (decide (a = c)); [done|exact IH].
Qed.

Lemma prefix_split (p s : string) :
  String.prefix p s = true -> exists rest, s = p +:+ rest.
Proof.
  revert s. induction p as [|a p IH]; intros s Hp; [by exists s|].
  destruct s as [|b s]; [discriminate|]. cbn in Hp.
  destruct (ascii_dec a b) as [->|Hne]; [|discriminate].
  destruct (IH s Hp) as [rest ->]. by exists rest.
Qed.

Lemma prefix_app (p rest : string) : String.prefix p (p +:+ rest) = true.
Proof.
  induction p as [|a p IH]; simpl; [by destruct rest|].
  destruct (ascii_dec a a); [exact IH|congruence].
Qed.

End StringFacts.

(** Entries of a table that visibly do not match are skipped. *)
Ltac skip_entries f :=
  repeat match goal with
         | |- context [f ?m ?p] =>
             let b := eval vm_compute in (f m p) in
             match b with
             | false => change (f m p) with false; cbn match
             end
         end.

(** A name made of an entry's normalized prefix, a separator and [rest]
    matches the entry. *)
Ltac matches_prefixed rest :=
  unfold Providers.matches, Str.startsWith; cbn -[String.prefix String.append];
  first [ by rewrite (prefix_app _ rest)
        | rewrite orb_true_iff; right; apply (prefix_app _ rest) ].

Section ProviderFacts.
Import Providers.

Lemma matches_needs_separator (modelName : string) (p : ProviderDef) :
  matches modelName p = true ->
  Str.includes_char modelName ":" = true \/ Str.includes_char modelName "/" = true.
Proof.
  unfold matches. destruct (negb (str_truthy (modelPrefix p))); [discriminate|].
  cbv zeta. intros [H|H]%orb_true_iff.
  - left. eapply prefix_includes_char; [exact H|]. apply includes_char_app_r.
  - right. eapply prefix_includes_char; [exact H|]. apply includes_char_app_r.
Qed.

(** Without ":" and "/" in the name, no entry matches. *)
Lemma resolveProvider_default (modelName : string) :
  Str.includes_char modelName ":" = false ->
  Str.includes_char modelName "/" = false ->
  resolveProvider modelName = defaultProvider.
Proof.
  intros Hc Hs.
  assert (Hnone : List.find (matches modelName) PROVIDERS = None).
  { destruct (List.find _ _) as [p|] eqn:Hfind; [|done].
    apply List.find_some in Hfind as [_ Hm].
    apply matches_needs_separator in Hm as [H|H]; congruence. }
  unfold resolveProvider. rewrite Hnone. done.
Qed.

(** The first matching entry is the only one. *)
Lemma resolveProvider_match (modelName : string) (p : ProviderDef) :
  p ∈ PROVIDERS -> matches modelName p = true -> resolveProvider modelName = p.
Proof.
  intros Hin Hm. unfold PROVIDERS in Hin.
  repeat (apply elem_of_cons in Hin as [->|Hin]); [..|by apply elem_of_nil in Hin];
    unfold matches in Hm; cbn [modelPrefix str_truthy negb] in Hm;
    try discriminate Hm;
    match type of Hm with
    | context [Str.endsWith_char ?s ?c] =>
        let b := eval vm_compute in (Str.endsWith_char s c) in
        change (Str.endsWith_char s c) with b in Hm
    end;
    simpl in Hm; unfold Str.startsWith in Hm;
    apply orb_true_iff in Hm as [Hm|Hm]; apply prefix_split in Hm as [rest ->];
    unfold resolveProvider; cbn [PROVIDERS List.find];
    skip_entries matches;
    match goal with
    | |- context [matches ?m ?p] =>
        assert (matches m p = true) as ->
          by matches_prefixed rest
    end; done.
Qed.

Lemma resolveProvider_in (modelName : string) : resolveProvider modelName ∈ PROVIDERS.
Proof.
  unfold resolveProvider.
  destruct (List.find _ _) as [p|] eqn:Hfind.
  - apply List.find_some in Hfind as [Hin _]. by apply list_elem_of_In.
  - vm_compute. set_solver.
Qed.

Lemma getProviderById_id (p : ProviderDef) :
  p ∈ PROVIDERS -> getProviderById (id p) = Some p.
Proof.
  intros Hin. unfold PROVIDERS in Hin.
  repeat (apply elem_of_cons in Hin as [->|Hin]); [..|by apply elem_of_nil in Hin];
    reflexivity.
Qed.

Lemma resolveProvider_openrouter (rest : string) :
  id (resolveProvider ("openrouter:" +:+ rest)) = "openrouter" /\
  id (resolveProvider ("openrouter/" +:+ rest)) = "openrouter".
Proof.
  assert (Hin : {| id := "openrouter"; displayName := "OpenRouter";
                   modelPrefix := "openrouter:";
                   apiKeyEnvVar := Some "OPENROUTER_API_KEY";
                   fastModel := Some "openai/gpt-4o-mini" |} ∈ PROVIDERS)
    by (vm_compute; set_solver).
  split.
  - rewrite (resolveProvider_match _ _ Hin); [done|].
    matches_prefixed rest.
  - rewrite (resolveProvider_match _ _ Hin); [done|].
    matches_prefixed rest.
Qed.

Lemma resolveProvider_ollama (rest : string) :
  id (resolveProvider ("ollama:" +:+ rest)) = "ollama" /\
  id (resolveProvider ("ollama/" +:+ rest)) = "ollama".
Proof.
  assert (Hin : {| id := "ollama"; displayName := "Ollama"; modelPrefix := "ollama:";
                   apiKeyEnvVar := None; fastModel := None |} ∈ PROVIDERS)
    by (vm_compute; set_solver).
  split.
  - rewrite (resolveProvider_match _ _ Hin); [done|].
    matches_prefixed rest.
  - rewrite (resolveProvider_match _ _ Hin); [done|].
    matches_prefixed rest.
Qed.

End ProviderFacts.

(** X5. [resolveProvider] looks for the normalized prefix followed by ":"
    or "/", so a model name that contains neither character matches no
    entry of the registry and resolves to the default provider, OpenAI:
    this is the case of the vendors' own names such as
    "claude-3-5-sonnet-latest" or "gemini-1.5-pro-latest". *)
Theorem resolveProvider_without_separator (modelName : string) :
  Str.includes_char modelName ":" = false ->
  Str.includes_char modelName "/" = false ->
  Providers.resolveProvider modelName = Providers.defaultProvider /\
  Providers.id (Providers.resolveProvider modelName) = "openai" /\
  Providers.displayName (Providers.resolveProvider modelName) = "OpenAI".
Proof.
  intros Hc Hs. by rewrite (resolveProvider_default modelName Hc Hs).
Qed.

Lemma resolveProvider_without_separator_witness :
  Providers.resolveProvider "claude-3-5-sonnet-latest" = Providers.defaultProvider /\
  Providers.id (Providers.resolveProvider "claude-3-5-sonnet-latest") = "openai" /\
  Providers.displayName (Providers.resolveProvider "claude-3-5-sonnet-latest") = "OpenAI".
Proof.
  apply (resolveProvider_without_separator "claude-3-5-sonnet-latest"); reflexivity.
Defined.

(** X6. The prefixes of the registry exclude one another: a model name
    that starts with the normalized prefix of an entry, followed by ":" or
    "/", resolves to that very entry whatever comes before it in the
    registry, and matches no other entry. So "openrouter/..." and
    "openrouter:..." both resolve to OpenRouter. *)
Theorem resolveProvider_matching_entry (modelName : string) (p : Providers.ProviderDef) :
  p ∈ Providers.PROVIDERS ->
  Providers.matches modelName p = true ->
  Providers.resolveProvider modelName = p /\
  forall p', p' ∈ Providers.PROVIDERS -> Providers.matches modelName p' = true -> p' = p.
Proof.
  intros Hin Hm. split; [by apply resolveProvider_match|].
  intros p' Hin' Hm'.
  rewrite <- (resolveProvider_match modelName p Hin Hm).
  symmetry. by apply resolveProvider_match.
Qed.

Lemma resolveProvider_matching_entry_witness :
  exists p, Providers.getProviderById "openrouter" = Some p /\
    Providers.resolveProvider "openrouter/openai/gpt-4o" = p /\
    forall p', p' ∈ Providers.PROVIDERS ->
               Providers.matches "openrouter/openai/gpt-4o" p' = true -> p' = p.
Proof.
  eexists. split; [reflexivity|].
  apply (resolveProvider_matching_entry "openrouter/openai/gpt-4o").
  - vm_compute. set_solver.
  - reflexivity.
Defined.

(** X7. The two lookups of the registry agree: ids are unique, so
    [getProviderById] gives back every entry from its id, what it finds has
    the id asked for, and the provider that [resolveProvider] returns for a
    model name is the one registered under its id. *)
Theorem getProviderById_round_trip :
  (forall p, p ∈ Providers.PROVIDERS -> Providers.getProviderById (Providers.id p) = Some p) /\
  (forall i p, Providers.getProviderById i = Some p ->
     Providers.id p = i /\ p ∈ Providers.PROVIDERS) /\
  (forall modelName,
     Providers.getProviderById (Providers.id (Providers.resolveProvider modelName))
     = Some (Providers.resolveProvider modelName)).
Proof.
  split; [exact getProviderById_id|]. split.
  - intros i p Hfind. unfold Providers.getProviderById in Hfind.
    apply List.find_some in Hfind as [Hin Hid].
    apply bool_decide_eq_true in Hid. split; [done|]. by apply list_elem_of_In.
  - intros modelName. apply getProviderById_id, resolveProvider_in.
Qed.

Section FactoryFacts.
Import Providers Factory.
Variable process_env : gmap string string.
Variable call_inherited : string -> string -> Result unit.

Lemma or_string_truthy (s : string) (b : option string) :
  s <> "" -> or_string (Some s) b = Some s.
Proof. intros Hs. unfold or_string, str_truthy. by rewrite decide_False. Qed.

(** A truthy provider id is used as given. *)
Lemma createLLM_with_provider (config : CreateConfig) (provider : string) :
  cfg_provider config = Some provider -> provider <> "" ->
  createLLM process_env call_inherited config =
  factory_for process_env call_inherited provider
    (default DEFAULT_MODEL (or_string (cfg_model config) None))
    (default false (cfg_streaming config)) (cfg_apiKeys config).
Proof.
  intros Hp Hne. unfold createLLM. by rewrite Hp, or_string_truthy.
Qed.

(** Without a provider id, the model name decides. *)
Lemma createLLM_without_provider (config : CreateConfig) :
  cfg_provider config = None ->
  createLLM process_env call_inherited config =
  factory_for process_env call_inherited
    (id (resolveProvider (default DEFAULT_MODEL (or_string (cfg_model config) None))))
    (default DEFAULT_MODEL (or_string (cfg_model config) None))
    (default false (cfg_streaming config)) (cfg_apiKeys config).
Proof. intros Hp. unfold createLLM. by rewrite Hp. Qed.

(** The model name that [createLLM] works with has no separator when the
    configured one has none. *)
Lemma effective_name_default (name : string) :
  Str.includes_char name ":" = false ->
  Str.includes_char name "/" = false ->
  resolveProvider (default DEFAULT_MODEL (or_string (Some name) None)) = defaultProvider /\
  default DEFAULT_MODEL (or_string (Some name) None)
  = if str_truthy name then name else DEFAULT_MODEL.
Proof.
  intros Hc Hs. unfold or_string. destruct (str_truthy name); cbn [default].
  - split; [by apply resolveProvider_default|done].
  - split; reflexivity.
Qed.

Lemma getChatModel_default (name : string) (streams : option bool)
    (keys : option (gmap string string)) :
  Str.includes_char name ":" = false ->
  Str.includes_char name "/" = false ->
  getChatModel process_env call_inherited (Some name) streams keys
  = openai process_env (if str_truthy name then name else DEFAULT_MODEL)
      (default false streams) keys.
Proof.
  intros Hc Hs. unfold getChatModel.
  rewrite createLLM_without_provider by done. cbn [cfg_model cfg_streaming cfg_apiKeys].
  destruct (effective_name_default name Hc Hs) as [-> ->]. done.
Qed.

Lemma factory_for_openrouter :
  factory_for process_env call_inherited "openrouter" = openrouter process_env.
Proof. reflexivity. Qed.

Lemma factory_for_ollama :
  factory_for process_env call_inherited "ollama" = ollama process_env.
Proof. reflexivity. Qed.

Lemma factory_for_openai :
  factory_for process_env call_inherited "openai" = openai process_env.
Proof. reflexivity. Qed.

End FactoryFacts.

(** X8. [getApiKey] prefers the client's override to the process
    environment, passes over an empty string in either place, never
    returns an empty key, and throws an error naming the variable when
    neither place has a non-empty value. *)
Theorem getApiKey_precedence (process_env : gmap string string) (envVar : string)
    (overrides : option (gmap string string)) :
  (forall k, overrides ≫= (fun o => o !! envVar) = Some k -> k <> "" ->
     Factory.getApiKey process_env envVar overrides = Returned k) /\
  (forall k, overrides ≫= (fun o => o !! envVar) = None
             \/ overrides ≫= (fun o => o !! envVar) = Some "" ->
     process_env !! envVar = Some k -> k <> "" ->
     Factory.getApiKey process_env envVar overrides = Returned k) /\
  (overrides ≫= (fun o => o !! envVar) = None
   \/ overrides ≫= (fun o => o !! envVar) = Some "" ->
   process_env !! envVar = None \/ process_env !! envVar = Some "" ->
   Factory.getApiKey process_env envVar overrides
   = Threw (Error ("[LLM] " +:+ envVar
                   +:+ " not found in environment variables or client overrides"))) /\
  (forall k, Factory.getApiKey process_env envVar overrides = Returned k -> k <> "").
Proof.
  unfold Factory.getApiKey, Factory.or_string, str_truthy.
  destruct (overrides ≫= _) as [o|]; [destruct (decide (o = "")) as [->|Ho]|];
    (destruct (process_env !! envVar) as [v|]; [destruct (decide (v = "")) as [->|Hv]|]);
    cbn; rewrite ?decide_False by done; rewrite ?decide_True by done;
    repeat split; intros; naive_solver.
Qed.

(** X9. Called with a model name that has no ":" and no "/", which is the
    case of every vendor's own model name, and without a provider,
    [getChatModel] runs the OpenAI factory: it needs OPENAI_API_KEY, fails
    with the error of that variable when it is missing whatever other keys
    there are, and otherwise returns a [ChatOpenAI] client for the name as
    given (for [DEFAULT_MODEL] when the name is empty). *)
Theorem getChatModel_without_separator (process_env : gmap string string)
    (call_inherited : string -> string -> Result unit) (name : string)
    (streams : option bool) (keys : option (gmap string string)) :
  Str.includes_char name ":" = false ->
  Str.includes_char name "/" = false ->
  match Factory.getApiKey process_env "OPENAI_API_KEY" keys with
  | Returned key =>
      Factory.getChatModel process_env call_inherited (Some name) streams keys
      = Returned (Factory.ChatModelOf
          {| Factory.class := Factory.ChatOpenAI;
             Factory.model := if str_truthy name then name else Factory.DEFAULT_MODEL;
             Factory.streaming := default false streams;
             Factory.apiKeys := keys;
             Factory.apiKey := Some key;
             Factory.baseURL := None;
             Factory.defaultHeaders := [] |})
  | Threw e =>
      Factory.getChatModel process_env call_inherited (Some name) streams keys = Threw e
  end.
Proof.
  intros Hc Hs. rewrite getChatModel_default by done. unfold Factory.openai.
  by destruct (Factory.getApiKey _ _ _).
Qed.

Lemma getChatModel_without_separator_witness :
  Factory.getChatModel Demo3.anthropic_only Demo3.inherited_throws
    (Some "claude-3-5-sonnet-latest") None None
  = Threw (Error "[LLM] OPENAI_API_KEY not found in environment variables or client overrides").
Proof.
  exact (getChatModel_without_separator Demo3.anthropic_only Demo3.inherited_throws
           "claude-3-5-sonnet-latest" None None eq_refl eq_refl).
Defined.

(** X10. For the registry's providers that have a keyed factory (OpenAI,
    Anthropic, Google, OpenRouter), [createLLM] with that provider id reads
    the key from the variable the registry names for the provider: it
    throws what [getApiKey] throws for that variable, and otherwise
    returns a client that carries the key. *)
Theorem createLLM_uses_registered_key (process_env : gmap string string)
    (call_inherited : string -> string -> Result unit) (config : Factory.CreateConfig)
    (p : Providers.ProviderDef) (envVar : string) :
  p ∈ Providers.PROVIDERS ->
  Providers.id p ∈ ["openai"; "anthropic"; "google"; "openrouter"] ->
  Providers.apiKeyEnvVar p = Some envVar ->
  Factory.cfg_provider config = Some (Providers.id p) ->
  match Factory.getApiKey process_env envVar (Factory.cfg_apiKeys config) with
  | Returned key =>
      exists m, Factory.createLLM process_env call_inherited config
                = Returned (Factory.ChatModelOf m) /\
                Factory.apiKey m = Some key /\
                Factory.streaming m = default false (Factory.cfg_streaming config)
  | Threw e => Factory.createLLM process_env call_inherited config = Threw e
  end.
Proof.
  intros Hin Hid Hvar Hp. unfold Providers.PROVIDERS in Hin.
  repeat (apply elem_of_cons in Hin as [->|Hin]); [..|by apply elem_of_nil in Hin];
    cbn [Providers.id Providers.apiKeyEnvVar] in *;
    try (exfalso; clear -Hid; set_solver);
    injection Hvar as <-;
    rewrite (createLLM_with_provider _ _ _ _ Hp) by done;
    unfold Factory.factory_for; cbn [decide_rel];
    repeat (destruct (decide _) as [?|?]; try congruence; []);
    unfold Factory.openai, Factory.anthropic, Factory.google, Factory.openrouter;
    destruct (Factory.getApiKey _ _ _); cbn; eauto.
Qed.

Lemma createLLM_uses_registered_key_witness :
  exists m,
    Factory.createLLM Demo3.anthropic_only Demo3.inherited_throws
      {| Factory.cfg_model := Some "claude-3-5-sonnet-latest";
         Factory.cfg_provider := Some "anthropic";
         Factory.cfg_streaming := None; Factory.cfg_apiKeys := None |}
    = Returned (Factory.ChatModelOf m) /\
    Factory.apiKey m = Some "sk-ant-1" /\ Factory.streaming m = false.
Proof.
  apply (createLLM_uses_registered_key Demo3.anthropic_only Demo3.inherited_throws
           {| Factory.cfg_model := Some "claude-3-5-sonnet-latest";
              Factory.cfg_provider := Some "anthropic";
              Factory.cfg_streaming := None; Factory.cfg_apiKeys := None |}
           {| Providers.id := "anthropic"; Providers.displayName := "Anthropic";
              Providers.modelPrefix := "claude-";
              Providers.apiKeyEnvVar := Some "ANTHROPIC_API_KEY";
              Providers.fastModel := Some "claude-3-5-haiku-latest" |}
           "ANTHROPIC_API_KEY").
  - vm_compute. set_solver.
  - vm_compute. set_solver.
  - reflexivity.
  - reflexivity.
Defined.

(** X11. Three providers of the registry (xAI, Moonshot, DeepSeek) have
    no factory: with such a provider id [createLLM] runs the OpenAI
    factory on the model name as given. Its outcome is what OPENAI_API_KEY
    decides, and the key variable registered for the provider is never
    read. *)
Theorem createLLM_without_factory (process_env : gmap string string)
    (call_inherited : string -> string -> Result unit) (config : Factory.CreateConfig)
    (p : Providers.ProviderDef) :
  p ∈ Providers.PROVIDERS ->
  Providers.id p ∉ ["openai"; "anthropic"; "google"; "openrouter"; "ollama"] ->
  Factory.cfg_provider config = Some (Providers.id p) ->
  Factory.createLLM process_env call_inherited config
  = Factory.openai process_env
      (default Factory.DEFAULT_MODEL (Factory.or_string (Factory.cfg_model config) None))
      (default false (Factory.cfg_streaming config)) (Factory.cfg_apiKeys config) /\
  forall envVar key, Providers.apiKeyEnvVar p = Some envVar ->
    Factory.createLLM (<[envVar := key]> process_env) call_inherited config
    = Factory.createLLM process_env call_inherited config.
Proof.
  intros Hin Hid Hp. unfold Providers.PROVIDERS in Hin.
  repeat (apply elem_of_cons in Hin as [->|Hin]); [..|by apply elem_of_nil in Hin];
    cbn [Providers.id Providers.apiKeyEnvVar] in *;
    try (exfalso; clear -Hid; set_solver);
    (split; [|intros envVar key [= <-]]);
    rewrite !(createLLM_with_provider _ _ _ _ Hp) by done;
    try reflexivity;
    unfold Factory.factory_for; cbn;
    unfold Factory.openai, Factory.getApiKey; by rewrite lookup_insert_ne.
Qed.

Lemma createLLM_without_factory_witness :
  Factory.createLLM Demo3.xai_only Demo3.inherited_throws
    {| Factory.cfg_model := Some "grok-beta"; Factory.cfg_provider := Some "xai";
       Factory.cfg_streaming := None; Factory.cfg_apiKeys := None |}
  = Threw (Error "[LLM] OPENAI_API_KEY not found in environment variables or client overrides").
Proof.
  exact (proj1 (createLLM_without_factory Demo3.xai_only Demo3.inherited_throws
           {| Factory.cfg_model := Some "grok-beta"; Factory.cfg_provider := Some "xai";
              Factory.cfg_streaming := None; Factory.cfg_apiKeys := None |}
           {| Providers.id := "xai"; Providers.displayName := "xAI";
              Providers.modelPrefix := "grok-";
              Providers.apiKeyEnvVar := Some "XAI_API_KEY";
              Providers.fastModel := Some "grok-beta" |}
           ltac:(vm_compute; set_solver) ltac:(vm_compute; set_solver) eq_refl)).
Defined.

(** X12. The factories strip the routing prefix from the model name, but
    not every prefix that [resolveProvider] accepts: "openrouter:" and
    "openrouter/" are both removed before the name is sent to OpenRouter,
    whereas of "ollama:" and "ollama/" only the first is removed, so that
    "ollama/NAME" reaches Ollama as it was written. Ollama needs no key. *)
Theorem getChatModel_strips_prefix (process_env : gmap string string)
    (call_inherited : string -> string -> Result unit) (rest : string)
    (streams : option bool) (keys : option (gmap string string)) :
  (forall key, Factory.getApiKey process_env "OPENROUTER_API_KEY" keys = Returned key ->
     forall name, name = "openrouter:" +:+ rest \/ name = "openrouter/" +:+ rest ->
     exists m, Factory.getChatModel process_env call_inherited (Some name) streams keys
               = Returned (Factory.ChatModelOf m) /\
               Factory.class m = Factory.ChatOpenAI /\
               Factory.model m = rest /\
               Factory.apiKey m = Some key /\
               Factory.baseURL m = Some "https://openrouter.ai/api/v1") /\
  (exists m, Factory.getChatModel process_env call_inherited (Some ("ollama:" +:+ rest))
               streams keys = Returned (Factory.ChatModelOf m) /\
             Factory.class m = Factory.ChatOllama /\ Factory.model m = rest /\
             Factory.apiKey m = None) /\
  (exists m, Factory.getChatModel process_env call_inherited (Some ("ollama/" +:+ rest))
               streams keys = Returned (Factory.ChatModelOf m) /\
             Factory.class m = Factory.ChatOllama /\
             Factory.model m = "ollama/" +:+ rest /\
             Factory.apiKey m = None).
Proof.
  destruct (resolveProvider_openrouter rest) as [Hr1 Hr2].
  destruct (resolveProvider_ollama rest) as [Ho1 Ho2].
  split; [|split].
  - intros key Hkey name [-> | ->]; unfold Factory.getChatModel;
      rewrite createLLM_without_provider by done;
      cbn [Factory.cfg_model Factory.cfg_streaming Factory.cfg_apiKeys];
      rewrite or_string_truthy by done; cbn [default from_option Datatypes.id];
      rewrite ?Hr1, ?Hr2; rewrite factory_for_openrouter;
      unfold Factory.openrouter; rewrite Hkey; cbn [bind];
      eexists; (split; [reflexivity|]); cbn [Factory.class Factory.model Factory.apiKey
                                              Factory.baseURL]; repeat split.
  - unfold Factory.getChatModel. rewrite createLLM_without_provider by done.
    cbn [Factory.cfg_model Factory.cfg_streaming Factory.cfg_apiKeys].
    rewrite or_string_truthy by done. cbn [default from_option Datatypes.id]. rewrite Ho1, factory_for_ollama.
    unfold Factory.ollama. eexists. split; [reflexivity|].
    cbn [Factory.class Factory.model Factory.apiKey]. repeat split.
  - unfold Factory.getChatModel. rewrite createLLM_without_provider by done.
    cbn [Factory.cfg_model Factory.cfg_streaming Factory.cfg_apiKeys].
    rewrite or_string_truthy by done. cbn [default from_option Datatypes.id]. rewrite Ho2, factory_for_ollama.
    unfold Factory.ollama. eexists. split; [reflexivity|].
    cbn [Factory.class Factory.model Factory.apiKey]. repeat split.
Qed.

(** X13. [Agent.create] always hands a provider id to [createLLM], so the
    prefix of the model name plays no part there: with no provider
    configured and no DEFAULT_PROVIDER in the environment, the OpenAI
    factory is run on the model name as it is, prefixed or not. *)
Theorem Agent_create_ignores_model_prefix (process_env : gmap string string)
    (call_inherited : string -> string -> Result unit) (name : string)
    (keys : option (gmap string string)) :
  name <> "" ->
  process_env !! "DEFAULT_PROVIDER" = None \/ process_env !! "DEFAULT_PROVIDER" = Some "" ->
  Factory.Agent_create_llm process_env call_inherited (Some name) None keys
  = Factory.openai process_env name false keys.
Proof.
  intros Hname Hprov. unfold Factory.Agent_create_llm.
  assert (Hp : Factory.or_default None (process_env !! "DEFAULT_PROVIDER") "openai" = "openai")
    by (destruct Hprov as [-> | ->]; reflexivity).
  assert (Hm : Factory.or_default (Some name) (process_env !! "DEFAULT_MODEL") "gpt-4o" = name).
  { unfold Factory.or_default. rewrite or_string_truthy by done.
    unfold str_truthy. by rewrite decide_False. }
  rewrite Hp, Hm.
  rewrite (createLLM_with_provider _ _ _ "openai") by done.
  cbn [Factory.cfg_model Factory.cfg_streaming Factory.cfg_apiKeys].
  rewrite or_string_truthy by done. by rewrite factory_for_openai.
Qed.

Lemma Agent_create_ignores_model_prefix_witness :
  Factory.Agent_create_llm ∅ Demo3.inherited_throws (Some "ollama:llama3") None None
  = Threw (Error "[LLM] OPENAI_API_KEY not found in environment variables or client overrides").
Proof.
  exact (Agent_create_ignores_model_prefix ∅ Demo3.inherited_throws "ollama:llama3" None
           ltac:(discriminate) (or_introl eq_refl)).
Defined.

(** X14. [extractUsage] reads [usage_metadata] when the result has one,
    whatever [response_metadata] says. A total that is reported and not
    zero is taken as it is; otherwise the total is the sum of the two
    counts when both are reported, and 0 as soon as one of them is
    missing, even though the other count is kept. *)
Theorem extractUsage_totals (r : Factory.Reported) (m : Factory.UsageMetadata) :
  Factory.usage_metadata r = Some m ->
  exists u, Factory.extractUsage (Some r) = Some u /\
    inputTokens u = default 0 (Factory.input_tokens m) /\
    outputTokens u = default 0 (Factory.output_tokens m) /\
    (forall t, Factory.total_tokens m = Some t -> t <> 0 -> totalTokens u = t) /\
    (Factory.total_tokens m = None \/ Factory.total_tokens m = Some 0 ->
     (forall i o, Factory.input_tokens m = Some i -> Factory.output_tokens m = Some o ->
        totalTokens u = i + o) /\
     (Factory.input_tokens m = None \/ Factory.output_tokens m = None ->
        totalTokens u = 0)).
Proof.
  intros Hm. unfold Factory.extractUsage. rewrite Hm. eexists. split; [reflexivity|].
  cbn [inputTokens outputTokens totalTokens].
  destruct m as [i o t]. cbn [Factory.input_tokens Factory.output_tokens Factory.total_tokens].
  unfold Factory.or_number, Factory.add.
  repeat split.
  - destruct i as [i|]; [|done]. by destruct (decide (i = 0)) as [->|].
  - destruct o as [o|]; [|done]. by destruct (decide (o = 0)) as [->|].
  - intros t' -> Ht. by rewrite decide_False.
  - intros i' o' -> ->. destruct H as [-> | ->]; cbn;
      destruct (decide (i' + o' = 0)) as [->|]; done.
  - intros [-> | ->]; destruct H as [-> | ->]; cbn; by repeat case_match.
Qed.

Lemma extractUsage_totals_witness :
  exists u,
    Factory.extractUsage
      (Some {| Factory.usage_metadata :=
                 Some {| Factory.input_tokens := Some 120; Factory.output_tokens := None;
                         Factory.total_tokens := None |};
               Factory.response_metadata_usage := None |}) = Some u /\
    inputTokens u = 120 /\ outputTokens u = 0 /\ totalTokens u = 0.
Proof.
  destruct (extractUsage_totals
              {| Factory.usage_metadata :=
                   Some {| Factory.input_tokens := Some 120; Factory.output_tokens := None;
                           Factory.total_tokens := None |};
                 Factory.response_metadata_usage := None |}
              {| Factory.input_tokens := Some 120; Factory.output_tokens := None;
                 Factory.total_tokens := None |} eq_refl)
    as (u & Hu & Hi & Ho & _ & Ht).
  exists u. split; [exact Hu|]. split; [exact Hi|]. split; [exact Ho|].
  apply Ht; [by left | by right].
Defined.

(* ===================================================================== *)
(** ** More on the retry helper *)
(* ===================================================================== *)

Section RetryShape.
Import Llm.
Context {T : Type}.
Variable fn : Z -> Result T.
Variable provider : string.
Variable maxAttempts : Z.

(** The waits add up to a geometric sum. *)
Lemma backoff_total (n : nat) : forall a : Z,
  0 <= a ->
  foldr Z.add 0 (backoff a n) = 500 * 2 ^ a * (2 ^ Z.of_nat n - 1).
Proof.
  induction n as [|n IH]; intros a Ha; cbn [backoff foldr].
  - cbn. lia.
  - rewrite IH by lia.
    replace (Z.of_nat (S n)) with (Z.of_nat n + 1) by lia.
    rewrite !Z.pow_add_r by lia. rewrite !Z.pow_1_r. lia.
Qed.

(** Entered at [a], the loop calls [fn] at [a], [a + 1], ... until a call
    returns or the attempts are used up, and sleeps between two calls. *)
Lemma retry_from_shape (n : nat) : forall a : Z,
  Z.to_nat (maxAttempts - a) = n ->
  exists m : nat,
    Z.of_nat m <= Z.max 0 (maxAttempts - a) /\
    calls (retry_from fn provider maxAttempts a).1 = seqZ a (Z.of_nat m) /\
    sleeps (retry_from fn provider maxAttempts a).1 = backoff a (m - 1) /\
    (forall j, a <= j < a + Z.of_nat m - 1 -> exists e, fn j = Threw e) /\
    match (retry_from fn provider maxAttempts a).2 with
    | Returned v => (0 < m)%nat /\ fn (a + Z.of_nat m - 1) = Returned v
    | Threw e =>
        (m = 0%nat /\ maxAttempts <= a /\ e = Error "Unreachable") \/
        ((0 < m)%nat /\ a + Z.of_nat m = maxAttempts /\ fn (maxAttempts - 1) = Threw e)
    end.
Proof.
  induction n as [n IH] using lt_wf_ind. intros a Hn.
  rewrite retry_from_step.
  destruct (decide (a < maxAttempts)) as [Hlt|Hge].
  2: { exists 0%nat. cbn [fst snd].
       split; [lia|]. split; [done|]. split; [done|]. split; [intros j Hj; lia|].
       left. split; [done|]. split; [lia|done]. }
  destruct (fn a) as [v|e] eqn:Hfn.
  { exists 1%nat. cbn [fst snd].
    split; [lia|]. split; [done|]. split; [done|]. split; [intros j Hj; lia|].
    split; [lia|]. rewrite <- Hfn. f_equal. lia. }
  destruct (decide (a = maxAttempts - 1)) as [Hlast|Hmore].
  { exists 1%nat. cbn [fst snd].
    split; [lia|]. split; [done|]. split; [done|]. split; [intros j Hj; lia|].
    right. split; [lia|]. split; [lia|]. by rewrite <- Hlast. }
  destruct (IH (Z.to_nat (maxAttempts - (a + 1)))) with (a := a + 1)
    as (m & Hm & Hcalls & Hsleeps & Hfailed & Hout); [lia|done|].
  assert (Hpos : (0 < m)%nat).
  { destruct (retry_from fn provider maxAttempts (a + 1)).2; [tauto|].
    destruct Hout as [(_ & ? & _)|(? & _)]; lia. }
  exists (S m). cbn [fst snd]. split; [lia|]. split; [|split; [|split]].
  - unfold calls in *. cbn. rewrite Hcalls.
    rewrite (seqZ_cons a) by lia. f_equal. f_equal; lia.
  - destruct m as [|m]; [lia|].
    replace (S (S m) - 1)%nat with (S m) by lia.
    replace (S m - 1)%nat with m in Hsleeps by lia.
    cbn [backoff]. rewrite <- Hsleeps. done.
  - intros j Hj. destruct (decide (j = a)) as [->|Hne]; [eauto|].
    apply Hfailed. lia.
  - destruct (retry_from fn provider maxAttempts (a + 1)).2 as [v|e'].
    + destruct Hout as [_ Hv]. split; [lia|]. rewrite <- Hv. f_equal. lia.
    + right. destruct Hout as [(? & ? & _)|(_ & Hend & He)]; [lia|].
      repeat split; [lia|lia|done].
Qed.

End RetryShape.

(** X15. For every function and every [maxAttempts] (3 when none is
    given), [withRetry] calls the function at attempts 0, 1, ..., n - 1 in
    this order, with n at most [maxAttempts] and every call but the last
    one failing; it sleeps only between two calls, 500 * 2^k milliseconds
    after failed attempt k, which adds up to 500 * (2^(n-1) - 1). It
    returns what the last call returned; it throws what the last call
    threw only when all [maxAttempts] attempts are used up, and throws
    "Unreachable" without any call when [maxAttempts] is not positive. *)
Theorem withRetry_attempts {T} (fn : Z -> Result T) (provider : string)
    (maxAttempts : option Z) :
  exists n : nat,
    Z.of_nat n <= Z.max 0 (default 3 maxAttempts) /\
    Llm.calls (Llm.withRetry fn provider maxAttempts).1 = seqZ 0 (Z.of_nat n) /\
    Llm.sleeps (Llm.withRetry fn provider maxAttempts).1 = Llm.backoff 0 (n - 1) /\
    foldr Z.add 0 (Llm.sleeps (Llm.withRetry fn provider maxAttempts).1)
      = 500 * (2 ^ Z.of_nat (n - 1) - 1) /\
    (forall j, 0 <= j < Z.of_nat n - 1 -> exists e, fn j = Threw e) /\
    match (Llm.withRetry fn provider maxAttempts).2 with
    | Returned v => (0 < n)%nat /\ fn (Z.of_nat n - 1) = Returned v
    | Threw e =>
        (n = 0%nat /\ default 3 maxAttempts <= 0 /\ e = Error "Unreachable") \/
        ((0 < n)%nat /\ Z.of_nat n = default 3 maxAttempts /\
         fn (default 3 maxAttempts - 1) = Threw e)
    end.
Proof.
  unfold Llm.withRetry.
  destruct (retry_from_shape fn provider (default 3 maxAttempts) _ 0 eq_refl)
    as (m & Hm & Hcalls & Hsleeps & Hfailed & Hout).
  exists m. rewrite Z.sub_0_r in Hm.
  split; [done|]. split; [done|]. split; [done|]. split; [|split].
  - rewrite Hsleeps, backoff_total by lia. rewrite Z.pow_0_r. lia.
  - intros j Hj. apply Hfailed. lia.
  - destruct (Llm.retry_from fn provider (default 3 maxAttempts) 0).2;
      rewrite ?Z.add_0_l in Hout; exact Hout.
Qed.

(** X16. [callLlm] on a model name without ":" and "/" (any vendor's own
    model name) builds an OpenAI client before anything else: without
    OPENAI_API_KEY it throws the error of that variable and makes no
    attempt at all, whatever other keys are present and whatever the
    options are; with the key, and once the rest of the chain is built, a
    failed first attempt is logged under the provider name "OpenAI". *)
Theorem callLlm_vendor_model_needs_openai_key (process_env : gmap string string)
    (call_inherited : string -> string -> Result unit)
    (keys : option (gmap string string)) (library : Llm.LlmEnv)
    (prompt : string) (options : Llm.CallLlmOptions) (name : string) :
  Llm.opt_model options = Some name ->
  Str.includes_char name ":" = false ->
  Str.includes_char name "/" = false ->
  (forall err, Factory.getApiKey process_env "OPENAI_API_KEY" keys = Threw err ->
     Llm.callLlm (Factory.llm_env process_env call_inherited keys library)
       prompt options = ([], Threw err)) /\
  (forall key err, Factory.getApiKey process_env "OPENAI_API_KEY" keys = Returned key ->
     (Llm.opt_outputSchema options = true ->
      Llm.withStructuredOutput library = Returned ()) ->
     (Llm.opt_outputSchema options = false ->
      forall tools bind_tools,
        Llm.opt_tools options = Some tools -> tools <> [] ->
        Llm.bindTools library = Some bind_tools -> bind_tools tools = Returned ()) ->
     Llm.fromMessages library
       (default (Llm.DEFAULT_SYSTEM_PROMPT library) (Llm.opt_systemPrompt options))
     = Returned () ->
     Llm.chain_invoke library prompt 0 = Threw err ->
     take 2 (Llm.callLlm (Factory.llm_env process_env call_inherited keys library)
               prompt options).1
     = [Llm.Call 0;
        Llm.LogError ("[OpenAI API] error (attempt 1/3): " +:+ exn_message err)]).
Proof.
  intros Hmodel Hc Hs.
  assert (Hcreate :
    Llm.createLLM (Factory.llm_env process_env call_inherited keys library) name
    = bind (Factory.openai process_env
              (if str_truthy name then name else Factory.DEFAULT_MODEL) false keys)
           (fun _ => Returned ())).
  { cbn [Factory.llm_env Llm.createLLM].
    pose proof (getChatModel_default process_env call_inherited name None keys Hc Hs) as H.
    unfold Factory.getChatModel in H. by rewrite H. }
  unfold Llm.callLlm, Llm.build_chain. rewrite Hmodel.
  cbn [default from_option Datatypes.id]. cbv zeta.
  rewrite Hcreate. unfold Factory.openai. split.
  - intros err ->. done.
  - intros key err -> Hschema Htools Hprompt Hfail. cbn [bind].
    cbn [Factory.llm_env Llm.withStructuredOutput Llm.bindTools Llm.fromMessages
         Llm.DEFAULT_SYSTEM_PROMPT Llm.resolveProvider_displayName Llm.chain_invoke].
    assert (Hbound :
      (if Llm.opt_outputSchema options then Llm.withStructuredOutput library
       else match Llm.opt_tools options, Llm.bindTools library with
            | Some (tool :: tools), Some bind_tools => bind_tools (tool :: tools)
            | _, _ => Returned ()
            end) = Returned ()).
    { destruct (Llm.opt_outputSchema options); [by apply Hschema|].
      destruct (Llm.opt_tools options) as [[|tool tools]|]; [done| |done].
      destruct (Llm.bindTools library) as [bind_tools|]; [|done].
      by apply (Htools eq_refl (tool :: tools) bind_tools). }
    rewrite Hbound. cbn [bind]. rewrite Hprompt.
    rewrite (resolveProvider_default name Hc Hs).
    unfold Llm.withRetry. cbn [default from_option Datatypes.id fst].
    rewrite retry_from_step, decide_True by lia. rewrite Hfail.
    rewrite decide_False by lia.
    destruct (retry_log_lines (Providers.displayName Providers.defaultProvider) err)
      as (Hline & _ & _).
    cbn [take fst]. by rewrite Hline.
Qed.

Lemma callLlm_vendor_model_needs_openai_key_witness :
  Llm.callLlm
    (Factory.llm_env Demo3.anthropic_only Demo3.inherited_throws None
       (Demo.flaky_llm Demo.answers))
    "hello" Demo3.claude_options
  = ([], Threw (Error
       "[LLM] OPENAI_API_KEY not found in environment variables or client overrides")).
Proof.
  apply (callLlm_vendor_model_needs_openai_key Demo3.anthropic_only Demo3.inherited_throws
           None (Demo.flaky_llm Demo.answers) "hello"
           Demo3.claude_options "claude-3-5-sonnet-latest" eq_refl eq_refl eq_refl).
  reflexivity.
Defined.

(* ===================================================================== *)
(** ** More on the meta-router *)
(* ===================================================================== *)

Section SetFromOrder.
Import FinancialSearch.

Lemma Set_from_acc_sublist (urls : list string) : forall seen : list string,
  exists kept,
    foldl (fun seen u => if decide (u ∈ seen) then seen else seen ++ [u]) seen urls
    = seen ++ kept /\ sublist kept urls.
Proof.
  induction urls as [|x urls IH]; intros seen; cbn [foldl].
  - exists []. by rewrite app_nil_r.
  - destruct (decide (x ∈ seen)) as [Hin|Hnin].
    + destruct (IH seen) as (kept & -> & Hsub). exists kept. split; [done|].
      by apply sublist_cons.
    + destruct (IH (seen ++ [x])) as (kept & -> & Hsub). exists (x :: kept).
      split; [by rewrite <- app_assoc|]. by apply sublist_skip.
Qed.

(** The set keeps the order of the array. *)
Lemma Set_from_sublist (urls : list string) : sublist (Set_from urls) urls.
Proof.
  destruct (Set_from_acc_sublist urls []) as (kept & Heq & Hsub).
  unfold Set_from. by rewrite Heq.
Qed.

Lemma Set_from_acc_NoDup (urls : list string) : forall seen : list string,
  NoDup (seen ++ urls) ->
  foldl (fun seen u => if decide (u ∈ seen) then seen else seen ++ [u]) seen urls
  = seen ++ urls.
Proof.
  induction urls as [|x urls IH]; intros seen Hnd; cbn [foldl].
  - by rewrite app_nil_r.
  - assert (Hnin : x ∉ seen).
    { apply NoDup_app in Hnd as (_ & Hdisj & _). intros Hin.
      apply (Hdisj x Hin). left. }
    rewrite decide_False by done.
    rewrite IH; [by rewrite <- app_assoc|]. by rewrite <- app_assoc.
Qed.

Lemma Set_from_NoDup_id (urls : list string) : NoDup urls -> Set_from urls = urls.
Proof. intros Hnd. unfold Set_from. by rewrite Set_from_acc_NoDup. Qed.

End SetFromOrder.

Section RouterExtras.
Import FinancialSearch.
Variable FINANCE_TOOL_MAP : gmap string SubTool.
Variable FINANCE_TOOLS : list string.
Variable llm : Llm.LlmEnv.
Variable routerPrompt : string.

(** X17. The merged object of a batch has the keys of its calls and no
    other key: between one entry and as many entries as there were
    calls, and exactly as many when the keys of the calls differ from one
    another. *)
Theorem financial_search_key_set (model query : string)
    (r : Llm.LlmResult) (m : AIMessage) (toolCalls : list ToolCall) :
  (Llm.callLlm llm query (router_options FINANCE_TOOLS routerPrompt model)).2 = Returned r ->
  Llm.response r = Llm.RespMessage m ->
  tool_calls m = Some toolCalls ->
  toolCalls <> [] ->
  exists combinedData urls,
    financial_search FINANCE_TOOL_MAP FINANCE_TOOLS llm routerPrompt model query
      = Returned (Success combinedData urls) /\
    (forall k, is_Some (combinedData !! k) <->
       exists i tc, toolCalls !! i = Some tc /\
                    k = merge_key (dispatch FINANCE_TOOL_MAP i tc)) /\
    (1 <= size combinedData <= length toolCalls)%nat /\
    (NoDup (merge_key <$> imap (dispatch FINANCE_TOOL_MAP) toolCalls) ->
     size combinedData = length toolCalls).
Proof.
  intros Hcall Hresp Htc Hne.
  rewrite (financial_search_returns _ _ _ _ _ _ _ Hcall), Hresp.
  rewrite (route_selected _ _ _ Htc Hne).
  eexists _, _. split; [reflexivity|].
  assert (Hdom : forall k,
    is_Some ((merge (imap (dispatch FINANCE_TOOL_MAP) toolCalls)).1 !! k) <->
    exists i tc, toolCalls !! i = Some tc /\ k = merge_key (dispatch FINANCE_TOOL_MAP i tc)).
  { intros k. rewrite <- elem_of_dom, merge_dom, elem_of_list_to_set, list_elem_of_fmap.
    split.
    - intros (res & -> & Hres). apply list_elem_of_lookup in Hres as [i Hi].
      rewrite list_lookup_imap in Hi.
      destruct (toolCalls !! i) as [tc|] eqn:Hi'; [|done].
      cbn in Hi. injection Hi as <-. by exists i, tc.
    - intros (i & tc & Hi & ->). exists (dispatch FINANCE_TOOL_MAP i tc).
      split; [done|]. apply list_elem_of_lookup. exists i. by apply results_lookup. }
  split; [exact Hdom|]. rewrite <- size_dom, merge_dom. split; [split|].
  - destruct toolCalls as [|tc tcs]; [done|].
    assert (Hin : merge_key (dispatch FINANCE_TOOL_MAP 0 tc)
                  ∈ (list_to_set (merge_key <$> imap (dispatch FINANCE_TOOL_MAP) (tc :: tcs))
                     : gset string)) by (cbn; set_solver).
    destruct (size _) eqn:Hsize; [|lia].
    apply size_empty_inv in Hsize. set_solver.
  - etrans; [apply size_list_to_set_le|].
    by rewrite length_fmap, length_imap.
  - intros Hnd. rewrite size_list_to_set by done.
    by rewrite length_fmap, length_imap.
Qed.

(** X18. The combined source URLs keep the order of the calls: the list is
    what remains of the URLs of the successful calls, taken call after
    call, when every later repetition of a URL is dropped; it is that
    very concatenation when no URL is repeated. *)
Theorem financial_search_source_url_order (model query : string)
    (r : Llm.LlmResult) (m : AIMessage) (toolCalls : list ToolCall) :
  (Llm.callLlm llm query (router_options FINANCE_TOOLS routerPrompt model)).2 = Returned r ->
  Llm.response r = Llm.RespMessage m ->
  tool_calls m = Some toolCalls ->
  toolCalls <> [] ->
  exists combinedData urls,
    financial_search FINANCE_TOOL_MAP FINANCE_TOOLS llm routerPrompt model query
      = Returned (Success combinedData urls) /\
    sublist urls
      (mjoin ((fun res => if error_set res then [] else sourceUrls res)
                <$> imap (dispatch FINANCE_TOOL_MAP) toolCalls)) /\
    head urls = head (mjoin ((fun res => if error_set res then [] else sourceUrls res)
                               <$> imap (dispatch FINANCE_TOOL_MAP) toolCalls)) /\
    (NoDup (mjoin ((fun res => if error_set res then [] else sourceUrls res)
                     <$> imap (dispatch FINANCE_TOOL_MAP) toolCalls)) ->
     urls = mjoin ((fun res => if error_set res then [] else sourceUrls res)
                     <$> imap (dispatch FINANCE_TOOL_MAP) toolCalls)).
Proof.
  intros Hcall Hresp Htc Hne.
  rewrite (financial_search_returns _ _ _ _ _ _ _ Hcall), Hresp.
  rewrite (route_selected _ _ _ Htc Hne).
  eexists _, _. split; [reflexivity|].
  unfold merge. rewrite merge_urls_acc. cbn [app].
  split; [apply Set_from_sublist|]. split; [|apply Set_from_NoDup_id].
  destruct (mjoin _) as [|u us]; [done|].
  unfold Set_from. cbn [foldl]. rewrite decide_False by apply not_elem_of_nil.
  destruct (Set_from_acc_sublist us ([] ++ [u])) as (kept & -> & _). done.
Qed.

(** X19. The routing call is not guarded: when the model cannot be
    created, when binding the finance tools or making the prompt template
    throws, or when the chain is built and its three attempts all fail,
    [financial_search] throws the error of [createLLM], of the chain
    building, respectively of the third attempt, and returns no tool
    result. *)
Theorem financial_search_routing_failure (model query : string) (e : Exn) :
  Llm.createLLM llm model = Threw e \/
  Llm.build_chain llm (router_options FINANCE_TOOLS routerPrompt model) = Threw e \/
  (Llm.build_chain llm (router_options FINANCE_TOOLS routerPrompt model) = Returned () /\
   (forall k, 0 <= k < 2 -> exists e', Llm.chain_invoke llm query k = Threw e') /\
   Llm.chain_invoke llm query 2 = Threw e) ->
  financial_search FINANCE_TOOL_MAP FINANCE_TOOLS llm routerPrompt model query = Threw e.
Proof.
  unfold financial_search, Llm.callLlm.
  intros [Hcreate | [-> | (-> & Hfail & Hlast)]]; [|done|].
  - unfold Llm.build_chain, router_options.
    cbn [Llm.opt_model default from_option Datatypes.id]. by rewrite Hcreate.
  - cbv zeta. cbn [fst snd].
    unfold Llm.withRetry. cbn [default from_option Datatypes.id].
    destruct (retry_from_exhausted (Llm.chain_invoke llm query)
                (Llm.resolveProvider_displayName llm
                   (default Llm.DEFAULT_MODEL
                      (Llm.opt_model (router_options FINANCE_TOOLS routerPrompt model))))
                3 2 0 e) as [-> _]; try done.
Qed.

End RouterExtras.

Lemma financial_search_key_set_witness :
  exists combinedData urls,
    FinancialSearch.financial_search Demo.tool_map Demo.tool_names
      (Demo.flaky_llm (Demo.router_selects (Some Demo.two_calls)))
      "route" "gpt-4o" "price and news of Reliance"
    = Returned (Success combinedData urls) /\
    size combinedData = 2%nat.
Proof.
  destruct (financial_search_key_set Demo.tool_map Demo.tool_names
              (Demo.flaky_llm (Demo.router_selects (Some Demo.two_calls)))
              "route" "gpt-4o" "price and news of Reliance"
              {| Llm.response := Llm.RespMessage (Demo.router_selects (Some Demo.two_calls));
                 Llm.usage := None |}
              (Demo.router_selects (Some Demo.two_calls)) Demo.two_calls)
    as (combinedData & urls & Hret & _ & _ & Hsize).
  - reflexivity.
  - reflexivity.
  - reflexivity.
  - discriminate.
  - exists combinedData, urls. split; [exact Hret|].
    apply Hsize. vm_compute. repeat constructor; set_solver.
Defined.

Lemma financial_search_source_url_order_witness :
  exists combinedData urls,
    FinancialSearch.financial_search Demo.tool_map Demo.tool_names
      (Demo.flaky_llm (Demo.router_selects (Some Demo.two_calls)))
      "route" "gpt-4o" "price and news of Reliance"
    = Returned (Success combinedData urls) /\
    head urls = Some "https://www.alphavantage.co".
Proof.
  destruct (financial_search_source_url_order Demo.tool_map Demo.tool_names
              (Demo.flaky_llm (Demo.router_selects (Some Demo.two_calls)))
              "route" "gpt-4o" "price and news of Reliance"
              {| Llm.response := Llm.RespMessage (Demo.router_selects (Some Demo.two_calls));
                 Llm.usage := None |}
              (Demo.router_selects (Some Demo.two_calls)) Demo.two_calls)
    as (combinedData & urls & Hret & _ & Hhead & _).
  - reflexivity.
  - reflexivity.
  - reflexivity.
  - discriminate.
  - exists combinedData, urls. split; [exact Hret|exact Hhead].
Defined.

Lemma financial_search_routing_failure_witness :
  FinancialSearch.financial_search Demo.tool_map Demo.tool_names Demo3.down_llm
    "route" "gpt-4o" "price of Reliance"
  = Threw (Error "503 Service Unavailable").
Proof.
  apply (financial_search_routing_failure Demo.tool_map Demo.tool_names Demo3.down_llm
           "route" "gpt-4o" "price of Reliance" (Error "503 Service Unavailable")).
  right. right. split; [reflexivity|]. split; [|reflexivity].
  intros k _. eexists. reflexivity.
Defined.

(* ===================================================================== *)
(** ** More on the finance tools *)
(* ===================================================================== *)

Section FinanceShapeFacts.
Import Finance FinanceShape.

(** An object literal has the keys it is written with. *)
Lemma pick_keys (v : JsVal) (props : list (string * string)) :
  forall fields, pick v props = Returned fields -> fields.*1 = props.*1.
Proof.
  induction props as [|[key prop] props IH]; intros fields; cbn [pick].
  - by intros [= <-].
  - destruct (get v prop) as [x|e]; cbn [bind]; [|discriminate].
    destruct (pick v props) as [rest|e]; cbn [bind]; [|discriminate].
    intros [= <-]. cbn. f_equal. by apply IH.
Qed.

Lemma failed_is_error (what ticker : string) (e : Exn) :
  is_error_result (failed_to_fetch what ticker e).
Proof. unfold is_error_result, failed_to_fetch. eauto. Qed.

End FinanceShapeFacts.

(** X20. What the price and fundamentals tools return has one of two
    shapes, whatever the remote service answers: a failure, which is an
    [error] message with no source URL, or an object with the fixed keys
    of the tool, in their order, with exactly one source URL. A result
    never mixes the two. *)
Theorem finance_result_shape (env : Finance.FinanceEnv) (ticker : string) :
  (FinanceShape.is_error_result (Finance.getYahooPriceSnapshot env ticker) \/
   FinanceShape.is_data_result
     ["symbol"; "price"; "currency"; "exchange"; "open"; "high"; "low"; "previousClose";
      "volume"; "marketCap"; "timestamp"]
     ["https://finance.yahoo.com/quote/" +:+ ticker]
     (Finance.getYahooPriceSnapshot env ticker)) /\
  (FinanceShape.is_error_result (Finance.getYahooFundamentals env ticker) \/
   FinanceShape.is_data_result
     ["valuation"; "financials"; "balanceSheet"; "incomeStatement"; "cashFlow"]
     ["https://finance.yahoo.com/quote/" +:+ ticker +:+ "/financials"]
     (Finance.getYahooFundamentals env ticker)) /\
  (FinanceShape.is_error_result (Finance.getAlphaVantagePriceSnapshot env ticker) \/
   FinanceShape.is_data_result
     ["symbol"; "price"; "open"; "high"; "low"; "volume"; "latestTradingDay";
      "previousClose"; "change"; "changePercent"]
     ["https://www.alphavantage.co"]
     (Finance.getAlphaVantagePriceSnapshot env ticker)).
Proof.
  split; [|split].
  - unfold Finance.getYahooPriceSnapshot.
    destruct (Finance.yahooFinance_quote env ticker) as [quote|e]; cbn [bind try_catch];
      [|left; apply failed_is_error].
    destruct (Finance.pick quote _) as [fields|e] eqn:Hpick; cbn [bind try_catch];
      [|left; apply failed_is_error].
    right. eexists. split; [reflexivity|].
    rewrite fmap_app, (pick_keys _ _ _ Hpick). done.
  - unfold Finance.getYahooFundamentals.
    destruct (Finance.yahooFinance_quoteSummary env ticker) as [result|e];
      cbn [bind try_catch]; [|left; apply failed_is_error].
    destruct (Finance.pick result _) as [fields|e] eqn:Hpick; cbn [bind try_catch];
      [|left; apply failed_is_error].
    right. eexists. split; [reflexivity|]. by rewrite (pick_keys _ _ _ Hpick).
  - unfold Finance.getAlphaVantagePriceSnapshot.
    destruct (Finance.process_env env !! "ALPHA_VANTAGE_API_KEY") as [apiKey|];
      [|left; apply failed_is_error].
    destruct (negb (str_truthy apiKey)); [left; apply failed_is_error|].
    destruct (Finance.fetch_json env _) as [rawData|e]; cbn [bind try_catch];
      [|left; apply failed_is_error].
    destruct (get rawData "Error Message") as [errorMessage|e]; cbn [bind try_catch];
      [|left; apply failed_is_error].
    destruct (truthy errorMessage); [left; apply failed_is_error|].
    destruct (get rawData "Note") as [note|e]; cbn [bind try_catch];
      [|left; apply failed_is_error].
    destruct (truthy note); [left; apply failed_is_error|].
    destruct (get rawData "Global Quote") as [quote|e]; cbn [bind try_catch];
      [|left; apply failed_is_error].
    destruct (negb (truthy quote) || Finance.no_keys quote).
    { left. unfold FinanceShape.is_error_result. cbn. eauto. }
    destruct (Finance.pick quote _) as [raw|e] eqn:Hpick; cbn [bind try_catch];
      [|left; apply failed_is_error].
    right. eexists. split; [reflexivity|].
    pose proof (pick_keys _ _ _ Hpick) as Hkeys.
    rewrite <- list_fmap_compose. etrans; [|exact Hkeys].
    apply list_fmap_ext. intros i [k v] _. cbn.
    by repeat case_bool_decide.
Qed.

(** X21. The two Alpha Vantage tools treat a missing key differently: the
    overview tool does not check it and requests the URL with the key
    spelled "undefined"; what that request yields is what the tool
    returns: the failure of the request as an error message, the API's
    own "Error Message" as an error message, and a non-empty answer
    without "Error Message" and "Note" as data. *)
Theorem overview_without_key (env : Finance.FinanceEnv) (ticker : string) :
  Finance.process_env env !! "ALPHA_VANTAGE_API_KEY" = None ->
  match Finance.fetch_json env
          ("https://www.alphavantage.co/query?function=OVERVIEW&symbol=" +:+ ticker
             +:+ "&apikey=undefined") with
  | Threw e =>
      Finance.getAlphaVantageOverview env ticker
      = Returned (formatToolResult
          (VObj [("error", VStr ("Failed to fetch overview for " +:+ ticker +:+ ": "
                                 +:+ exn_to_string e))]) [])
  | Returned (VObj fields) =>
      (forall reason, assoc "Error Message" fields = Some (VStr reason) -> reason <> "" ->
         Finance.getAlphaVantageOverview env ticker
         = Returned (formatToolResult
             (VObj [("error", VStr ("Failed to fetch overview for " +:+ ticker
                                    +:+ ": Error: " +:+ reason))]) [])) /\
      (assoc "Error Message" fields = None -> assoc "Note" fields = None ->
       fields <> [] ->
       Finance.getAlphaVantageOverview env ticker
       = Returned (formatToolResult (VObj fields) ["https://www.alphavantage.co"]))
  | Returned _ => True
  end.
Proof.
  intros Hkey. unfold Finance.getAlphaVantageOverview. rewrite Hkey.
  cbn [default from_option Datatypes.id].
  destruct (Finance.fetch_json env _) as [data|e]; [|done].
  destruct data as [| | | | | |fields]; try done. split.
  - intros reason Hmsg Hne. cbn [bind try_catch get]. rewrite Hmsg.
    cbn [default from_option Datatypes.id truthy]. unfold str_truthy at 1.
    rewrite decide_False by done. cbn [try_catch to_string].
    unfold Finance.failed_to_fetch, exn_to_string, Error.
    rewrite decide_False by done. rewrite decide_False by done. done.
  - intros Hmsg Hnote Hne. cbn [bind try_catch get]. rewrite Hmsg, Hnote.
    cbn [default from_option Datatypes.id truthy bind]. unfold Finance.no_keys.
    rewrite bool_decide_eq_false_2 by done. done.
Qed.

Lemma overview_without_key_witness :
  Finance.getAlphaVantageOverview Demo3.keyless_env "IBM"
  = Returned (formatToolResult (VObj [("Symbol", VStr "IBM")])
               ["https://www.alphavantage.co"]).
Proof.
  apply (overview_without_key Demo3.keyless_env "IBM" eq_refl); [reflexivity|reflexivity|].
  discriminate.
Defined.

(* ===================================================================== *)
(** ** Facts about the model tables *)
(* ===================================================================== *)

Section ModelTableFacts.
Import ModelTable.

(** The models listed for a provider id are those of the table. *)
Lemma getModelsForProvider_listed (provider : string) (entry : Model) :
  entry ∈ getModelsForProvider provider ->
  entry ∈ mjoin (models <$> PROVIDERS).
Proof.
  unfold getModelsForProvider.
  destruct (List.find _ PROVIDERS) as [p|] eqn:Hfind; [|by intros ?%elem_of_nil].
  apply List.find_some in Hfind as [Hin _]. apply list_elem_of_In in Hin.
  intros Hentry. apply list_elem_of_join. exists (models p). split; [done|].
  by apply list_elem_of_fmap_2.
Qed.

End ModelTableFacts.

(** Every element of a list written out satisfies the goal. *)
Ltac each_listed H :=
  repeat (apply elem_of_cons in H as [->|H]); [..|by apply elem_of_nil in H].

(** X22. No model of the tables is routed to its own provider by name:
    every model id listed for a provider, Anthropic's, Google's, xAI's,
    Moonshot's and DeepSeek's included, is resolved by [resolveProvider]
    to OpenAI, because no listed id contains ":" or "/". *)
Theorem listed_models_resolve_to_openai (provider modelId : string) :
  modelId ∈ ModelTable.getModelIdsForProvider provider ->
  Providers.resolveProvider modelId = Providers.defaultProvider /\
  Providers.id (Providers.resolveProvider modelId) = "openai".
Proof.
  unfold ModelTable.getModelIdsForProvider.
  intros (entry & -> & Hin)%list_elem_of_fmap.
  apply getModelsForProvider_listed in Hin.
  assert (Hsep : Str.includes_char (ModelTable.model_id entry) ":" = false /\
                 Str.includes_char (ModelTable.model_id entry) "/" = false).
  { vm_compute in Hin. each_listed Hin; by vm_compute. }
  destruct Hsep as [Hc Hs]. by rewrite (resolveProvider_default _ Hc Hs).
Qed.

Lemma listed_models_resolve_to_openai_witness :
  Providers.resolveProvider "claude-3-opus-latest" = Providers.defaultProvider /\
  Providers.id (Providers.resolveProvider "claude-3-opus-latest") = "openai".
Proof.
  apply (listed_models_resolve_to_openai "anthropic" "claude-3-opus-latest").
  vm_compute. set_solver.
Defined.

(** X23. The display name of a listed model is found again from its id:
    for every model listed for a provider, [getModelDisplayName] returns
    its display name, from the bare id as well as from the id behind an
    "ollama:" or "openrouter:" prefix. *)
Theorem getModelDisplayName_listed (provider : string) (entry : ModelTable.Model) :
  entry ∈ ModelTable.getModelsForProvider provider ->
  ModelTable.getModelDisplayName (ModelTable.model_id entry)
    = ModelTable.model_displayName entry /\
  ModelTable.getModelDisplayName ("ollama:" +:+ ModelTable.model_id entry)
    = ModelTable.model_displayName entry /\
  ModelTable.getModelDisplayName ("openrouter:" +:+ ModelTable.model_id entry)
    = ModelTable.model_displayName entry.
Proof.
  intros Hin. apply getModelsForProvider_listed in Hin.
  vm_compute in Hin. each_listed Hin; by vm_compute.
Qed.

Lemma getModelDisplayName_listed_witness :
  ModelTable.getModelDisplayName "deepseek-reasoner" = "DeepSeek R1" /\
  ModelTable.getModelDisplayName "ollama:deepseek-reasoner" = "DeepSeek R1" /\
  ModelTable.getModelDisplayName "openrouter:deepseek-reasoner" = "DeepSeek R1".
Proof.
  apply (getModelDisplayName_listed "deepseek"
           {| ModelTable.model_id := "deepseek-reasoner";
              ModelTable.model_displayName := "DeepSeek R1" |}).
  vm_compute. set_solver.
Defined.

Section ModelTableUnlisted.
Import ModelTable.

Lemma first_display_name_none (normalizedId modelId : string) (providers : list Provider) :
  (forall p entry, p ∈ providers -> entry ∈ models p ->
     model_id entry <> normalizedId /\ model_id entry <> modelId) ->
  first_display_name normalizedId modelId providers = None.
Proof.
  induction providers as [|p ps IH]; intros Hno; cbn [first_display_name]; [done|].
  destruct (List.find _ (models p)) as [entry|] eqn:Hfind.
  - apply List.find_some in Hfind as [Hin Hmatch]. apply list_elem_of_In in Hin.
    destruct (Hno p entry) as [H1 H2]; [left|done|].
    apply orb_true_iff in Hmatch as [Hm|Hm]; apply bool_decide_eq_true in Hm; done.
  - apply IH. intros p' entry Hp' Hentry. apply (Hno p' entry); [by right|done].
Qed.

(** Each entry of the table is found under its provider id. *)
Lemma getModelsForProvider_entry (p : Provider) :
  p ∈ PROVIDERS -> getModelsForProvider (providerId p) = models p.
Proof.
  intros Hin. vm_compute in Hin. each_listed Hin; reflexivity.
Qed.

End ModelTableUnlisted.

(** X24. A model id that no provider lists, with or without its "ollama:"
    or "openrouter:" prefix, has no display name of its own:
    [getModelDisplayName] returns the id with that prefix removed. *)
Theorem getModelDisplayName_unlisted (modelId : string) :
  (forall provider,
     (modelId ∉ ModelTable.getModelIdsForProvider provider) /\
     (Str.remove_leading ["ollama:"; "openrouter:"] modelId
        ∉ ModelTable.getModelIdsForProvider provider)) ->
  ModelTable.getModelDisplayName modelId
  = Str.remove_leading ["ollama:"; "openrouter:"] modelId.
Proof.
  intros Hno. unfold ModelTable.getModelDisplayName. cbv zeta.
  rewrite first_display_name_none; [done|].
  intros p entry Hp Hentry.
  destruct (Hno (ModelTable.providerId p)) as [H1 H2].
  unfold ModelTable.getModelIdsForProvider in H1, H2.
  rewrite (getModelsForProvider_entry p Hp) in H1, H2.
  split; intros Heq; [apply H2 | apply H1]; rewrite <- Heq;
    by apply list_elem_of_fmap_2.
Qed.

Lemma getModelDisplayName_unlisted_witness :
  ModelTable.getModelDisplayName "ollama:llama3" = "llama3".
Proof.
  apply (getModelDisplayName_unlisted "ollama:llama3").
  intros provider. unfold ModelTable.getModelIdsForProvider.
  split; intros (entry & Hid & Hin)%list_elem_of_fmap;
    apply getModelsForProvider_listed in Hin;
    vm_compute in Hin; each_listed Hin; discriminate Hid.
Defined.

(* ===================================================================== *)
(** ** Facts about the chat handler *)
(* ===================================================================== *)

Section ServerFacts.
Import Server.

Lemma forallb_reverse_any {A} (f : A -> bool) (l : list A) :
  forallb f (reverse l) = forallb f l.
Proof.
  induction l as [|x l IH]; [done|].
  rewrite reverse_cons, forallb_app, IH. cbn. rewrite andb_true_r. apply andb_comm.
Qed.

Lemma forallb_chunks (evs : list Agent.AgentEvent) :
  forallb (fun c => negb (is_terminal_chunk c)) (map SseEvent evs)
  = forallb (fun e => negb (Agent.is_terminal_event e)) evs.
Proof. induction evs as [|e evs IH]; [done|]. cbn. by rewrite IH. Qed.

Lemma forwarded_stream (t : Agent.Trace) : forwarded (stream t) = Agent.events t.1.
Proof.
  unfold forwarded, stream. rewrite omap_app.
  assert (H : forall evs, omap (fun c => match c with
                                         | SseEvent e => Some e
                                         | SseError _ => None
                                         end) (map SseEvent evs) = evs).
  { induction evs as [|e evs IH]; [done|]. cbn. by rewrite IH. }
  rewrite H. destruct t.2; cbn; by rewrite app_nil_r.
Qed.

(** A run with one terminal signal gives a stream with one terminal chunk. *)
Lemma stream_one_terminal (t : Agent.Trace) :
  Agent.one_terminal_last t = true -> one_terminal_chunk_last (stream t) = true.
Proof.
  unfold Agent.one_terminal_last, one_terminal_chunk_last, stream.
  destruct t as [acts [[]|e]]; cbn [fst snd].
  - rewrite app_nil_r. change (map SseEvent ?l) with (SseEvent <$> l).
    rewrite <- fmap_reverse.
    destruct (reverse (Agent.events acts)) as [|last before]; [done|].
    cbn [fmap list_fmap is_terminal_chunk].
    change (list_fmap _ _ SseEvent before) with (map SseEvent before).
    by rewrite forallb_chunks.
  - intros Hnone. rewrite reverse_app. cbn [reverse rev_append app is_terminal_chunk].
    rewrite forallb_reverse_any, forallb_chunks. done.
Qed.

End ServerFacts.

(** X25. The handler turns the one terminal signal of a run into one
    terminal chunk: for a request with a query, when the run behind it
    ends with a terminal event and has no other, or fails without any,
    the stream forwards the events of the run in order and has exactly
    one terminal chunk, its last one: the [done] or [error] event of the
    run, or the error chunk that the handler makes of the failure. *)
Theorem chat_stream_one_terminal_chunk (req_json : Result JsVal)
    (runAgent : JsVal -> JsVal -> JsVal -> JsVal -> Agent.Trace)
    (body query model provider apiKeys : JsVal) :
  req_json = Returned body ->
  Server.destructure body = Returned (query, model, provider, apiKeys) ->
  truthy query = true ->
  Agent.one_terminal_last
    (runAgent query (Server.or_literal model "gpt-5.2")
       (Server.or_literal provider "openai") apiKeys) = true ->
  exists chunks,
    Server.chat req_json runAgent = Server.EventStream chunks /\
    Server.one_terminal_chunk_last chunks = true /\
    Server.forwarded chunks
    = Agent.events (runAgent query (Server.or_literal model "gpt-5.2")
                      (Server.or_literal provider "openai") apiKeys).1.
Proof.
  intros -> Hbody Hquery Hone. unfold Server.chat. cbn [bind].
  rewrite Hbody. cbn [bind]. rewrite Hquery. cbn [negb].
  eexists. split; [reflexivity|]. split.
  - by apply stream_one_terminal.
  - apply forwarded_stream.
Qed.

Lemma chat_stream_one_terminal_chunk_witness :
  exists chunks,
    Server.chat (Returned Demo3.chat_body) Demo3.served_loop = Server.EventStream chunks /\
    Server.one_terminal_chunk_last chunks = true /\
    Server.forwarded chunks
    = Agent.events (Demo3.served_loop (VStr "price of RELIANCE.BSE") (VStr "gpt-5.2")
                      (VStr "openai") VUndefined).1.
Proof.
  apply (chat_stream_one_terminal_chunk (Returned Demo3.chat_body) Demo3.served_loop
           Demo3.chat_body (VStr "price of RELIANCE.BSE") VUndefined VUndefined VUndefined).
  - reflexivity.
  - reflexivity.
  - reflexivity.
  - vm_compute. reflexivity.
Defined.

(** X26. As [runAgent] is written, a chat request that has a query is
    answered with a stream of a single chunk, the error chunk for the
    TypeError of calling [run] on the promise that [Agent.create]
    returned: no event of a run is ever streamed. *)
Theorem chat_as_written (req_json : Result JsVal)
    (runAgent : JsVal -> JsVal -> JsVal -> JsVal -> Agent.Trace)
    (body query model provider apiKeys : JsVal) :
  req_json = Returned body ->
  Server.destructure body = Returned (query, model, provider, apiKeys) ->
  truthy query = true ->
  (forall q m p k, exists created text config history,
     runAgent q m p k = Agent.runAgent created text config history) ->
  Server.chat req_json runAgent
  = Server.EventStream [Server.SseError (VStr "agent.run is not a function")].
Proof.
  intros -> Hbody Hquery Hrun. unfold Server.chat. cbn [bind].
  rewrite Hbody. cbn [bind]. rewrite Hquery. cbn [negb].
  destruct (Hrun query (Server.or_literal model "gpt-5.2")
              (Server.or_literal provider "openai") apiKeys)
    as (created & text & config & history & ->).
  reflexivity.
Qed.

Lemma chat_as_written_witness :
  Server.chat (Returned Demo3.chat_body) Demo3.served_agent
  = Server.EventStream [Server.SseError (VStr "agent.run is not a function")].
Proof.
  apply (chat_as_written (Returned Demo3.chat_body) Demo3.served_agent
           Demo3.chat_body (VStr "price of RELIANCE.BSE") VUndefined VUndefined VUndefined).
  - reflexivity.
  - reflexivity.
  - reflexivity.
  - intros q m p k. unfold Demo3.served_agent. eauto.
Defined.

(** X27. The handler answers without starting a run, and so whatever
    [runAgent] would do, in three cases: a body that cannot be read gives
    status 500 with the message of the error; a body that is [null] gives
    status 500 as well, the destructuring failing; any other body without
    a truthy [query] (an object without one or with an empty one, an
    array, a number, a string) gives status 400, "Query is required". *)
Theorem chat_without_query (req_json : Result JsVal)
    (runAgent : JsVal -> JsVal -> JsVal -> JsVal -> Agent.Trace) :
  match req_json with
  | Threw err =>
      Server.chat req_json runAgent = Server.Json [("error", Server.message_of err)] 500
  | Returned VNull =>
      Server.chat req_json runAgent
      = Server.Json
          [("error", VStr "Cannot destructure property 'query' of 'body' as it is null.")]
          500
  | Returned (VObj fields) =>
      truthy (default VUndefined (assoc "query" fields)) = false ->
      Server.chat req_json runAgent
      = Server.Json [("error", VStr "Query is required")] 400
  | Returned VUndefined => True
  | Returned _ =>
      Server.chat req_json runAgent
      = Server.Json [("error", VStr "Query is required")] 400
  end.
Proof.
  destruct req_json as [[| | | | | |fields]|err]; try done.
  intros Hquery. unfold Server.chat. cbn [bind Server.destructure]. by rewrite Hquery.
Qed.

(* ===================================================================== *)
(** ** Facts about the module that routes by bare prefix *)
(* ===================================================================== *)

(** X28. The two model modules of the repository route differently. The
    one that looks for a bare prefix sends every "claude-..." name to the
    Anthropic client, under ANTHROPIC_API_KEY, and sends a name with none
    of its five prefixes to an OpenAI client without checking any key, so
    that it never throws for such a name. The one that goes through the
    provider registry sends the same "claude-..." name, when it has no ":"
    and no "/", to the OpenAI factory, under OPENAI_API_KEY. *)
Theorem prefix_routing_disagrees (process_env : gmap string string)
    (call_inherited : string -> string -> Result unit) (rest : string)
    (streams : option bool) (keys : option (gmap string string)) :
  Str.includes_char rest ":" = false ->
  Str.includes_char rest "/" = false ->
  PrefixRouting.getChatModel process_env (Some ("claude-" +:+ rest)) streams keys
  = bind (PrefixRouting.getApiKey process_env "ANTHROPIC_API_KEY" "Anthropic" keys)
      (fun key =>
         Returned {| Factory.class := Factory.ChatAnthropic;
                     Factory.model := "claude-" +:+ rest;
                     Factory.streaming := default false streams;
                     Factory.apiKeys := keys;
                     Factory.apiKey := Some key;
                     Factory.baseURL := None;
                     Factory.defaultHeaders := [] |}) /\
  Factory.getChatModel process_env call_inherited (Some ("claude-" +:+ rest)) streams keys
  = Factory.openai process_env ("claude-" +:+ rest) (default false streams) keys.
Proof.
  intros Hc Hs. split.
  - unfold PrefixRouting.getChatModel. cbn [default from_option Datatypes.id].
    cbv zeta. unfold PrefixRouting.MODEL_PROVIDERS at 1. cbn [List.find fst].
    unfold Str.startsWith at 1. by rewrite (prefix_app "claude-" rest).
  - rewrite getChatModel_default; [done| |]; simpl; done.
Qed.

Lemma prefix_routing_disagrees_witness :
  (exists m, PrefixRouting.getChatModel Demo3.anthropic_only
               (Some "claude-3-5-sonnet-latest") None None = Returned m /\
             Factory.class m = Factory.ChatAnthropic) /\
  Factory.getChatModel Demo3.anthropic_only Demo3.inherited_throws
    (Some "claude-3-5-sonnet-latest") None None
  = Threw (Error "[LLM] OPENAI_API_KEY not found in environment variables or client overrides").
Proof.
  destruct (prefix_routing_disagrees Demo3.anthropic_only Demo3.inherited_throws
              "3-5-sonnet-latest" None None eq_refl eq_refl) as [Hold Hnew].
  split.
  - eexists. split; [exact Hold|reflexivity].
  - exact Hnew.
Defined.

(** X29. In the module that routes by bare prefix, a model name that
    starts with none of the five prefixes gets the default factory, which
    reads OPENAI_API_KEY without a check: [getChatModel] throws no error
    of a missing key for it in any environment, and constructs the OpenAI
    client without a key when neither the overrides nor the environment
    have one. *)
Theorem prefix_routing_default_never_throws (process_env : gmap string string)
    (name : string) (streams : option bool) (keys : option (gmap string string)) :
  (forall entry, entry ∈ PrefixRouting.MODEL_PROVIDERS process_env ->
     Str.startsWith name entry.1 = false) ->
  exists m,
    PrefixRouting.getChatModel process_env (Some name) streams keys = Returned m /\
    Factory.class m = Factory.ChatOpenAI /\
    Factory.model m = name /\
    (keys ≫= (fun o => o !! "OPENAI_API_KEY") = None ->
     process_env !! "OPENAI_API_KEY" = None ->
     Factory.apiKey m = None).
Proof.
  intros Hnone. unfold PrefixRouting.getChatModel. cbn [default from_option Datatypes.id].
  cbv zeta.
  destruct (List.find _ _) as [entry|] eqn:Hfind.
  { apply List.find_some in Hfind as [Hin Hstarts]. apply list_elem_of_In in Hin.
    by rewrite (Hnone entry Hin) in Hstarts. }
  eexists. split; [reflexivity|]. cbn [Factory.class Factory.model Factory.apiKey].
  repeat split. by intros -> ->.
Qed.

Lemma prefix_routing_default_never_throws_witness :
  exists m,
    PrefixRouting.getChatModel ∅ (Some "gpt-5.2") None None = Returned m /\
    Factory.class m = Factory.ChatOpenAI /\
    Factory.model m = "gpt-5.2" /\
    Factory.apiKey m = None.
Proof.
  destruct (prefix_routing_default_never_throws ∅ "gpt-5.2" None None)
    as (m & Hm & Hclass & Hmodel & Hkey).
  - intros entry Hin. unfold PrefixRouting.MODEL_PROVIDERS in Hin.
    each_listed Hin; reflexivity.
  - exists m. split; [exact Hm|]. split; [exact Hclass|]. split; [exact Hmodel|].
    apply Hkey; reflexivity.
Defined.
